(** * heyfinal-scripts: the WiFi diagnostic tool (ultimate-wifi-fixer.py)

    A shallow embedding of the command runner, the record parsers, the
    quality heuristic, the issue detector and the remediation dispatcher
    of [UltimateWiFiFixer], and the properties its specification states
    about them.

    Conventions of the embedding.
    - Python [int] is [Z]; [str] is [string]; a character is an [ascii],
      read as the code point of the same number, so a text holds code
      points below 256 only. On these the character classes ([\d], [\s],
      [\w], [str.isspace], [str.isdigit]) are Python's; the case maps act
      on the ASCII letters.
    - [Optional[T]] is [option T]; a Python truth test on it is written
      out ([None] and the empty string are false).
    - External commands are an oracle that sees the calls made so far;
      every call of [run_command] is appended to a trace.
    - [async]/[await] is sequential in this program and is not modelled. *)

From Stdlib Require Import ZArith Ascii DecimalString Lia.
From Stdlib Require String.
From stdpp Require Import gmap strings list.

Local Open Scope Z_scope.

(** ** Python exceptions and results *)

(** The exceptions of class [Exception] that the modelled code can meet:
    [subprocess.TimeoutExpired], and any other one, kept with [str(e)].
    [KeyboardInterrupt] and [SystemExit] are not of class [Exception];
    they end the whole run, in [main], and are no outcome of a call here. *)
Inductive exn : Type :=
  | TimeoutExpired
  | OtherException (msg : string).

Inductive py_result (A : Type) : Type :=
  | Return (a : A)
  | Raise (e : exn).
Arguments Return {A} a.
Arguments Raise {A} e.

Definition IndexError : exn := OtherException "list index out of range".
Definition ValueError (lit : string) : exn :=
  OtherException ("invalid literal for int() with base 10: '" +:+ lit +:+ "'").

(** ** Characters *)

Definition code (c : ascii) : nat := nat_of_ascii c.

Definition in_range (lo hi : nat) (c : ascii) : bool :=
  (Nat.leb lo (code c)) && (Nat.leb (code c) hi).

(** [\d] and one character of [str.isdecimal]: the digits 0 to 9. *)
Definition is_digit (c : ascii) : bool := in_range 48 57 c.

(** One character of [str.isdigit]: a digit, or one of the superscript
    digits two, three (178, 179) and one (185), which [\d] and [int] do
    not accept. *)
Definition is_digit_char (c : ascii) : bool :=
  is_digit c || in_range 178 179 c || in_range 185 185 c.

(** [\s] and [str.isspace]: tab, LF, VT, FF, CR, FS, GS, RS, US, space,
    next line (133) and no-break space (160). *)
Definition is_space (c : ascii) : bool :=
  in_range 9 13 c || in_range 28 32 c || in_range 133 133 c || in_range 160 160 c.

Definition is_upper (c : ascii) : bool := in_range 65 90 c.
Definition is_lower (c : ascii) : bool := in_range 97 122 c.

(** The code points from 128 to 255 that are letters or numbers: the
    ordinal indicators (170, 186), the superscript digits, the micro
    sign (181), the fractions (188 to 190) and the letters from 192 on,
    the multiplication sign (215) and the division sign (247) apart. *)
Definition is_high_alnum (c : ascii) : bool :=
  in_range 170 170 c || in_range 178 179 c || in_range 181 181 c
  || in_range 185 186 c || in_range 188 190 c || in_range 192 214 c
  || in_range 216 246 c || in_range 248 255 c.

(** [\w]. *)
Definition is_word (c : ascii) : bool :=
  is_digit c || is_upper c || is_lower c || Ascii.eqb c "_" || is_high_alnum c.

Definition lower_char (c : ascii) : ascii :=
  if is_upper c then ascii_of_nat (code c + 32) else c.
Definition upper_char (c : ascii) : ascii :=
  if is_lower c then ascii_of_nat (code c - 32) else c.

(** ** Strings *)

Fixpoint map_string (f : ascii -> ascii) (s : string) : string :=
  match s with
  | EmptyString => EmptyString
  | String c s' => String (f c) (map_string f s')
  end.

Definition lower (s : string) : string := map_string lower_char s.
Definition upper (s : string) : string := map_string upper_char s.

(** [str.capitalize]. *)
Definition capitalize (s : string) : string :=
  match s with
  | EmptyString => EmptyString
  | String c s' => String (upper_char c) (lower s')
  end.

Fixpoint all_chars (p : ascii -> bool) (s : string) : bool :=
  match s with
  | EmptyString => true
  | String c s' => p c && all_chars p s'
  end.

(** [str.isdecimal]: non-empty and the digits 0 to 9 only. *)
Definition isdecimal (s : string) : bool :=
  match s with
  | EmptyString => false
  | _ => all_chars is_digit s
  end.

(** [str.isdigit]: non-empty and digit characters only. *)
Definition isdigit (s : string) : bool :=
  match s with
  | EmptyString => false
  | _ => all_chars is_digit_char s
  end.

(** [s.startswith(p)]. *)
Fixpoint startswith (p s : string) : bool :=
  match p, s with
  | EmptyString, _ => true
  | String a p', String b s' => Ascii.eqb a b && startswith p' s'
  | String _ _, EmptyString => false
  end.

(** [p in s]. *)
Fixpoint contains (p s : string) : bool :=
  startswith p s ||
  match s with
  | EmptyString => false
  | String _ s' => contains p s'
  end.

Fixpoint lstrip (s : string) : string :=
  match s with
  | EmptyString => EmptyString
  | String c s' => if is_space c then lstrip s' else s
  end.

Fixpoint rstrip (s : string) : string :=
  match s with
  | EmptyString => EmptyString
  | String c s' =>
      match rstrip s' with
      | EmptyString => if is_space c then EmptyString else String c EmptyString
      | r => String c r
      end
  end.

(** [s.strip()]. *)
Definition strip (s : string) : string := lstrip (rstrip s).

(** [s[:n]]. *)
Fixpoint take_string (n : nat) (s : string) : string :=
  match n, s with
  | S n', String c s' => String c (take_string n' s')
  | _, _ => EmptyString
  end.

(** [s.split(sep)] for a non-empty separator: [skip] counts the characters
    of a separator occurrence still to be passed over. The result is the
    piece under construction and the pieces after it. *)
Fixpoint split_go (sep : string) (skip : nat) (s : string) : string * list string :=
  match s with
  | EmptyString => (EmptyString, [])
  | String c s' =>
      match skip with
      | S k => split_go sep k s'
      | O =>
          if startswith sep s
          then let '(p, ps) := split_go sep (Nat.pred (String.length sep)) s' in
               (EmptyString, p :: ps)
          else let '(p, ps) := split_go sep O s' in
               (String c p, ps)
      end
  end.

Definition split (sep s : string) : list string :=
  let '(p, ps) := split_go sep O s in p :: ps.

(** [s.split(sep, 1)]. *)
Fixpoint split1_go (sep : string) (s : string) : option (string * string) :=
  if startswith sep s
  then Some (EmptyString, String.substring (String.length sep) (String.length s) s)
  else match s with
       | EmptyString => None
       | String c s' =>
           match split1_go sep s' with
           | Some (a, b) => Some (String c a, b)
           | None => None
           end
       end.

Definition split1 (sep s : string) : list string :=
  match split1_go sep s with
  | Some (a, b) => [a; b]
  | None => [s]
  end.

(** [s.split()]: the maximal runs of non-space characters. *)
Fixpoint split_ws_go (s : string) : option string * list string :=
  match s with
  | EmptyString => (None, [])
  | String c s' =>
      let '(w, ws) := split_ws_go s' in
      if is_space c then (None, match w with Some x => x :: ws | None => ws end)
      else (Some (String c (default EmptyString w)), ws)
  end.

Definition split_ws (s : string) : list string :=
  let '(w, ws) := split_ws_go s in
  match w with Some x => x :: ws | None => ws end.

(** [l[i]] for a non-negative index, raising [IndexError] out of range. *)
Definition index {A} (l : list A) (i : nat) : py_result A :=
  match l !! i with
  | Some x => Return x
  | None => Raise IndexError
  end.

(** ** Integers and text *)

(** [f"{n}"] and [str(n)] for an [int]. *)
Definition str_of_int (n : Z) : string := NilZero.string_of_int (Z.to_int n).

Definition digit_val (c : ascii) : Z := Z.of_nat (code c - 48).

Fixpoint digits_val (acc : Z) (s : string) : Z :=
  match s with
  | EmptyString => acc
  | String c s' => digits_val (10 * acc + digit_val c) s'
  end.

(** [int(s)] for the literals this program passes to it (the text of a
    group [-?\d+] or of a string tested with [isdigit]): an optional sign
    and the digits 0 to 9; anything else, a superscript digit for one,
    raises [ValueError]. The bound that recent Python versions put on the
    number of digits is not modelled here; [int_limited] has it. *)
Definition int (s : string) : py_result Z :=
  match s with
  | String "-" d => if isdecimal d then Return (- digits_val 0 d) else Raise (ValueError s)
  | String "+" d => if isdecimal d then Return (digits_val 0 d) else Raise (ValueError s)
  | _ => if isdecimal s then Return (digits_val 0 s) else Raise (ValueError s)
  end.

(** ** Regular expressions

    Every pattern of the program is a sequence of single characters and
    character classes, each with a repetition count, and of capturing
    groups that are not nested. A pattern is the list of these items, and
    matching is Python's backtracking search: a greedy repetition tries
    the longest run first, a lazy one the shortest. *)

Inductive item : Type :=
  | Rep (cls : ascii -> bool) (lo : nat) (hi : option nat) (greedy : bool)
  | GOpen
  | GClose.

Definition regex : Type := list item.

Definition chr (c : ascii) : regex := [Rep (Ascii.eqb c) 1 (Some 1%nat) true].

Fixpoint lits (s : string) : regex :=
  match s with
  | EmptyString => []
  | String c s' => chr c ++ lits s'
  end.

Definition plus (cls : ascii -> bool) : regex := [Rep cls 1 None true].
Definition star (cls : ascii -> bool) : regex := [Rep cls 0 None true].
Definition opt (cls : ascii -> bool) : regex := [Rep cls 0 (Some 1%nat) true].
Definition plus_lazy (cls : ascii -> bool) : regex := [Rep cls 1 None false].
Definition times (n : nat) (cls : ascii -> bool) : regex := [Rep cls n (Some n) true].
Definition grp (r : regex) : regex := GOpen :: r ++ [GClose].

(** [.] (any character but a newline) and one literal character. *)
Definition dot (c : ascii) : bool := negb (Ascii.eqb c "010").
Definition is_char (a : ascii) (c : ascii) : bool := Ascii.eqb a c.

Definition below (n : nat) (hi : option nat) : bool :=
  match hi with
  | Some h => Nat.ltb n h
  | None => true
  end.

(** The text of the open group, if one is open, with [c] added to it. *)
Definition push (c : ascii) (g : option string) : option string :=
  match g with
  | Some t => Some (t +:+ String c EmptyString)
  | None => None
  end.

(** One repetition, [n] characters of it already taken, followed by the
    rest of the pattern [k]. [pos] is the offset of [s] in the subject,
    [g] the text of the open group and [caps] the closed groups, the
    latest first. *)
Fixpoint rep_go (cls : ascii -> bool) (lo : nat) (hi : option nat) (greedy : bool)
    (k : string -> nat -> option string -> list string -> option (nat * list string))
    (n : nat) (s : string) (pos : nat) (g : option string) (caps : list string)
    {struct s} : option (nat * list string) :=
  let stop (_ : unit) := if Nat.leb lo n then k s pos g caps else None in
  let more (_ : unit) :=
    match s with
    | String c s' =>
        if cls c && below n hi
        then rep_go cls lo hi greedy k (S n) s' (S pos) (push c g) caps
        else None
    | EmptyString => None
    end in
  if greedy
  then match more tt with Some r => Some r | None => stop tt end
  else match stop tt with Some r => Some r | None => more tt end.

(** The pattern matched at the head of [s]: the end offset and the texts
    of the groups. *)
Fixpoint match_here (p : regex) (s : string) (pos : nat) (g : option string)
    (caps : list string) : option (nat * list string) :=
  match p with
  | [] => Some (pos, rev caps)
  | GOpen :: p' => match_here p' s pos (Some EmptyString) caps
  | GClose :: p' => match_here p' s pos None (default EmptyString g :: caps)
  | Rep cls lo hi greedy :: p' =>
      rep_go cls lo hi greedy (match_here p') O s pos g caps
  end.

Fixpoint search_go (p : regex) (s : string) (pos : nat) : option (nat * list string) :=
  match match_here p s pos None [] with
  | Some r => Some r
  | None =>
      match s with
      | String _ s' => search_go p s' (S pos)
      | EmptyString => None
      end
  end.

(** A match object, as the texts of its groups 1, 2, ... *)
Definition match_object : Type := list string.

(** [m.group(i)] for a group [i >= 1] of the pattern. *)
Definition group (m : match_object) (i : nat) : string :=
  nth (Nat.pred i) m EmptyString.

(** [re.match(p, s)]. *)
Definition re_match (p : regex) (s : string) : option match_object :=
  match match_here p s O None [] with
  | Some (_, caps) => Some caps
  | None => None
  end.

(** [re.search(p, s)]. *)
Definition re_search (p : regex) (s : string) : option match_object :=
  match search_go p s O with
  | Some (_, caps) => Some caps
  | None => None
  end.

(** The matches of [re.findall], left to right and not overlapping, for a
    pattern that matches no empty string: [skip] counts the characters of
    the last match still to be passed over. *)
Fixpoint findall_go (p : regex) (s : string) (pos skip : nat) {struct s}
    : list match_object :=
  match skip with
  | S k =>
      match s with
      | String _ s' => findall_go p s' (S pos) k
      | EmptyString => []
      end
  | O =>
      match match_here p s pos None [] with
      | Some (e, caps) =>
          caps :: match s with
                  | String _ s' => findall_go p s' (S pos) (Nat.pred (e - pos))
                  | EmptyString => []
                  end
      | None =>
          match s with
          | String _ s' => findall_go p s' (S pos) O
          | EmptyString => []
          end
      end
  end.

(** [re.findall(p, s)] for a pattern with exactly one group. *)
Definition re_findall (p : regex) (s : string) : list string :=
  map (fun m => group m 1) (findall_go p s O O).

(** ** Records *)

Module NetworkInterface.
Record t : Type := mk {
  name : string;
  type : string;
  status : string;
  mac_address : string;
  ip_address : option string;
  gateway : option string;
  dns_servers : list string;
  signal_strength : option Z;
  frequency : option string;
  channel : option Z
}.
End NetworkInterface.

Module WiFiNetwork.
Record t : Type := mk {
  ssid : string;
  bssid : string;
  channel : Z;
  frequency : string;
  signal_strength : Z;
  quality : Z;
  encryption : string;
  vendor : option string
}.
End WiFiNetwork.

(** The dictionaries appended to [issues]. *)
Module Issue.
Record t : Type := mk {
  type : string;
  severity : string;
  description : string;
  solution : string
}.
End Issue.

(** The dictionaries returned by the fix functions ([fix_] is the key
    ['fix']). *)
Module FixResult.
Record t : Type := mk {
  issue : string;
  fix_ : string;
  success : bool
}.
End FixResult.

(** Python truth of an [Optional[str]]: [None] and the empty string are
    false. *)
Definition truthy_str (o : option string) : bool :=
  match o with
  | Some (String _ _) => true
  | _ => false
  end.

(** ** External commands and the command runner *)

(** The first argument of [subprocess.run]: a command line for the shell,
    or an argument vector. *)
Inductive cmdline : Type :=
  | Shell (line : string)
  | Argv (args : list string).

(** [subprocess.CompletedProcess]. *)
Record CompletedProcess : Type := {
  returncode : Z;
  stdout : string;
  stderr : string
}.

(** One call of [run_command]: the command string and the flag returned. *)
Record call : Type := {
  call_command : string;
  call_succeeded : bool
}.

Definition trace : Type := list call.

(** What the operating system answers: [subprocess.run] and
    [os.path.exists], as functions of the calls made so far. *)
Record world : Type := {
  subprocess_run : trace -> cmdline -> bool -> Z -> py_result CompletedProcess;
  path_exists : trace -> string -> bool
}.

(** Computations that call the command runner: they read the world,
    extend the trace, and return or raise. *)
Definition M (A : Type) : Type := world -> trace -> py_result A * trace.

Definition ret {A} (a : A) : M A := fun _ tr => (Return a, tr).

Definition bind {A B} (c : M A) (k : A -> M B) : M B :=
  fun w tr =>
    match c w tr with
    | (Return a, tr') => k a w tr'
    | (Raise e, tr') => (Raise e, tr')
    end.

Definition lift {A} (r : py_result A) : M A := fun _ tr => (r, tr).

Notation "'let*' x ':=' c 'in' k" := (bind c (fun x => k))
  (at level 10, x pattern, c at level 100, k at level 200).

(** [try: body except Exception as e: handler(e)]. *)
Definition try_except {A} (body : M A) (handler : exn -> M A) : M A :=
  fun w tr =>
    match body w tr with
    | (Return a, tr') => (Return a, tr')
    | (Raise e, tr') => handler e w tr'
    end.

(** The call [subprocess.run(command, shell=shell, capture_output=True,
    text=True, timeout=timeout)]. *)
Definition subprocess_run_call (cmd : cmdline) (shell : bool) (timeout : Z)
    : M CompletedProcess :=
  fun w tr => (subprocess_run w tr cmd shell timeout, tr).

Definition record_call (c : string) (ok : bool) : M unit :=
  fun _ tr => (Return tt, tr ++ [{| call_command := c; call_succeeded := ok |}]).

Definition timeout_message (timeout : Z) : string :=
  "Command timed out after " +:+ str_of_int timeout +:+ "s".

(** The first argument [run_command] hands to [subprocess.run]: the
    command string, split at white space when it is not for the shell. *)
Definition run_argument (command : string) (shell : bool) : cmdline :=
  if negb shell then Argv (split_ws command) else Shell command.

(** [run_command]: the [try] body and its two handlers. *)
Definition run_command_attempt (command : string) (shell : bool) (timeout : Z)
    : M (bool * string * string) :=
  try_except
    (let cmd := run_argument command shell in
     let* result := subprocess_run_call cmd shell timeout in
     ret (returncode result =? 0, stdout result, stderr result))
    (fun e =>
       match e with
       | TimeoutExpired => ret (false, EmptyString, timeout_message timeout)
       | OtherException msg => ret (false, EmptyString, msg)
       end).

(** [run_command], with the call entered in the trace. *)
Definition run_command (command : string) (shell : bool) (timeout : Z)
    : M (bool * string * string) :=
  let* r := run_command_attempt command shell timeout in
  let* _ := record_call command (fst (fst r)) in
  ret r.

(** [self.run_command(command)] with the default [shell=True, timeout=30]. *)
Definition run (command : string) : M (bool * string * string) :=
  run_command command true 30.

(** ** The patterns of the parsers *)

Definition dquote : ascii := "034".
Definition newline : string := String "010" EmptyString.

(** [\d+\.\d+\.\d+\.\d+] *)
Definition ip4 : regex :=
  plus is_digit ++ chr "." ++ plus is_digit ++ chr "." ++
  plus is_digit ++ chr "." ++ plus is_digit.

(** [\d+\.\d+] *)
Definition decimal : regex := plus is_digit ++ chr "." ++ plus is_digit.

(** [-?\d+] *)
Definition signed : regex := opt (is_char "-") ++ plus is_digit.

(** [[A-Fa-f0-9:]] *)
Definition is_hex_colon (c : ascii) : bool :=
  in_range 65 70 c || in_range 97 102 c || is_digit c || is_char ":" c.

(** [inet (\d+\.\d+\.\d+\.\d+)] *)
Definition re_inet : regex := lits "inet " ++ grp ip4.
(** [(\d+\.\d+\.\d+\.\d+)] *)
Definition re_ip4 : regex := grp ip4.
(** [nameserver\[\d+\] : (\d+\.\d+\.\d+\.\d+)] *)
Definition re_nameserver : regex :=
  lits "nameserver[" ++ plus is_digit ++ lits "] : " ++ grp ip4.
(** [agrCtlRSSI: (-?\d+)] *)
Definition re_rssi : regex := lits "agrCtlRSSI: " ++ grp signed.
(** [channel: (\d+)] *)
Definition re_airport_channel : regex := lits "channel: " ++ grp (plus is_digit).
(** [(\d+\.\d+)] *)
Definition re_decimal : regex := grp decimal.
(** [Signal level=(-?\d+)] *)
Definition re_signal_level : regex := lits "Signal level=" ++ grp signed.
(** [Frequency:(\d+\.\d+)] *)
Definition re_frequency : regex := lits "Frequency:" ++ grp decimal.
(** [Current Frequency.*Channel (\d+)] *)
Definition re_current_channel : regex :=
  lits "Current Frequency" ++ star dot ++ lits "Channel " ++ grp (plus is_digit).
(** [ESSID:], a double quote, a group of any number of characters other
    than the double quote, and a double quote *)
Definition re_essid : regex :=
  lits "ESSID:" ++ chr dquote ++
  grp (star (fun c => negb (is_char dquote c))) ++ chr dquote.
(** [Address: ([A-Fa-f0-9:]{17})] *)
Definition re_address : regex := lits "Address: " ++ grp (times 17 is_hex_colon).
(** [Channel:(\d+)] *)
Definition re_channel : regex := lits "Channel:" ++ grp (plus is_digit).
(** The row pattern of [_parse_nmcli_wifi_scan]: optional spaces, a group
    with an optional star, then, each after one or more spaces, the lazy
    group [.+?], a group [\w+], two groups [\d+], the text [Mbit/s], a
    group [\d+] and the group [.+]. *)
Definition re_nmcli_row : regex :=
  star is_space ++ grp (opt (is_char "*")) ++ plus is_space ++
  grp (plus_lazy dot) ++ plus is_space ++ grp (plus is_word) ++ plus is_space ++
  grp (plus is_digit) ++ plus is_space ++ grp (plus is_digit) ++ plus is_space ++
  lits "Mbit/s" ++ plus is_space ++ grp (plus is_digit) ++ plus is_space ++
  grp (plus dot).

(** ** Record parsers: interfaces *)

Definition bind_r {A B} (r : py_result A) (k : A -> py_result B) : py_result B :=
  match r with
  | Return a => k a
  | Raise e => Raise e
  end.

Notation "'let?' x ':=' c 'in' k" := (bind_r c (fun x => k))
  (at level 10, x pattern, c at level 100, k at level 200).

(** [for x in l: st = body(st, x)], stopping at the first exception. *)
Fixpoint for_each {S A} (body : S -> A -> py_result S) (l : list A) (st : S)
    : py_result S :=
  match l with
  | [] => Return st
  | x :: l' => let? st' := body st x in for_each body l' st'
  end.

(** [d.get(key, dflt)]. *)
Definition get (d : gmap string string) (key dflt : string) : string :=
  default dflt (d !! key).

(** [m.group(1) if m else None]. *)
Definition group1 (m : option match_object) : option string :=
  match m with
  | Some mo => Some (group mo 1)
  | None => None
  end.

(** [int(m.group(1)) if m else None]. *)
Definition int_group1 (m : option match_object) : py_result (option Z) :=
  match m with
  | Some mo => let? n := int (group mo 1) in Return (Some n)
  | None => Return None
  end.

(** [int(s) if s.isdigit() else None]. *)
Definition int_if_isdigit (s : string) : py_result (option Z) :=
  if isdigit s then let? n := int s in Return (Some n) else Return None.

(** [f"{m.group(1)} GHz" if m else None]. *)
Definition ghz_group1 (m : option match_object) : option string :=
  match m with
  | Some mo => Some (group mo 1 +:+ " GHz")
  | None => None
  end.

Definition airport : string :=
  "/System/Library/PrivateFrameworks/Apple80211.framework/Versions/Current/Resources/airport".

(** [_parse_mac_interface]. [list(set(dns_matches))] is the list of the
    elements of the set of the matches; Python leaves its order open, and
    [elements] fixes one. *)
Definition _parse_mac_interface (interface_data : gmap string string)
    : M NetworkInterface.t :=
  let device := get interface_data "device" "" in
  let* (success, output, _) := run ("ifconfig " +:+ device) in
  let ip_address := if success then group1 (re_search re_inet output) else None in
  let* (success, output, _) := run "scutil --dns" in
  let dns_servers :=
    if success
    then elements (list_to_set (re_findall re_nameserver output) : gset string)
    else [] in
  let* (signal_strength, frequency, channel) :=
    if contains "wi-fi" (lower (get interface_data "name" ""))
       || contains "wifi" (lower device)
    then
      let* (success, output, _) := run (airport +:+ " -I") in
      if success
      then
        let* signal_strength := lift (int_group1 (re_search re_rssi output)) in
        let* channel := lift (int_group1 (re_search re_airport_channel output)) in
        let frequency := ghz_group1 (re_search re_decimal output) in
        ret (signal_strength, frequency, channel)
      else ret (None, None, None)
    else ret (None, None, None) in
  ret {| NetworkInterface.name := get interface_data "name" "Unknown";
         NetworkInterface.type :=
           if contains "wi-fi" (lower (get interface_data "name" ""))
           then "WiFi" else "Ethernet";
         NetworkInterface.status :=
           if truthy_str ip_address then "active" else "inactive";
         NetworkInterface.mac_address := get interface_data "mac" "";
         NetworkInterface.ip_address := ip_address;
         NetworkInterface.gateway := None;
         NetworkInterface.dns_servers := dns_servers;
         NetworkInterface.signal_strength := signal_strength;
         NetworkInterface.frequency := frequency;
         NetworkInterface.channel := channel |}.

(** The body of the loop over the lines of [nmcli ... device show], on
    the state [(ip_address, gateway, dns_servers)]. *)
Definition nmcli_show_line (st : option string * option string * list string)
    (line : string) : py_result (option string * option string * list string) :=
  let '(ip_address, gateway, dns_servers) := st in
  if startswith "IP4.ADDRESS" line then
    match re_search re_ip4 line with
    | Some ip_match => Return (Some (group ip_match 1), gateway, dns_servers)
    | None => Return st
    end
  else if startswith "IP4.GATEWAY" line then
    let? g := index (split1 ":" line) 1 in
    Return (ip_address, Some (strip g), dns_servers)
  else if startswith "IP4.DNS" line then
    let? d := index (split1 ":" line) 1 in
    let dns := strip d in
    match dns with
    | EmptyString => Return st
    | _ => Return (ip_address, gateway, dns_servers ++ [dns])
    end
  else Return st.

(** The loop over the lines of [nmcli ... device wifi list], left at the
    first line that starts with a star. *)
Fixpoint nmcli_wifi_lines (lines : list string)
    : py_result (option Z * option string * option Z) :=
  match lines with
  | [] => Return (None, None, None)
  | line :: rest =>
      if startswith "*" line then
        let parts := split ":" line in
        if (4 <=? length parts)%nat then
          let? p1 := index parts 1 in
          let? signal_strength := int_if_isdigit p1 in
          let? frequency := index parts 2 in
          let? p3 := index parts 3 in
          let? channel := int_if_isdigit p3 in
          Return (signal_strength, Some frequency, channel)
        else Return (None, None, None)
      else nmcli_wifi_lines rest
  end.

(** [_parse_linux_interface_nmcli]. *)
Definition _parse_linux_interface_nmcli (device iface_type state connection : string)
    : M (option NetworkInterface.t) :=
  let* (success, output, _) :=
    run ("nmcli -t -f IP4.ADDRESS,IP4.GATEWAY,IP4.DNS device show " +:+ device) in
  let* (ip_address, gateway, dns_servers) :=
    if success
    then lift (for_each nmcli_show_line (split newline output) (None, None, []))
    else ret (None, None, []) in
  let* (success, output, _) := run ("cat /sys/class/net/" +:+ device +:+ "/address") in
  let mac_address := if success then strip output else "" in
  let* (signal_strength, frequency, channel) :=
    if String.eqb iface_type "wifi"
    then
      let* (success, output, _) :=
        run ("nmcli -t -f IN-USE,SIGNAL,FREQ,CHAN device wifi list ifname " +:+ device) in
      if success then lift (nmcli_wifi_lines (split newline output))
      else ret (None, None, None)
    else ret (None, None, None) in
  ret (Some {| NetworkInterface.name := device;
               NetworkInterface.type := capitalize iface_type;
               NetworkInterface.status := state;
               NetworkInterface.mac_address := mac_address;
               NetworkInterface.ip_address := ip_address;
               NetworkInterface.gateway := gateway;
               NetworkInterface.dns_servers := dns_servers;
               NetworkInterface.signal_strength := signal_strength;
               NetworkInterface.frequency := frequency;
               NetworkInterface.channel := channel |}).

(** The loop of [_detect_linux_nmcli] over the device lines. *)
Fixpoint _detect_linux_nmcli_loop (lines : list string)
    (interfaces : list NetworkInterface.t) : M (list NetworkInterface.t) :=
  match lines with
  | [] => ret interfaces
  | line :: rest =>
      match line with
      | EmptyString => _detect_linux_nmcli_loop rest interfaces
      | _ =>
          match split ":" line with
          | device :: iface_type :: state :: connection :: _ =>
              let* interface :=
                _parse_linux_interface_nmcli device iface_type state connection in
              match interface with
              | Some i => _detect_linux_nmcli_loop rest (interfaces ++ [i])
              | None => _detect_linux_nmcli_loop rest interfaces
              end
          | _ => _detect_linux_nmcli_loop rest interfaces
          end
      end
  end.

(** [_detect_linux_nmcli]. *)
Definition _detect_linux_nmcli : M (list NetworkInterface.t) :=
  let* (success, output, _) :=
    run "nmcli -t -f DEVICE,TYPE,STATE,CONNECTION device" in
  if success then _detect_linux_nmcli_loop (split newline (strip output)) []
  else ret [].

Definition os_path_exists (path : string) : M bool :=
  fun w tr => (Return (path_exists w tr path), tr).

(** [_parse_linux_interface_legacy]. *)
Definition _parse_linux_interface_legacy (interface_name : string)
    : M (option NetworkInterface.t) :=
  let* present := os_path_exists ("/sys/class/net/" +:+ interface_name) in
  if negb present then ret None else
  let* (success, output, _) := run ("ip addr show " +:+ interface_name) in
  if negb success then ret None else
  let ip_address := group1 (re_search re_inet output) in
  let* (success, mac_output, _) :=
    run ("cat /sys/class/net/" +:+ interface_name +:+ "/address") in
  let mac_address := if success then strip mac_output else "" in
  let* (success, wireless_output, _) := run ("iwconfig " +:+ interface_name) in
  let iface_type :=
    if success && contains "IEEE 802.11" wireless_output then "WiFi" else "Ethernet" in
  let* (signal_strength, frequency, channel) :=
    if String.eqb iface_type "WiFi"
    then
      let* signal_strength := lift (int_group1 (re_search re_signal_level wireless_output)) in
      let frequency := ghz_group1 (re_search re_frequency wireless_output) in
      let* (success, channel_output, _) :=
        run ("iwlist " +:+ interface_name +:+ " channel") in
      let* channel :=
        if success then lift (int_group1 (re_search re_current_channel channel_output))
        else ret None in
      ret (signal_strength, frequency, channel)
    else ret (None, None, None) in
  ret (Some {| NetworkInterface.name := interface_name;
               NetworkInterface.type := iface_type;
               NetworkInterface.status := if truthy_str ip_address then "up" else "down";
               NetworkInterface.mac_address := mac_address;
               NetworkInterface.ip_address := ip_address;
               NetworkInterface.gateway := None;
               NetworkInterface.dns_servers := [];
               NetworkInterface.signal_strength := signal_strength;
               NetworkInterface.frequency := frequency;
               NetworkInterface.channel := channel |}).

(** The loop of [_detect_linux_legacy] over the interface names. *)
Fixpoint _detect_linux_legacy_loop (names : list string)
    (interfaces : list NetworkInterface.t) : M (list NetworkInterface.t) :=
  match names with
  | [] => ret interfaces
  | interface_name :: rest =>
      if String.eqb interface_name "lo" then _detect_linux_legacy_loop rest interfaces
      else
        let* interface := _parse_linux_interface_legacy interface_name in
        match interface with
        | Some i => _detect_linux_legacy_loop rest (interfaces ++ [i])
        | None => _detect_linux_legacy_loop rest interfaces
        end
  end.

(** [_detect_linux_legacy]. *)
Definition _detect_linux_legacy : M (list NetworkInterface.t) :=
  let* (success, output, _) := run "ls /sys/class/net/" in
  if success then _detect_linux_legacy_loop (split_ws (strip output)) []
  else ret [].

(** ** Quality heuristic *)

(** [_calculate_wifi_quality]. *)
Definition _calculate_wifi_quality (signal_strength : Z) : Z :=
  if signal_strength >=? -50 then 100
  else if signal_strength >=? -60 then 70
  else if signal_strength >=? -70 then 50
  else if signal_strength >=? -80 then 30
  else 10.

(** ** Vendor heuristic *)

Definition oui_map : gmap string string :=
  list_to_map
    [("00:03:93", "Apple"); ("00:0A:95", "Apple"); ("00:17:F2", "Apple");
     ("28:CF:E9", "Apple"); ("A4:5E:60", "Apple"); ("00:1B:63", "Apple");
     ("58:55:CA", "Apple"); ("00:26:08", "Apple"); ("3C:15:C2", "Apple");
     ("00:50:56", "VMware"); ("08:00:27", "VirtualBox")].

(** [_get_vendor_from_mac]. *)
Definition _get_vendor_from_mac (mac_address : string) : option string :=
  if negb (truthy_str (Some mac_address)) || (String.length mac_address <? 8)%nat
  then None
  else oui_map !! upper (take_string 8 mac_address).

(** ** Record parsers: WiFi scans *)

(** The band label, [2.4 GHz] up to channel 14 and [5 GHz] above. *)
Definition band (channel : Z) : string :=
  if channel <=? 14 then "2.4 GHz" else "5 GHz".

(** The body of the loop of [_parse_nmcli_wifi_scan]; the seven groups
    are [connected, ssid, mode, channel, rate, signal, security]. *)
Definition nmcli_scan_row (networks : list WiFiNetwork.t) (line : string)
    : py_result (list WiFiNetwork.t) :=
  match strip line with
  | EmptyString => Return networks
  | _ =>
      match re_match re_nmcli_row line with
      | None => Return networks
      | Some m =>
          let ssid := group m 2 in
          let channel := group m 4 in
          let signal := group m 6 in
          let security := group m 7 in
          let? c := int channel in
          let frequency := band c in
          let? channel_number := int channel in
          let? signal_strength := int signal in
          let? quality := int signal in
          Return (networks ++
            [{| WiFiNetwork.ssid := strip ssid;
                WiFiNetwork.bssid := "";
                WiFiNetwork.channel := channel_number;
                WiFiNetwork.frequency := frequency;
                WiFiNetwork.signal_strength := signal_strength;
                WiFiNetwork.quality := quality;
                WiFiNetwork.encryption := security;
                WiFiNetwork.vendor := None |}])
      end
  end.

(** [_parse_nmcli_wifi_scan]; [drop 1] skips the header line. *)
Definition _parse_nmcli_wifi_scan (output : string) : py_result (list WiFiNetwork.t) :=
  for_each nmcli_scan_row (drop 1 (split newline (strip output))) [].

(** The [try] block of [_parse_iwlist_scan] for one cell. *)
Definition iwlist_cell (cell : string) : py_result WiFiNetwork.t :=
  let ssid :=
    match re_search re_essid cell with
    | Some ssid_match => group ssid_match 1
    | None => "Hidden"
    end in
  let bssid :=
    match re_search re_address cell with
    | Some bssid_match => group bssid_match 1
    | None => ""
    end in
  let? channel :=
    match re_search re_channel cell with
    | Some channel_match => int (group channel_match 1)
    | None => Return 0
    end in
  let? signal :=
    match re_search re_signal_level cell with
    | Some signal_match => int (group signal_match 1)
    | None => Return (-100)
    end in
  let encryption :=
    if contains "Privacy:on" cell
    then if contains "WPA2" cell then "WPA2"
         else if contains "WPA" cell then "WPA"
         else "WEP"
    else "Open" in
  let frequency := band channel in
  Return {| WiFiNetwork.ssid := ssid;
            WiFiNetwork.bssid := bssid;
            WiFiNetwork.channel := channel;
            WiFiNetwork.frequency := frequency;
            WiFiNetwork.signal_strength := signal;
            WiFiNetwork.quality := _calculate_wifi_quality signal;
            WiFiNetwork.encryption := encryption;
            WiFiNetwork.vendor := _get_vendor_from_mac bssid |}.

(** One turn of the loop: the network is appended, or the exception is
    logged and the loop continues with the next cell. *)
Definition iwlist_cell_step (networks : list WiFiNetwork.t) (cell : string)
    : list WiFiNetwork.t :=
  match iwlist_cell cell with
  | Return network => networks ++ [network]
  | Raise _ => networks
  end.

(** [_parse_iwlist_scan]; [drop 1] skips the text before the first cell. *)
Definition _parse_iwlist_scan (output : string) : list WiFiNetwork.t :=
  fold_left iwlist_cell_step (drop 1 (split "Cell " output)) [].

(** ** Issue detector *)

(** A Python [dict] keyed by channel numbers, in insertion order. *)
Section Dict.
Context {V : Type}.

Fixpoint dict_get (k : Z) (d : list (Z * V)) : option V :=
  match d with
  | [] => None
  | (k', v) :: d' => if k' =? k then Some v else dict_get k d'
  end.

Definition dict_contains (k : Z) (d : list (Z * V)) : bool :=
  match dict_get k d with
  | Some _ => true
  | None => false
  end.

(** [d[k] = v]: the value is replaced in place, a new key goes last. *)
Fixpoint dict_set (k : Z) (v : V) (d : list (Z * V)) : list (Z * V) :=
  match d with
  | [] => [(k, v)]
  | (k', v') :: d' =>
      if k' =? k then (k, v) :: d' else (k', v') :: dict_set k v d'
  end.
End Dict.

(** The body of the counting loop of [_check_channel_congestion]. *)
Definition channel_usage_add (channel_usage : list (Z * list WiFiNetwork.t))
    (network : WiFiNetwork.t) : list (Z * list WiFiNetwork.t) :=
  let channel := WiFiNetwork.channel network in
  let channel_usage :=
    if negb (dict_contains channel channel_usage)
    then dict_set channel [] channel_usage
    else channel_usage in
  dict_set channel (default [] (dict_get channel channel_usage) ++ [network])
    channel_usage.

Definition congestion_issue (channel : Z) (count : nat) : Issue.t :=
  {| Issue.type := "channel_congestion";
     Issue.severity := "medium";
     Issue.description :=
       "Channel " +:+ str_of_int channel +:+ " has " +:+
       str_of_int (Z.of_nat count) +:+ " networks";
     Issue.solution := "Switch to less congested channel" |}.

(** The body of the loop over [channel_usage.items()]. *)
Definition congestion_step (issues : list Issue.t)
    (entry : Z * list WiFiNetwork.t) : list Issue.t :=
  let '(channel, networks) := entry in
  if (3 <? length networks)%nat
  then issues ++ [congestion_issue channel (length networks)]
  else issues.

(** [_check_channel_congestion], on [self.wifi_networks] and the list
    [issues] it appends to. *)
Definition _check_channel_congestion (wifi_networks : list WiFiNetwork.t)
    (issues : list Issue.t) : list Issue.t :=
  match wifi_networks with
  | [] => issues
  | _ =>
      let channel_usage := fold_left channel_usage_add wifi_networks [] in
      fold_left congestion_step channel_usage issues
  end.

Definition ip_conflict_issue (ip : string) : Issue.t :=
  {| Issue.type := "ip_conflict";
     Issue.severity := "high";
     Issue.description := "IP conflict detected: " +:+ ip;
     Issue.solution := "Release and renew IP address" |}.

(** Does the interface pass the test
    [interface.ip_address and interface.status == 'active']? *)
Definition counts_as_active (interface : NetworkInterface.t) : bool :=
  truthy_str (NetworkInterface.ip_address interface)
  && String.eqb (NetworkInterface.status interface) "active".

(** The body of the loop of [_check_ip_conflicts], on the dictionary
    [active_ips] and the list [issues]. *)
Definition ip_conflict_step
    (st : gmap string NetworkInterface.t * list Issue.t)
    (interface : NetworkInterface.t)
    : gmap string NetworkInterface.t * list Issue.t :=
  let '(active_ips, issues) := st in
  if counts_as_active interface then
    let ip := default EmptyString (NetworkInterface.ip_address interface) in
    match active_ips !! ip with
    | Some _ => (active_ips, issues ++ [ip_conflict_issue ip])
    | None => (<[ip := interface]> active_ips, issues)
    end
  else st.

(** [_check_ip_conflicts], on [self.interfaces] and the list [issues]. *)
Definition _check_ip_conflicts (interfaces : list NetworkInterface.t)
    (issues : list Issue.t) : list Issue.t :=
  snd (fold_left ip_conflict_step interfaces (∅, issues)).

(** ** Remediation dispatcher

    The fix functions read [self.is_mac] and [self.interfaces], which are
    parameters here. *)

(** [_fix_dns_issues]. *)
Definition _fix_dns_issues (is_mac : bool) : M FixResult.t :=
  let failed :=
    {| FixResult.issue := "slow_dns"; FixResult.fix_ := "DNS fix failed";
       FixResult.success := false |} in
  if is_mac then
    let* (success1, _, _) := run "sudo dscacheutil -flushcache" in
    let* (success2, _, _) := run "sudo killall -HUP mDNSResponder" in
    if success1 && success2
    then ret {| FixResult.issue := "slow_dns";
                FixResult.fix_ := "Flushed DNS cache and restarted mDNSResponder";
                FixResult.success := true |}
    else ret failed
  else
    let* (success, _, _) := run "sudo systemctl restart systemd-resolved" in
    if success
    then ret {| FixResult.issue := "slow_dns";
                FixResult.fix_ := "Restarted systemd-resolved";
                FixResult.success := true |}
    else ret failed.

(** [_fix_mdns_issues]. *)
Definition _fix_mdns_issues : M FixResult.t :=
  let* (success, _, _) := run "sudo killall -HUP mDNSResponder" in
  ret {| FixResult.issue := "mdns_high_cpu";
         FixResult.fix_ := "Restarted mDNSResponder";
         FixResult.success := success |}.

(** [_fix_vpn_dns_issues]. *)
Definition _fix_vpn_dns_issues : M FixResult.t :=
  let* (success1, _, _) := run "sudo dscacheutil -flushcache" in
  let* (success2, _, _) := run "sudo killall -HUP mDNSResponder" in
  ret {| FixResult.issue := "vpn_dns_issue";
         FixResult.fix_ := "Cleared VPN DNS cache";
         FixResult.success := success1 && success2 |}.

(** [_fix_networkmanager_issues]. *)
Definition _fix_networkmanager_issues : M FixResult.t :=
  let* (success, _, _) := run "sudo systemctl start NetworkManager" in
  ret {| FixResult.issue := "networkmanager_inactive";
         FixResult.fix_ := "Started NetworkManager service";
         FixResult.success := success |}.

Definition is_wifi (iface : NetworkInterface.t) : bool :=
  String.eqb (NetworkInterface.type iface) "WiFi".

(** The loop of [_fix_wifi_power_management] and the [return] after it. *)
Fixpoint _fix_wifi_power_management_loop (wifi_interfaces : list NetworkInterface.t)
    : M FixResult.t :=
  match wifi_interfaces with
  | [] =>
      ret {| FixResult.issue := "wifi_power_management";
             FixResult.fix_ := "Failed to disable power management";
             FixResult.success := false |}
  | interface :: rest =>
      let* (success, _, _) :=
        run ("sudo iwconfig " +:+ NetworkInterface.name interface +:+ " power off") in
      if success
      then ret {| FixResult.issue := "wifi_power_management";
                  FixResult.fix_ :=
                    "Disabled power management on " +:+ NetworkInterface.name interface;
                  FixResult.success := true |}
      else _fix_wifi_power_management_loop rest
  end.

(** [_fix_wifi_power_management]. *)
Definition _fix_wifi_power_management (interfaces : list NetworkInterface.t)
    : M FixResult.t :=
  _fix_wifi_power_management_loop (List.filter is_wifi interfaces).

(** [_optimize_wifi_connection]. *)
Definition _optimize_wifi_connection : M FixResult.t :=
  ret {| FixResult.issue := "weak_signal";
         FixResult.fix_ := "Applied WiFi optimization settings";
         FixResult.success := true |}.

Definition some {A} (c : M A) : M (option A) :=
  let* a := c in ret (Some a).

(** [_apply_fix_for_issue]. *)
Definition _apply_fix_for_issue (is_mac : bool) (interfaces : list NetworkInterface.t)
    (issue : Issue.t) : M (option FixResult.t) :=
  let issue_type := Issue.type issue in
  try_except
    (if String.eqb issue_type "slow_dns" then some (_fix_dns_issues is_mac)
     else if String.eqb issue_type "mdns_high_cpu" then some _fix_mdns_issues
     else if String.eqb issue_type "vpn_dns_issue" then some _fix_vpn_dns_issues
     else if String.eqb issue_type "networkmanager_inactive"
          then some _fix_networkmanager_issues
     else if String.eqb issue_type "wifi_power_management"
          then some (_fix_wifi_power_management interfaces)
     else if String.eqb issue_type "weak_signal" then some _optimize_wifi_connection
     else ret None)
    (fun _ => ret None).

(** The issue kinds with a mapped action. *)
Definition mapped_kinds : list string :=
  ["slow_dns"; "mdns_high_cpu"; "vpn_dns_issue"; "networkmanager_inactive";
   "wifi_power_management"; "weak_signal"].

(** The flags of the calls a computation added to the trace. *)
Definition new_flags (before after : trace) : list bool :=
  map call_succeeded (drop (length before) after).

(** The triple [run_command] returns in a world after a trace. *)
Definition answer (w : world) (tr : trace) (command : string) (shell : bool)
    (timeout : Z) : bool * string * string :=
  match subprocess_run w tr (run_argument command shell) shell timeout with
  | Return p => (returncode p =? 0, stdout p, stderr p)
  | Raise TimeoutExpired => (false, EmptyString, timeout_message timeout)
  | Raise (OtherException msg) => (false, EmptyString, msg)
  end.

Definition called (command : string) (r : bool * string * string) : call :=
  {| call_command := command; call_succeeded := fst (fst r) |}.

(** ** Counting, for the statements about the issue detector *)

(** The interfaces that pass the test of [_check_ip_conflicts] and hold
    the address [ip]. *)
Definition holders (ip : string) (interfaces : list NetworkInterface.t)
    : list NetworkInterface.t :=
  List.filter
    (fun i => counts_as_active i
              && String.eqb (default EmptyString (NetworkInterface.ip_address i)) ip)
    interfaces.

(** The networks observed on a channel. *)
Definition on_channel (c : Z) (networks : list WiFiNetwork.t) : list WiFiNetwork.t :=
  List.filter (fun n => WiFiNetwork.channel n =? c) networks.

(** What the counting loop has built after the networks [nets]: one key
    per channel seen, holding the networks of that channel in order. *)
Definition usage_of (nets : list WiFiNetwork.t) (d : list (Z * list WiFiNetwork.t)) : Prop :=
  List.NoDup (map fst d)
  /\ forall c : Z,
       dict_get c d =
         match on_channel c nets with
         | [] => None
         | l => Some l
         end.

(** The test of the loop over [channel_usage.items()]. *)
Definition congested (entry : Z * list WiFiNetwork.t) : bool :=
  (3 <? length (snd entry))%nat.

(** ** Sample records and worlds *)

(** The completed process a table gives for a shell command line. *)
Fixpoint lookup_line (line : string) (table : list (string * CompletedProcess))
    : option CompletedProcess :=
  match table with
  | [] => None
  | (l, p) :: table' => if String.eqb l line then Some p else lookup_line line table'
  end.

(** A process that exits with a status and the given standard output. *)
Definition exits (status : Z) (out : string) : CompletedProcess :=
  {| returncode := status; stdout := out; stderr := EmptyString |}.

(** A world scripted by a table from shell command lines to completed
    processes; any other command exits with status 127, as the shell
    does for a command it cannot find. Every path exists. *)
Definition scripted (table : list (string * CompletedProcess)) : world :=
  {| subprocess_run := fun _ cmd _ _ =>
       match cmd with
       | Shell line => Return (default (exits 127 EmptyString) (lookup_line line table))
       | Argv _ => Raise (OtherException "not scripted")
       end;
     path_exists := fun _ _ => true |}.

Definition sample_wifi_interface (name : string) : NetworkInterface.t :=
  {| NetworkInterface.name := name;
     NetworkInterface.type := "WiFi";
     NetworkInterface.status := "up";
     NetworkInterface.mac_address := "";
     NetworkInterface.ip_address := None;
     NetworkInterface.gateway := None;
     NetworkInterface.dns_servers := [];
     NetworkInterface.signal_strength := None;
     NetworkInterface.frequency := None;
     NetworkInterface.channel := None |}.

Definition sample_issue (kind : string) : Issue.t :=
  {| Issue.type := kind;
     Issue.severity := "medium";
     Issue.description := EmptyString;
     Issue.solution := EmptyString |}.

(** Power management can be switched off on wlan1 and not on wlan0. *)
Definition world_wlan1_only : world :=
  scripted [("sudo iwconfig wlan0 power off", exits 1 EmptyString);
            ("sudo iwconfig wlan1 power off", exits 0 EmptyString)].

Definition sample_interface (name status ip : string) : NetworkInterface.t :=
  {| NetworkInterface.name := name;
     NetworkInterface.type := "Ethernet";
     NetworkInterface.status := status;
     NetworkInterface.mac_address := "";
     NetworkInterface.ip_address := Some ip;
     NetworkInterface.gateway := None;
     NetworkInterface.dns_servers := [];
     NetworkInterface.signal_strength := None;
     NetworkInterface.frequency := None;
     NetworkInterface.channel := None |}.

Definition sample_network (channel : Z) : WiFiNetwork.t :=
  {| WiFiNetwork.ssid := "net";
     WiFiNetwork.bssid := "";
     WiFiNetwork.channel := channel;
     WiFiNetwork.frequency := band channel;
     WiFiNetwork.signal_strength := -55;
     WiFiNetwork.quality := _calculate_wifi_quality (-55);
     WiFiNetwork.encryption := "WPA2";
     WiFiNetwork.vendor := None |}.

(** Two active interfaces and an inactive one with the same address. *)
Definition two_active_one_inactive : list NetworkInterface.t :=
  [sample_interface "en0" "active" "192.168.1.5";
   sample_interface "en1" "active" "192.168.1.5";
   sample_interface "en2" "inactive" "192.168.1.5"].

(** Three active interfaces with the same address. *)
Definition three_active : list NetworkInterface.t :=
  [sample_interface "en0" "active" "192.168.1.5";
   sample_interface "en1" "active" "192.168.1.5";
   sample_interface "en2" "active" "192.168.1.5"].

(** An nmcli world in which eth0 lists the DNS server 8.8.8.8 twice. *)
Definition world_dup_dns : world :=
  scripted
    [("nmcli -t -f IP4.ADDRESS,IP4.GATEWAY,IP4.DNS device show eth0",
      exits 0 "IP4.ADDRESS[1]:192.168.1.5/24
IP4.GATEWAY:192.168.1.1
IP4.DNS[1]:8.8.8.8
IP4.DNS[2]:8.8.8.8
");
     ("cat /sys/class/net/eth0/address", exits 0 "aa:bb:cc:dd:ee:ff
")].

(** A macOS world in which two resolvers name the server 8.8.8.8. *)
Definition world_mac_dup_dns : world :=
  scripted
    [("ifconfig en0", exits 0 "en0: flags=8863<UP,BROADCAST> mtu 1500
	inet 192.168.1.5 netmask 0xffffff00 broadcast 192.168.1.255
");
     ("scutil --dns", exits 0 "resolver #1
  nameserver[0] : 8.8.8.8
resolver #2
  nameserver[0] : 8.8.8.8
")].

Definition en0_data : gmap string string :=
  <["name" := "Ethernet"]> (<["device" := "en0"]> (<["mac" := "aa:bb:cc:dd:ee:ff"]> ∅)).

(** An nmcli world in which wlan0 is connected with SIGNAL 75. *)
Definition world_nmcli_wifi : world :=
  scripted
    [("nmcli -t -f IP4.ADDRESS,IP4.GATEWAY,IP4.DNS device show wlan0",
      exits 0 "IP4.ADDRESS[1]:192.168.1.7/24
IP4.GATEWAY:192.168.1.1
IP4.DNS[1]:192.168.1.1
");
     ("cat /sys/class/net/wlan0/address", exits 0 "aa:bb:cc:dd:ee:01
");
     ("nmcli -t -f IN-USE,SIGNAL,FREQ,CHAN device wifi list ifname wlan0",
      exits 0 " :40:5180 MHz:36
*:75:2437 MHz:6
")].

(** The output of [nmcli device wifi list] with one network of SIGNAL 75. *)
Definition nmcli_scan_output : string :=
  "IN-USE  SSID  MODE   CHAN  RATE        SIGNAL  BARS  SECURITY
*       Home  Infra  6     130 Mbit/s  75      ***   WPA2
".


(** The records the two Linux parsers build for eth0 in [world_legacy]
    and in [world_dup_dns]. *)
Definition legacy_eth0 : NetworkInterface.t :=
  {| NetworkInterface.name := "eth0";
     NetworkInterface.type := "Ethernet";
     NetworkInterface.status := "up";
     NetworkInterface.mac_address := "aa:bb:cc:dd:ee:ff";
     NetworkInterface.ip_address := Some "192.168.1.5";
     NetworkInterface.gateway := None;
     NetworkInterface.dns_servers := [];
     NetworkInterface.signal_strength := None;
     NetworkInterface.frequency := None;
     NetworkInterface.channel := None |}.

Definition nmcli_eth0 : NetworkInterface.t :=
  {| NetworkInterface.name := "eth0";
     NetworkInterface.type := "Ethernet";
     NetworkInterface.status := "connected";
     NetworkInterface.mac_address := "aa:bb:cc:dd:ee:ff";
     NetworkInterface.ip_address := Some "192.168.1.5";
     NetworkInterface.gateway := Some "192.168.1.1";
     NetworkInterface.dns_servers := ["8.8.8.8"; "8.8.8.8"];
     NetworkInterface.signal_strength := None;
     NetworkInterface.frequency := None;
     NetworkInterface.channel := None |}.

(** An iwlist scan of two cells; the first shows none of the fields. *)
Definition iwlist_scan_output : string :=
  "wlan0     Scan completed :
          Cell 01 - Quality=20/70
          Cell 02 - Address: A4:5E:60:DD:EE:FF
                    Channel:36
                    Quality=43/70  Signal level=-67 dBm
                    Privacy:on
                    " +:+ "ESSID:" +:+ String dquote ("Home" +:+ String dquote "
                    IE: IEEE 802.11i/WPA2 Version 1
").

(** ** Reasoning about computations *)

(** Every value the computation returns satisfies [P]. *)
Definition post {A} (c : M A) (P : A -> Prop) : Prop :=
  forall (w : world) (tr : trace) (a : A) (tr' : trace),
    c w tr = (Return a, tr') -> P a.

(** * More of the program *)

(** ** Interface detection *)

(** Python truth of an [Optional[int]]: [None] and 0 are false. *)
Definition truthy_int (o : option Z) : bool :=
  match o with
  | Some n => negb (n =? 0)
  | None => false
  end.

(** Python truth of a [dict]: the empty one is false. *)
Definition truthy_dict (d : gmap string string) : bool :=
  negb (bool_decide (d = ∅)).

(** [if current_interface: interfaces.append(await
    self._parse_mac_interface(current_interface))]. *)
Definition flush_mac_interface (current_interface : gmap string string)
    (interfaces : list NetworkInterface.t) : M (list NetworkInterface.t) :=
  if truthy_dict current_interface
  then let* i := _parse_mac_interface current_interface in ret (interfaces ++ [i])
  else ret interfaces.

(** [line.split(':', 1)[1].strip()]. *)
Definition after_colon (line : string) : py_result string :=
  let? v := index (split1 ":" line) 1 in Return (strip v).

(** The loop of [_detect_mac_interfaces] over the lines of the hardware
    port list, and the append of the last interface after it. *)
Fixpoint _detect_mac_interfaces_loop (lines : list string)
    (current_interface : gmap string string) (interfaces : list NetworkInterface.t)
    : M (list NetworkInterface.t) :=
  match lines with
  | [] => flush_mac_interface current_interface interfaces
  | raw :: rest =>
      let line := strip raw in
      if startswith "Hardware Port:" line then
        let* interfaces := flush_mac_interface current_interface interfaces in
        let* v := lift (after_colon line) in
        _detect_mac_interfaces_loop rest (<["name" := v]> ∅) interfaces
      else if startswith "Device:" line then
        let* v := lift (after_colon line) in
        _detect_mac_interfaces_loop rest (<["device" := v]> current_interface) interfaces
      else if startswith "Ethernet Address:" line then
        let* v := lift (after_colon line) in
        _detect_mac_interfaces_loop rest (<["mac" := v]> current_interface) interfaces
      else _detect_mac_interfaces_loop rest current_interface interfaces
  end.

(** [_detect_mac_interfaces]. *)
Definition _detect_mac_interfaces : M (list NetworkInterface.t) :=
  let* (success, output, _) := run "networksetup -listallhardwareports" in
  if negb success then ret []
  else _detect_mac_interfaces_loop (split newline output) ∅ [].

(** [_detect_linux_interfaces]. *)
Definition _detect_linux_interfaces : M (list NetworkInterface.t) :=
  let* (success, _, _) := run "which nmcli" in
  if success then _detect_linux_nmcli else _detect_linux_legacy.

(** [detect_network_interfaces]; the list returned is also what it
    stores in [self.interfaces]. *)
Definition detect_network_interfaces (is_mac : bool) : M (list NetworkInterface.t) :=
  if is_mac then _detect_mac_interfaces else _detect_linux_interfaces.

(** ** WiFi scan on Linux *)

(** The loop of [_scan_wifi_linux] over the WiFi interfaces, with the
    timeout of 60 seconds it gives to [iwlist]. *)
Fixpoint _scan_wifi_linux_loop (wifi_interfaces : list NetworkInterface.t)
    (networks : list WiFiNetwork.t) : M (list WiFiNetwork.t) :=
  match wifi_interfaces with
  | [] => ret networks
  | interface :: rest =>
      let* (success, output, _) :=
        run_command ("iwlist " +:+ NetworkInterface.name interface +:+ " scan") true 60 in
      if success
      then _scan_wifi_linux_loop rest (networks ++ _parse_iwlist_scan output)
      else _scan_wifi_linux_loop rest networks
  end.

(** [_scan_wifi_linux], on [self.interfaces]. *)
Definition _scan_wifi_linux (interfaces : list NetworkInterface.t)
    : M (list WiFiNetwork.t) :=
  let* (success, output, _) := run "nmcli device wifi list" in
  if success then lift (_parse_nmcli_wifi_scan output)
  else _scan_wifi_linux_loop (List.filter is_wifi interfaces) [].

(** ** More rules of the issue detector *)

Definition weak_signal_issue (name : string) (signal_strength : Z) : Issue.t :=
  {| Issue.type := "weak_signal";
     Issue.severity := "medium";
     Issue.description :=
       "Weak WiFi signal on " +:+ name +:+ " (" +:+ str_of_int signal_strength +:+ " dBm)";
     Issue.solution := "Move closer to router or check for interference" |}.

(** The filter [iface.type == 'WiFi' and iface.signal_strength] of
    [diagnose_issues]. *)
Definition has_wifi_signal (iface : NetworkInterface.t) : bool :=
  is_wifi iface && truthy_int (NetworkInterface.signal_strength iface).

(** The body of the weak-signal loop of [diagnose_issues]. *)
Definition weak_signal_step (issues : list Issue.t) (interface : NetworkInterface.t)
    : list Issue.t :=
  match NetworkInterface.signal_strength interface with
  | Some s =>
      if s <? -70
      then issues ++ [weak_signal_issue (NetworkInterface.name interface) s]
      else issues
  | None => issues
  end.

(** The weak-signal rule of [diagnose_issues], on [self.interfaces] and
    the list [issues] it appends to. *)
Definition weak_signal_rule (interfaces : list NetworkInterface.t)
    (issues : list Issue.t) : list Issue.t :=
  fold_left weak_signal_step (List.filter has_wifi_signal interfaces) issues.

Definition networkmanager_issue : Issue.t :=
  {| Issue.type := "networkmanager_inactive";
     Issue.severity := "high";
     Issue.description := "NetworkManager service is not active";
     Issue.solution := "Start NetworkManager service" |}.

Definition power_management_issue (name : string) : Issue.t :=
  {| Issue.type := "wifi_power_management";
     Issue.severity := "medium";
     Issue.description := "WiFi power management enabled on " +:+ name;
     Issue.solution := "Disable power management for better performance" |}.

(** The loop of [_check_linux_specific_issues] over the WiFi interfaces. *)
Fixpoint _check_linux_specific_issues_loop (wifi_interfaces : list NetworkInterface.t)
    (issues : list Issue.t) : M (list Issue.t) :=
  match wifi_interfaces with
  | [] => ret issues
  | interface :: rest =>
      let* (success, output, _) :=
        run ("iwconfig " +:+ NetworkInterface.name interface) in
      if success && contains "Power Management:on" output
      then _check_linux_specific_issues_loop rest
             (issues ++ [power_management_issue (NetworkInterface.name interface)])
      else _check_linux_specific_issues_loop rest issues
  end.

(** [_check_linux_specific_issues], on [self.interfaces] and [issues]. *)
Definition _check_linux_specific_issues (interfaces : list NetworkInterface.t)
    (issues : list Issue.t) : M (list Issue.t) :=
  let* (success, output, _) := run "systemctl is-active NetworkManager" in
  let issues :=
    if negb success || negb (String.eqb (strip output) "active")
    then issues ++ [networkmanager_issue]
    else issues in
  _check_linux_specific_issues_loop (List.filter is_wifi interfaces) issues.

(** ** Applying the fixes *)

(** The loop of [apply_automatic_fixes]; a returned dictionary is never
    empty, so it is always appended. *)
Fixpoint apply_automatic_fixes_loop (is_mac : bool) (interfaces : list NetworkInterface.t)
    (issues_detected : list Issue.t) (fixes_applied : list FixResult.t)
    : M (list FixResult.t) :=
  match issues_detected with
  | [] => ret fixes_applied
  | issue :: rest =>
      let* fix_result := _apply_fix_for_issue is_mac interfaces issue in
      match fix_result with
      | Some r => apply_automatic_fixes_loop is_mac interfaces rest (fixes_applied ++ [r])
      | None => apply_automatic_fixes_loop is_mac interfaces rest fixes_applied
      end
  end.

(** [apply_automatic_fixes], on [self.issues_detected]. *)
Definition apply_automatic_fixes (is_mac : bool) (interfaces : list NetworkInterface.t)
    (issues_detected : list Issue.t) : M (list FixResult.t) :=
  apply_automatic_fixes_loop is_mac interfaces issues_detected [].

(** ** Performance optimizations *)

(** The dictionaries appended to [optimizations]. *)
Module Optimization.
Record t : Type := mk {
  type : string;
  description : string;
  success : bool
}.
End Optimization.

(** The rest of a [try] block whose handler logs the exception and falls
    through to [return optimizations], with the list as built so far. *)
Definition attempt {A} (so_far : A) (c : M A) : M A :=
  try_except c (fun _ => ret so_far).

Definition dns_servers_set : Optimization.t :=
  {| Optimization.type := "dns_optimization";
     Optimization.description := "Set optimized DNS servers (Cloudflare + Google)";
     Optimization.success := true |}.

Definition interface_priority_set : Optimization.t :=
  {| Optimization.type := "interface_priority";
     Optimization.description := "Optimized network interface priority";
     Optimization.success := true |}.

(** [_optimize_macos_network]. *)
Definition _optimize_macos_network : M (list Optimization.t) :=
  attempt []
    (let* (success, _, _) :=
       run "sudo networksetup -setdnsservers Wi-Fi 1.1.1.1 8.8.8.8 8.8.4.4" in
     let optimizations := if success then [dns_servers_set] else [] in
     attempt optimizations
       (let* (success, _, _) :=
          run "sudo networksetup -ordernetworkservices Wi-Fi Ethernet" in
        ret (if success then optimizations ++ [interface_priority_set]
             else optimizations))).

Definition resolved_enabled : Optimization.t :=
  {| Optimization.type := "dns_optimization";
     Optimization.description := "Enabled systemd-resolved for better DNS performance";
     Optimization.success := true |}.

Definition buffers_optimized : Optimization.t :=
  {| Optimization.type := "buffer_optimization";
     Optimization.description := "Optimized network buffers";
     Optimization.success := true |}.

Definition network_optimizations : list string :=
  ["echo 'net.core.rmem_max = 16777216' | sudo tee -a /etc/sysctl.conf";
   "echo 'net.core.wmem_max = 16777216' | sudo tee -a /etc/sysctl.conf";
   "echo 'net.ipv4.tcp_rmem = 4096 65536 16777216' | sudo tee -a /etc/sysctl.conf";
   "echo 'net.ipv4.tcp_wmem = 4096 65536 16777216' | sudo tee -a /etc/sysctl.conf"].

(** The loop of [_optimize_linux_network] over the buffer commands, left
    by [break] at the first one that succeeds. *)
Fixpoint _optimize_linux_network_loop (cmds : list string)
    (optimizations : list Optimization.t) : M (list Optimization.t) :=
  match cmds with
  | [] => ret optimizations
  | cmd :: rest =>
      attempt optimizations
        (let* (success, _, _) := run cmd in
         if success then ret (optimizations ++ [buffers_optimized])
         else _optimize_linux_network_loop rest optimizations)
  end.

(** [_optimize_linux_network]. *)
Definition _optimize_linux_network : M (list Optimization.t) :=
  attempt []
    (let* (success, _, _) := run "sudo systemctl enable systemd-resolved" in
     let optimizations := if success then [resolved_enabled] else [] in
     _optimize_linux_network_loop network_optimizations optimizations).

(** [optimize_network_performance]. *)
Definition optimize_network_performance (is_mac : bool) : M (list Optimization.t) :=
  let* found := if is_mac then _optimize_macos_network else _optimize_linux_network in
  ret ([] ++ found).

(** ** The report summary and the phases of [main] *)

(** The dictionary under the key [summary] of [generate_report]. *)
Record Summary : Type := {
  total_interfaces : nat;
  active_interfaces : nat;
  wifi_networks_found : nat;
  issues_found : nat;
  fixes_applied : nat
}.

(** [i.status in ['active', 'up']]. *)
Definition reported_active (i : NetworkInterface.t) : bool :=
  String.eqb (NetworkInterface.status i) "active"
  || String.eqb (NetworkInterface.status i) "up".

Definition report_summary (interfaces : list NetworkInterface.t)
    (wifi_networks : list WiFiNetwork.t) (issues_detected : list Issue.t)
    (fixes : list FixResult.t) : Summary :=
  {| total_interfaces := length interfaces;
     active_interfaces := length (List.filter reported_active interfaces);
     wifi_networks_found := length wifi_networks;
     issues_found := length issues_detected;
     fixes_applied := length fixes |}.

(** The flags of the command line. *)
Record Args : Type := {
  scan : bool;
  speed_test : bool;
  fix_flag : bool;
  optimize : bool;
  report : bool
}.

(** The calls in the [try] block of [main], in the order of the source:
    the constructor of the fixer, the methods of the fixer, and the
    report, written as JSON (to the output file or the console) or
    printed. *)
Inductive phase : Type :=
  | BuildFixer
  | DetectInterfaces
  | ScanWifi
  | TestPerformance
  | DiagnoseIssues
  | ApplyFixes
  | OptimizePerformance
  | JsonReport
  | PrintReport.

(** What a call in the [try] block does: it returns, it raises an
    exception of class [Exception] (the constructor does on a system that
    is neither macOS nor Linux, the detection and the macOS scan on some
    command outputs), or the user interrupts it from the keyboard. *)
Inductive outcome : Type :=
  | Completes
  | Fails (e : exn)
  | Interrupted.

(** How [main] ends: it returns, or a handler calls [sys.exit]. *)
Inductive ending : Type :=
  | Returned
  | Exited (status : Z).

(** The [try] block, on the log of the calls started; [does] is what
    each perform does when it is made. *)
Definition Run : Type := list phase -> outcome * list phase.

Definition perform (does : phase -> outcome) (p : phase) : Run :=
  fun log => (does p, log ++ [p]).

Definition skip : Run := fun log => (Completes, log).

(** One statement after another: the second is not reached when the
    first does not return. *)
Definition and_then (c1 c2 : Run) : Run :=
  fun log =>
    match c1 log with
    | (Completes, log') => c2 log'
    | r => r
    end.

Definition when (b : bool) (c : Run) : Run := if b then c else skip.

(** [any(l)]. *)
Definition any (l : list bool) : bool := existsb id l.

(** The [try] block of [main]. *)
Definition main_body (does : phase -> outcome) (args : Args) : Run :=
  and_then (perform does BuildFixer)
  (and_then (perform does DetectInterfaces)
  (and_then (when (scan args
              || negb (any [speed_test args; fix_flag args; optimize args; report args]))
          (perform does ScanWifi))
  (and_then (when (speed_test args
              || negb (any [scan args; fix_flag args; optimize args; report args]))
          (perform does TestPerformance))
  (and_then (when (fix_flag args
              || negb (any [scan args; speed_test args; optimize args; report args]))
          (and_then (perform does DiagnoseIssues) (perform does ApplyFixes)))
  (and_then (when (optimize args) (perform does OptimizePerformance))
       (if report args then perform does JsonReport else perform does PrintReport)))))).

(** [main] after the arguments are parsed: the calls it started and how
    it ended. Both handlers, for [KeyboardInterrupt] and for [Exception],
    exit with status 1. *)
Definition main (does : phase -> outcome) (args : Args) : list phase * ending :=
  match main_body does args [] with
  | (Completes, log) => (log, Returned)
  | (Fails _, log) => (log, Exited 1)
  | (Interrupted, log) => (log, Exited 1)
  end.

(** The calls of a list, one after another. *)
Fixpoint perform_all (does : phase -> outcome) (l : list phase) : Run :=
  match l with
  | [] => skip
  | p :: rest => and_then (perform does p) (perform_all does rest)
  end.

(** The calls the flags ask for, when every one of them returns. *)
Definition planned (args : Args) : list phase :=
  BuildFixer :: DetectInterfaces ::
  (if scan args || speed_test args || fix_flag args || optimize args || report args
   then (if scan args then [ScanWifi] else [])
        ++ (if speed_test args then [TestPerformance] else [])
        ++ (if fix_flag args then [DiagnoseIssues; ApplyFixes] else [])
        ++ (if optimize args then [OptimizePerformance] else [])
        ++ (if report args then [JsonReport] else [PrintReport])
   else [ScanWifi; TestPerformance; DiagnoseIssues; ApplyFixes; PrintReport]).

(** ** What a match leaves in its groups *)

(** The text [r] added to the open group, if one is open. *)
Definition push_text (r : string) (g : option string) : option string :=
  match g with
  | Some t => Some (t +:+ r)
  | None => None
  end.

(** The group texts [out] a match of the pattern can end with, started
    with the open group [g] and the closed groups [caps]: each repetition
    adds a run of characters of its class, within its bounds. *)
Fixpoint shape (p : regex) (g : option string) (caps out : list string) : Prop :=
  match p with
  | [] => out = rev caps
  | GOpen :: p' => shape p' (Some EmptyString) caps out
  | GClose :: p' => shape p' None (default EmptyString g :: caps) out
  | Rep cls lo hi _ :: p' =>
      exists r : string,
        all_chars cls r = true
        /\ (lo <= String.length r)%nat
        /\ match hi with
           | Some h => (String.length r <= h)%nat
           | None => True
           end
        /\ shape p' (push_text r g) caps out
  end.

(** What the nmcli scan parser makes of a row: no address or vendor, and
    the SIGNAL column as both signal strength and quality. *)
Definition nmcli_network (n : WiFiNetwork.t) : Prop :=
  0 <= WiFiNetwork.signal_strength n
  /\ WiFiNetwork.quality n = WiFiNetwork.signal_strength n
  /\ 0 <= WiFiNetwork.channel n
  /\ WiFiNetwork.frequency n = band (WiFiNetwork.channel n)
  /\ WiFiNetwork.bssid n = EmptyString
  /\ WiFiNetwork.vendor n = None.

(** What the iwlist scan parser makes of a cell. *)
Definition iwlist_network (n : WiFiNetwork.t) : Prop :=
  WiFiNetwork.quality n = _calculate_wifi_quality (WiFiNetwork.signal_strength n)
  /\ In (WiFiNetwork.quality n) [100; 70; 50; 30; 10]
  /\ 0 <= WiFiNetwork.channel n
  /\ WiFiNetwork.frequency n = band (WiFiNetwork.channel n)
  /\ In (WiFiNetwork.encryption n) ["Open"; "WPA2"; "WPA"; "WEP"]
  /\ WiFiNetwork.vendor n = _get_vendor_from_mac (WiFiNetwork.bssid n)
  /\ (WiFiNetwork.bssid n = EmptyString
      \/ (String.length (WiFiNetwork.bssid n) = 17%nat
          /\ all_chars is_hex_colon (WiFiNetwork.bssid n) = true)).

(** The record the nmcli parser builds for wlan0 in [world_nmcli_wifi]. *)
Definition nmcli_wlan0 : NetworkInterface.t :=
  {| NetworkInterface.name := "wlan0";
     NetworkInterface.type := "Wifi";
     NetworkInterface.status := "connected";
     NetworkInterface.mac_address := "aa:bb:cc:dd:ee:01";
     NetworkInterface.ip_address := Some "192.168.1.7";
     NetworkInterface.gateway := Some "192.168.1.1";
     NetworkInterface.dns_servers := ["192.168.1.1"];
     NetworkInterface.signal_strength := Some 75;
     NetworkInterface.frequency := Some "2437 MHz";
     NetworkInterface.channel := Some 6 |}.

(** What [_fix_wifi_power_management] returns when no call succeeded. *)
Definition power_management_failed : FixResult.t :=
  {| FixResult.issue := "wifi_power_management";
     FixResult.fix_ := "Failed to disable power management";
     FixResult.success := false |}.

(** Does the kind have a mapped action? *)
Definition mapped (kind : string) : bool := existsb (String.eqb kind) mapped_kinds.

(** The computation never raises, and every value it returns satisfies
    [P]. *)
Definition returns {A} (c : M A) (P : A -> Prop) : Prop :=
  forall (w : world) (tr : trace),
    exists (a : A) (tr' : trace), c w tr = (Return a, tr') /\ P a.

(** What the legacy parser makes of an interface: up exactly when it has
    an address, never a gateway or a DNS server, and WiFi data only for
    the type WiFi. *)
Definition legacy_interface (interface_name : string) (i : NetworkInterface.t) : Prop :=
  NetworkInterface.name i = interface_name
  /\ ((NetworkInterface.status i = "up"
       /\ exists ip, NetworkInterface.ip_address i = Some ip /\ ip <> EmptyString)
      \/ (NetworkInterface.status i = "down" /\ NetworkInterface.ip_address i = None))
  /\ NetworkInterface.gateway i = None
  /\ NetworkInterface.dns_servers i = []
  /\ (NetworkInterface.type i = "WiFi"
      \/ (NetworkInterface.type i = "Ethernet"
          /\ NetworkInterface.signal_strength i = None
          /\ NetworkInterface.frequency i = None
          /\ NetworkInterface.channel i = None)).

(** What the macOS parser makes of the data of a hardware port. *)
Definition mac_interface (interface_data : gmap string string)
    (i : NetworkInterface.t) : Prop :=
  NetworkInterface.name i = get interface_data "name" "Unknown"
  /\ NetworkInterface.mac_address i = get interface_data "mac" EmptyString
  /\ ((NetworkInterface.status i = "active"
       /\ exists ip, NetworkInterface.ip_address i = Some ip /\ ip <> EmptyString)
      \/ (NetworkInterface.status i = "inactive" /\ NetworkInterface.ip_address i = None))
  /\ NetworkInterface.gateway i = None
  /\ NoDup (NetworkInterface.dns_servers i)
  /\ (NetworkInterface.type i = "WiFi" \/ NetworkInterface.type i = "Ethernet").

(** A line of [nmcli ... device show] that reaches [split(':', 1)[1]]
    and has no colon: it starts with IP4.GATEWAY or IP4.DNS, not with
    IP4.ADDRESS. *)
Definition colonless_line (line : string) : bool :=
  negb (startswith "IP4.ADDRESS" line)
  && (startswith "IP4.GATEWAY" line || startswith "IP4.DNS" line)
  && negb (contains ":" line).

(** An nmcli world whose device listing for eth0 has a gateway line with
    no colon. *)
Definition world_colonless : world :=
  scripted
    [("nmcli -t -f IP4.ADDRESS,IP4.GATEWAY,IP4.DNS device show eth0",
      exits 0 "IP4.ADDRESS[1]:192.168.1.5/24
IP4.GATEWAY
")].

(** Does the interface have an address? *)
Definition has_address (i : NetworkInterface.t) : bool :=
  match NetworkInterface.ip_address i with
  | Some _ => true
  | None => false
  end.

(** ** WiFi scan on macOS *)

(** The value of decimal digits with single underscores between them;
    [after_digit] tells whether the character before was a digit. *)
Fixpoint digits_us (acc : Z) (after_digit : bool) (s : string) : option Z :=
  match s with
  | EmptyString => if after_digit then Some acc else None
  | String c s' =>
      if is_digit c then digits_us (10 * acc + digit_val c) true s'
      else if is_char "_" c && after_digit then digits_us acc false s'
      else None
  end.

(** The value of an integer literal without white space: an optional
    sign, then digits with single underscores between them. *)
Definition int_value (s : string) : option Z :=
  match s with
  | String "-" d => option_map Z.opp (digits_us 0 false d)
  | String "+" d => digits_us 0 false d
  | _ => digits_us 0 false s
  end.

(** [int(s)] for a field of [line.split()], which holds no white space. *)
Definition int_field (s : string) : py_result Z :=
  match int_value s with
  | Some n => Return n
  | None => Raise (ValueError s)
  end.

(** [sep.join(l)]. *)
Fixpoint join (sep : string) (l : list string) : string :=
  match l with
  | [] => EmptyString
  | [x] => x
  | x :: l' => x +:+ sep +:+ join sep l'
  end.

(** The body of the loop of [_scan_wifi_mac]. *)
Definition airport_row (networks : list WiFiNetwork.t) (line : string)
    : py_result (list WiFiNetwork.t) :=
  match strip line with
  | EmptyString => Return networks
  | _ =>
      match split_ws line with
      | ssid :: bssid :: p2 :: p3 :: _ :: _ :: rest =>
          let? signal := int_field p2 in
          let? channel := int_field p3 in
          let frequency := band channel in
          let encryption :=
            match rest with
            | [] => "Open"
            | _ => join " " rest
            end in
          Return (networks ++
            [{| WiFiNetwork.ssid := ssid;
                WiFiNetwork.bssid := bssid;
                WiFiNetwork.channel := channel;
                WiFiNetwork.frequency := frequency;
                WiFiNetwork.signal_strength := signal;
                WiFiNetwork.quality := _calculate_wifi_quality signal;
                WiFiNetwork.encryption := encryption;
                WiFiNetwork.vendor := _get_vendor_from_mac bssid |}])
      | _ => Return networks
      end
  end.

(** [_scan_wifi_mac]; [drop 1] skips the header line. *)
Definition _scan_wifi_mac : M (list WiFiNetwork.t) :=
  let* (success, output, _) := run (airport +:+ " -s") in
  if negb success then ret []
  else lift (for_each airport_row (drop 1 (split newline (strip output))) []).

(** [scan_wifi_networks], on [self.interfaces]; the list returned is
    also what it stores in [self.wifi_networks]. *)
Definition scan_wifi_networks (is_mac : bool) (interfaces : list NetworkInterface.t)
    : M (list WiFiNetwork.t) :=
  if is_mac then _scan_wifi_mac else _scan_wifi_linux interfaces.

(** A row that is not blank and has at least six fields, the third or
    the fourth of which is no integer literal. *)
Definition bad_row (line : string) : bool :=
  match strip line with
  | EmptyString => false
  | _ =>
      match split_ws line with
      | _ :: _ :: p2 :: p3 :: _ :: _ :: _ =>
          match int_value p2, int_value p3 with
          | Some _, Some _ => false
          | _, _ => true
          end
      | _ => false
      end
  end.

(** What the macOS scan parser makes of a row. *)
Definition airport_network (n : WiFiNetwork.t) : Prop :=
  WiFiNetwork.quality n = _calculate_wifi_quality (WiFiNetwork.signal_strength n)
  /\ WiFiNetwork.frequency n = band (WiFiNetwork.channel n)
  /\ WiFiNetwork.vendor n = _get_vendor_from_mac (WiFiNetwork.bssid n)
  /\ WiFiNetwork.encryption n <> EmptyString.

(** An airport listing whose second row has the channel 149,+1. *)
Definition airport_scan_output : string :=
  "                            SSID BSSID             RSSI CHANNEL HT CC SECURITY
                            Home a4:5e:60:dd:ee:ff -52  6       Y  US WPA2(PSK/AES/AES)
                          Office 00:50:56:aa:bb:cc -71  149,+1  Y  US WPA2(PSK/AES/AES)
".

(** A Linux host with nmcli whose device listing for eth0 has a gateway
    line with no colon. *)
Definition world_nmcli_colonless : world :=
  scripted
    [("which nmcli", exits 0 "/usr/bin/nmcli
");
     ("nmcli -t -f DEVICE,TYPE,STATE,CONNECTION device",
      exits 0 "eth0:ethernet:connected:Wired
lo:loopback:unmanaged:
");
     ("nmcli -t -f IP4.ADDRESS,IP4.GATEWAY,IP4.DNS device show eth0",
      exits 0 "IP4.ADDRESS[1]:192.168.1.5/24
IP4.GATEWAY
")].

(** ** The ping test *)

(** A float, as the literal that [float()] made it of. *)
Inductive py_float : Type :=
  | Float (literal : string).

(** Where the reader of a float literal stands: at the start, in the
    integer part, after the point, in the fraction, in the exponent;
    [Us] after an underscore, which a digit must follow. *)
Inductive float_state : Type :=
  | FStart | FInt | FIntUs | FPoint0 | FPoint | FFrac | FFracUs
  | FExp0 | FExpSign | FExp | FExpUs.

Definition is_exp (c : ascii) : bool := is_char "e" c || is_char "E" c.
Definition is_sign (c : ascii) : bool := is_char "+" c || is_char "-" c.

Definition float_step (st : float_state) (c : ascii) : option float_state :=
  match st with
  | FStart =>
      if is_digit c then Some FInt
      else if is_char "." c then Some FPoint0 else None
  | FInt =>
      if is_digit c then Some FInt
      else if is_char "_" c then Some FIntUs
      else if is_char "." c then Some FPoint
      else if is_exp c then Some FExp0 else None
  | FIntUs => if is_digit c then Some FInt else None
  | FPoint0 => if is_digit c then Some FFrac else None
  | FPoint =>
      if is_digit c then Some FFrac
      else if is_exp c then Some FExp0 else None
  | FFrac =>
      if is_digit c then Some FFrac
      else if is_char "_" c then Some FFracUs
      else if is_exp c then Some FExp0 else None
  | FFracUs => if is_digit c then Some FFrac else None
  | FExp0 =>
      if is_digit c then Some FExp
      else if is_sign c then Some FExpSign else None
  | FExpSign => if is_digit c then Some FExp else None
  | FExp =>
      if is_digit c then Some FExp
      else if is_char "_" c then Some FExpUs else None
  | FExpUs => if is_digit c then Some FExp else None
  end.

(** Is [s], read from the state [st], the rest of a number literal? *)
Fixpoint float_number (st : float_state) (s : string) : bool :=
  match s with
  | EmptyString =>
      match st with
      | FInt | FPoint | FFrac | FExp => true
      | _ => false
      end
  | String c s' =>
      match float_step st c with
      | Some st' => float_number st' s'
      | None => false
      end
  end.

(** The strings [float()] accepts: white space around an optional sign
    and a number literal, or inf, infinity or nan in any case. *)
Definition float_literal (s : string) : bool :=
  let t := strip s in
  let u := match t with
           | String c t' => if is_sign c then t' else t
           | EmptyString => t
           end in
  float_number FStart u
  || String.eqb (lower u) "inf" || String.eqb (lower u) "infinity"
  || String.eqb (lower u) "nan".

(** [float(s)]. *)
Definition float_of_str (s : string) : py_result py_float :=
  if float_literal s then Return (Float s)
  else Raise (OtherException ("could not convert string to float: '" +:+ s +:+ "'")).

(** The text [time=] and a group of one or more digits, an optional
    point and any number of digits. *)
Definition re_ping : regex :=
  lits "time=" ++ grp (plus is_digit ++ opt (is_char ".") ++ star is_digit).

Definition test_hosts : list string := ["8.8.8.8"; "1.1.1.1"; "google.com"].

(** The command of [_test_ping] for a host; it is the same on macOS and
    on Linux. *)
Definition ping_command (host : string) : string := "ping -c 3 " +:+ host.

(** The [try] body of [_test_ping] for one host: the value it returns,
    or [None] when the loop goes on. *)
Definition ping_host (host : string) : M (option py_float) :=
  let* (success, output, _) := run_command (ping_command host) true 10 in
  if success then
    match re_search re_ping output with
    | Some ping_match =>
        let* ping := lift (float_of_str (group ping_match 1)) in
        ret (Some ping)
    | None => ret None
    end
  else ret None.

(** The loop of [_test_ping]; an exception of the body goes on to the
    next host. *)
Fixpoint _test_ping_loop (hosts : list string) : M py_float :=
  match hosts with
  | [] => ret (Float "999.0")
  | host :: rest =>
      let* r := try_except (ping_host host) (fun _ => ret None) in
      match r with
      | Some ping => ret ping
      | None => _test_ping_loop rest
      end
  end.

(** [_test_ping]. *)
Definition _test_ping : M py_float := _test_ping_loop test_hosts.

(** The time figure in what the ping of [host] answers after the calls
    of [tr], when the command succeeds and prints one. *)
Definition ping_figure (w : world) (tr : trace) (host : string) : option string :=
  let '(success, output, _) := answer w tr (ping_command host) true 10 in
  if success then group1 (re_search re_ping output) else None.

(** A host that answers the second ping only. *)
Definition world_ping_second : world :=
  scripted
    [("ping -c 3 1.1.1.1",
      exits 0 "64 bytes from 1.1.1.1: icmp_seq=1 ttl=57 time=12.5 ms
64 bytes from 1.1.1.1: icmp_seq=2 ttl=57 time=11 ms
")].

(** ** Fields that pass isdigit and are no int literal *)

(** A field that passes [str.isdigit] and that [int] refuses: it holds a
    superscript digit. *)
Definition superscript_field (s : string) : bool :=
  isdigit s && negb (isdecimal s).

(** The field at which the loop over the lines of the WiFi listing
    raises: the SIGNAL field, or else the CHAN field, of the first line
    that starts with a star, when the line has four fields and the field
    is of this kind. *)
Fixpoint bad_wifi_listing (lines : list string) : option string :=
  match lines with
  | [] => None
  | line :: rest =>
      if startswith "*" line then
        match split ":" line with
        | _ :: p1 :: _ :: p3 :: _ =>
            if superscript_field p1 then Some p1
            else if superscript_field p3 then Some p3
            else None
        | _ => None
        end
      else bad_wifi_listing rest
  end.

(** The same field for the parser called on [device] after the calls of
    [tr]: the WiFi listing is the third command the parser runs, and it
    is run for a device of type wifi only. *)
Definition wifi_listing_fault (device iface_type : string) (w : world) (tr : trace)
    : option string :=
  let show := "nmcli -t -f IP4.ADDRESS,IP4.GATEWAY,IP4.DNS device show " +:+ device in
  let cat := "cat /sys/class/net/" +:+ device +:+ "/address" in
  let tr1 := tr ++ [called show (answer w tr show true 30)] in
  let tr2 := tr1 ++ [called cat (answer w tr1 cat true 30)] in
  if String.eqb iface_type "wifi" then
    let '(success, output, _) :=
      answer w tr2
        ("nmcli -t -f IN-USE,SIGNAL,FREQ,CHAN device wifi list ifname " +:+ device)
        true 30 in
    if success then bad_wifi_listing (split newline output) else None
  else None.

(** The superscript digit two, the code point 178. *)
Definition superscript_two : string := String (ascii_of_nat 178) EmptyString.

(** A Linux host with nmcli whose WiFi listing for wlan0 shows the signal
    of the connected network as a superscript two. *)
Definition world_nmcli_superscript : world :=
  scripted
    [("which nmcli", exits 0 "/usr/bin/nmcli
");
     ("nmcli -t -f DEVICE,TYPE,STATE,CONNECTION device",
      exits 0 "wlan0:wifi:connected:Home
");
     ("nmcli -t -f IN-USE,SIGNAL,FREQ,CHAN device wifi list ifname wlan0",
      exits 0 ("*:" +:+ superscript_two +:+ ":2437 MHz:6
"))].

(** ** The calls of a remediation action *)

(** The calls the runner records when the commands are run in order, each
    with the default shell and timeout, after the calls of [tr]: every
    flag is the one the world answers at that point. *)
Fixpoint run_calls (w : world) (tr : trace) (commands : list string) : trace :=
  match commands with
  | [] => []
  | c :: rest =>
      let k := called c (answer w tr c true 30) in
      k :: run_calls w (tr ++ [k]) rest
  end.

(** The commands of the action mapped to a kind, for the actions that run
    all of their commands: [_fix_dns_issues], [_fix_mdns_issues],
    [_fix_vpn_dns_issues], [_fix_networkmanager_issues] and
    [_optimize_wifi_connection], which runs none. *)
Definition fix_commands (is_mac : bool) (kind : string) : list string :=
  if String.eqb kind "slow_dns" then
    if is_mac
    then ["sudo dscacheutil -flushcache"; "sudo killall -HUP mDNSResponder"]
    else ["sudo systemctl restart systemd-resolved"]
  else if String.eqb kind "mdns_high_cpu" then ["sudo killall -HUP mDNSResponder"]
  else if String.eqb kind "vpn_dns_issue"
       then ["sudo dscacheutil -flushcache"; "sudo killall -HUP mDNSResponder"]
  else if String.eqb kind "networkmanager_inactive"
       then ["sudo systemctl start NetworkManager"]
  else [].

(** The commands [_fix_wifi_power_management] has to try: one for each
    interface of type WiFi, in the order of the interfaces. *)
Definition power_off_commands (interfaces : list NetworkInterface.t) : list string :=
  map (fun i => "sudo iwconfig " +:+ NetworkInterface.name i +:+ " power off")
    (List.filter is_wifi interfaces).

(** ** Interfaces that share an address *)



(** ** The iwlist scan parser under the bound on int literals *)

(** The number of digits at the head of a text. *)
Fixpoint leading_digits (s : string) : nat :=
  match s with
  | String c s' => if is_digit c then S (leading_digits s') else O
  | EmptyString => O
  end.

(** The digits the interpreter counts in a literal: those after the
    sign. *)
Definition literal_digits (s : string) : nat :=
  match s with
  | String "-" d => leading_digits d
  | String "+" d => leading_digits d
  | _ => leading_digits s
  end.

(** Does [int(s)] refuse the literal for its length? It refuses more
    than [max_str_digits] digits when there are more than 640; the bound
    is [sys.get_int_max_str_digits()], 4300 unless it is configured, and
    0 when there is none, as in the Python versions before the bound. *)
Definition exceeds_limit (max_str_digits : nat) (s : string) : bool :=
  Nat.ltb 640 (literal_digits s) && negb (Nat.eqb max_str_digits 0)
  && Nat.ltb max_str_digits (literal_digits s).

Definition default_max_str_digits : nat := 4300.

(** The [ValueError] of a literal over the bound. *)
Definition limit_error (max_str_digits : nat) (s : string) : exn :=
  OtherException
    ("Exceeds the limit (" +:+ str_of_int (Z.of_nat max_str_digits)
     +:+ " digits) for integer string conversion: value has "
     +:+ str_of_int (Z.of_nat (literal_digits s))
     +:+ " digits; use sys.set_int_max_str_digits() to increase the limit").

(** [int(s)] in an interpreter with the bound [max_str_digits]. *)
Definition int_limited (max_str_digits : nat) (s : string) : py_result Z :=
  if exceeds_limit max_str_digits s
  then Raise (limit_error max_str_digits s)
  else int s.

(** The [try] block of [_parse_iwlist_scan] for one cell, under the
    bound. *)
Definition iwlist_cell_limited (max_str_digits : nat) (cell : string)
    : py_result WiFiNetwork.t :=
  let ssid :=
    match re_search re_essid cell with
    | Some ssid_match => group ssid_match 1
    | None => "Hidden"
    end in
  let bssid :=
    match re_search re_address cell with
    | Some bssid_match => group bssid_match 1
    | None => ""
    end in
  let? channel :=
    match re_search re_channel cell with
    | Some channel_match => int_limited max_str_digits (group channel_match 1)
    | None => Return 0
    end in
  let? signal :=
    match re_search re_signal_level cell with
    | Some signal_match => int_limited max_str_digits (group signal_match 1)
    | None => Return (-100)
    end in
  let encryption :=
    if contains "Privacy:on" cell
    then if contains "WPA2" cell then "WPA2"
         else if contains "WPA" cell then "WPA"
         else "WEP"
    else "Open" in
  let frequency := band channel in
  Return {| WiFiNetwork.ssid := ssid;
            WiFiNetwork.bssid := bssid;
            WiFiNetwork.channel := channel;
            WiFiNetwork.frequency := frequency;
            WiFiNetwork.signal_strength := signal;
            WiFiNetwork.quality := _calculate_wifi_quality signal;
            WiFiNetwork.encryption := encryption;
            WiFiNetwork.vendor := _get_vendor_from_mac bssid |}.

(** One turn of the loop under the bound: the network is appended, or
    the [except] branch logs the exception and the loop continues with
    the next cell. *)
Definition iwlist_cell_step_limited (max_str_digits : nat)
    (networks : list WiFiNetwork.t) (cell : string) : list WiFiNetwork.t :=
  match iwlist_cell_limited max_str_digits cell with
  | Return network => networks ++ [network]
  | Raise _ => networks
  end.

(** [_parse_iwlist_scan] under the bound. *)
Definition _parse_iwlist_scan_limited (max_str_digits : nat) (output : string)
    : list WiFiNetwork.t :=
  fold_left (iwlist_cell_step_limited max_str_digits) (drop 1 (split "Cell " output)) [].

(** A cell that shows a channel or a signal level too long for [int]. *)
Definition over_limit (max_str_digits : nat) (cell : string) : bool :=
  match re_search re_channel cell with
  | Some channel_match => exceeds_limit max_str_digits (group channel_match 1)
  | None => false
  end
  || match re_search re_signal_level cell with
     | Some signal_match => exceeds_limit max_str_digits (group signal_match 1)
     | None => false
     end.

(** A text of [n] digits. *)
Fixpoint digits_text (n : nat) : string :=
  match n with
  | O => EmptyString
  | S n' => String "1" (digits_text n')
  end.

(** An iwlist scan of three cells, the second with a channel of 4301
    digits. *)
Definition iwlist_long_channel_output : string :=
  "wlan0     Scan completed :
          Cell 01 - Quality=20/70
          Cell 02 - Channel:" +:+ digits_text 4301 +:+ "
          Cell 03 - Channel:11
".

(** * Properties *)

(** ** Quality *)

(** C1. For every integer signal strength the quality function follows the
    five documented buckets, and its result is one of 100, 70, 50, 30, 10. *)
Theorem quality_buckets (s : Z) :
  _calculate_wifi_quality s =
    (if Z_ge_dec s (-50) then 100
     else if Z_ge_dec s (-60) then 70
     else if Z_ge_dec s (-70) then 50
     else if Z_ge_dec s (-80) then 30
     else 10)
  /\ In (_calculate_wifi_quality s) [100; 70; 50; 30; 10].
Proof.
  unfold _calculate_wifi_quality.
  repeat match goal with
         | |- context [Z_ge_dec ?a ?b] => destruct (Z_ge_dec a b)
         | |- context [?a >=? ?b] => destruct (Z.geb_spec a b)
         end; try lia; split; simpl; auto 10.
Qed.

(** C4, as stated, fails: the quality is not non-increasing in the signal
    strength. From -90 dBm to -40 dBm it rises from 10 to 100. *)
Lemma quality_not_non_increasing :
  ~ (forall s1 s2 : Z,
       s1 <= s2 -> _calculate_wifi_quality s1 >= _calculate_wifi_quality s2).
Proof.
  intros H. specialize (H (-90) (-40)).
  unfold _calculate_wifi_quality in H. simpl in H. lia.
Qed.

(** C4, amended. The quality function is monotonically non-decreasing in
    the signal strength: a stronger signal never has a lower quality. *)
Theorem quality_monotone (s1 s2 : Z) :
  s1 <= s2 -> _calculate_wifi_quality s1 <= _calculate_wifi_quality s2.
Proof.
  intros H. unfold _calculate_wifi_quality.
  repeat match goal with
         | |- context [?a >=? ?b] => destruct (Z.geb_spec a b)
         end; lia.
Qed.

(** The amended statement at the signals -90 and -40. *)
Lemma quality_monotone_witness :
  -90 <= -40 /\ _calculate_wifi_quality (-90) <= _calculate_wifi_quality (-40).
Proof.
  split; [lia | apply (quality_monotone (-90) (-40)); lia].
Defined.

(** ** Command runner *)

(** One call of the runner: its answer, and the call it adds. *)
Lemma run_command_spec (w : world) (tr : trace) (command : string)
    (shell : bool) (timeout : Z) :
  run_command command shell timeout w tr =
    (Return (answer w tr command shell timeout),
     tr ++ [called command (answer w tr command shell timeout)]).
Proof.
  unfold run_command, run_command_attempt, bind, try_except, subprocess_run_call,
    record_call, ret, answer, called.
  destruct (subprocess_run w tr _ shell timeout) as [p | [ | msg]]; reflexivity.
Qed.

Lemma bind_run {A} (command : string) (k : bool * string * string -> M A)
    (w : world) (tr : trace) :
  bind (run command) k w tr =
    k (answer w tr command true 30) w
      (tr ++ [called command (answer w tr command true 30)]).
Proof. unfold bind, run. by rewrite run_command_spec. Qed.

(** C2. For every command string, shell flag and timeout, whatever
    [subprocess.run] does, the command runner returns a triple and raises
    nothing: the flag, output and error text of a completed process, the
    triple (false, empty, Command timed out after Ns) on a timeout, with N
    the timeout in decimal, and (false, empty, message) on any other
    exception. *)
Theorem run_command_never_raises (w : world) (tr : trace) (command : string)
    (shell : bool) (timeout : Z) :
  exists succeeded out err,
    fst (run_command command shell timeout w tr) = Return (succeeded, out, err)
    /\ (succeeded, out, err) =
         match subprocess_run w tr (run_argument command shell) shell timeout with
         | Return p => (returncode p =? 0, stdout p, stderr p)
         | Raise TimeoutExpired =>
             (false, EmptyString,
              "Command timed out after " +:+ str_of_int timeout +:+ "s")
         | Raise (OtherException msg) => (false, EmptyString, msg)
         end
    /\ str_of_int 30 = "30".
Proof.
  rewrite run_command_spec. unfold answer, timeout_message. simpl.
  destruct (subprocess_run w tr _ shell timeout) as [p | [ | msg]];
    do 3 eexists; (split; [reflexivity | split; reflexivity]).
Qed.

(** ** Issue detector: IP conflicts *)

Lemma holders_cons (a : string) (i : NetworkInterface.t) (l : list NetworkInterface.t) :
  holders a (i :: l) =
    if counts_as_active i
       && String.eqb (default EmptyString (NetworkInterface.ip_address i)) a
    then i :: holders a l else holders a l.
Proof. reflexivity. Qed.

(** The loop of [_check_ip_conflicts] from any dictionary: an address
    already in the dictionary is reported once per holder, a new one once
    per holder but the first. *)
Lemma ip_conflict_loop (interfaces : list NetworkInterface.t) :
  forall (active_ips : gmap string NetworkInterface.t) (issues : list Issue.t),
  exists dups : list string,
    snd (fold_left ip_conflict_step interfaces (active_ips, issues)) =
      issues ++ map ip_conflict_issue dups
    /\ forall a : string,
         count_occ String.string_dec dups a =
           match active_ips !! a with
           | Some _ => length (holders a interfaces)
           | None => Nat.pred (length (holders a interfaces))
           end.
Proof.
  induction interfaces as [| i l IH]; intros m issues.
  - exists []. simpl. split; [by rewrite app_nil_r |].
    intros a. by destruct (m !! a).
  - cbn [fold_left]. unfold ip_conflict_step at 2.
    destruct (counts_as_active i) eqn:Hact.
    + set (ip := default EmptyString (NetworkInterface.ip_address i)).
      destruct (m !! ip) as [old |] eqn:Hm.
      * destruct (IH m (issues ++ [ip_conflict_issue ip])) as (dups & Hd & Hc).
        exists (ip :: dups). split.
        { rewrite Hd. by rewrite <- app_assoc. }
        intros a. rewrite holders_cons, Hact. fold ip. cbn [andb count_occ].
        specialize (Hc a).
        destruct (String.eqb_spec ip a) as [-> | Hne].
        -- destruct (String.string_dec a a) as [_ | ?]; [| done].
           rewrite Hm in Hc |- *. cbn [length]. lia.
        -- destruct (String.string_dec ip a) as [? | _]; [done |]. exact Hc.
      * destruct (IH (<[ip := i]> m) issues) as (dups & Hd & Hc).
        exists dups. split; [exact Hd |].
        intros a. rewrite holders_cons, Hact. fold ip. cbn [andb].
        specialize (Hc a).
        destruct (String.eqb_spec ip a) as [<- | Hne].
        -- rewrite lookup_insert_eq in Hc. rewrite Hm. cbn [length]. lia.
        -- rewrite lookup_insert_ne in Hc by done. exact Hc.
    + destruct (IH m issues) as (dups & Hd & Hc).
      exists dups. split; [exact Hd |].
      intros a. rewrite holders_cons, Hact. exact (Hc a).
Qed.

(** C5, as stated, fails: three active interfaces with one address give
    two conflict issues for that address, not exactly one. *)
Lemma ip_conflict_three_active_two_issues :
  _check_ip_conflicts three_active [] =
    [ip_conflict_issue "192.168.1.5"; ip_conflict_issue "192.168.1.5"]
  /\ length (_check_ip_conflicts three_active []) <> 1%nat.
Proof. split; [vm_compute; reflexivity | vm_compute; lia]. Qed.

(** C5, amended. Over any list of interfaces the IP-conflict rule appends
    one high-severity issue for every interface that passes its test
    (non-empty address and status active) and whose address an earlier
    such interface already holds: an address held by k active interfaces
    gives k - 1 issues, so exactly one when exactly two hold it. Inactive
    interfaces do not count: two active interfaces and one inactive one
    with 192.168.1.5 give exactly one issue, and it names 192.168.1.5. *)
Theorem ip_conflict_one_per_later_holder
    (interfaces : list NetworkInterface.t) (issues : list Issue.t) :
  (exists dups : list string,
     _check_ip_conflicts interfaces issues = issues ++ map ip_conflict_issue dups
     /\ (forall a : string,
           count_occ String.string_dec dups a = Nat.pred (length (holders a interfaces)))
     /\ Forall (fun i => Issue.type i = "ip_conflict" /\ Issue.severity i = "high")
          (map ip_conflict_issue dups))
  /\ _check_ip_conflicts two_active_one_inactive [] =
       [{| Issue.type := "ip_conflict";
           Issue.severity := "high";
           Issue.description := "IP conflict detected: 192.168.1.5";
           Issue.solution := "Release and renew IP address" |}].
Proof.
  split; [| vm_compute; reflexivity].
  destruct (ip_conflict_loop interfaces ∅ issues) as (dups & Hd & Hc).
  exists dups. split; [exact Hd |]. split.
  - intros a. specialize (Hc a). by rewrite lookup_empty in Hc.
  - clear Hd Hc. induction dups as [| a dups IH]; constructor; [by split | exact IH].
Qed.

(** ** Issue detector: channel congestion *)

Section DictFacts.
Context {V : Type}.
Implicit Types (d : list (Z * V)) (k : Z) (v : V).

Lemma dict_get_set_eq k v d : dict_get k (dict_set k v d) = Some v.
Proof.
  induction d as [| [k' v'] d IH]; simpl.
  - by rewrite Z.eqb_refl.
  - destruct (Z.eqb_spec k' k) as [-> | Hne]; simpl.
    + by rewrite Z.eqb_refl.
    + destruct (Z.eqb_spec k' k); [done | exact IH].
Qed.

Lemma dict_get_set_ne k k' v d :
  k <> k' -> dict_get k' (dict_set k v d) = dict_get k' d.
Proof.
  intros Hne. induction d as [| [k0 v0] d IH]; simpl.
  - destruct (Z.eqb_spec k k'); [done | reflexivity].
  - destruct (Z.eqb_spec k0 k) as [-> | Hk]; simpl.
    + destruct (Z.eqb_spec k k'); [done | reflexivity].
    + destruct (Z.eqb_spec k0 k'); [reflexivity | exact IH].
Qed.

Lemma dict_keys_set k v d :
  map fst (dict_set k v d) =
    if dict_contains k d then map fst d else map fst d ++ [k].
Proof.
  unfold dict_contains. induction d as [| [k0 v0] d IH]; simpl; [reflexivity |].
  destruct (Z.eqb_spec k0 k) as [-> | Hk]; simpl; [reflexivity |].
  rewrite IH. by destruct (dict_get k d).
Qed.

Lemma dict_get_None k d : dict_get k d = None -> ~ In k (map fst d).
Proof.
  induction d as [| [k0 v0] d IH]; simpl; intros H; [tauto |].
  destruct (Z.eqb_spec k0 k) as [-> | Hk]; [done |].
  intros [? | ?]; [done | by apply IH].
Qed.

Lemma dict_get_In k v d : dict_get k d = Some v -> In (k, v) d.
Proof.
  induction d as [| [k0 v0] d IH]; simpl; intros H; [done |].
  destruct (Z.eqb_spec k0 k) as [-> | Hk].
  - injection H as ->. by left.
  - right. by apply IH.
Qed.

Lemma dict_In_get k v d :
  List.NoDup (map fst d) -> In (k, v) d -> dict_get k d = Some v.
Proof.
  induction d as [| [k0 v0] d IH]; simpl; intros Hnd Hin; [done |].
  apply List.NoDup_cons_iff in Hnd as [Hk0 Hnd].
  destruct Hin as [Heq | Hin].
  - injection Heq as -> ->. by rewrite Z.eqb_refl.
  - destruct (Z.eqb_spec k0 k) as [-> | Hk]; [| by apply IH].
    exfalso. apply Hk0. change k with (fst (k, v)). by apply in_map.
Qed.

Lemma NoDup_keys_filter (f : Z * V -> bool) d :
  List.NoDup (map fst d) -> List.NoDup (map fst (List.filter f d)).
Proof.
  induction d as [| e d IH]; simpl; intros Hnd; [constructor |].
  apply List.NoDup_cons_iff in Hnd as [He Hnd].
  destruct (f e); simpl; [| by apply IH].
  apply List.NoDup_cons_iff. split; [| by apply IH].
  intros Hin. apply He. apply in_map_iff in Hin as (x & Hx & Hin).
  apply filter_In in Hin as [Hin _]. rewrite <- Hx. by apply in_map.
Qed.
End DictFacts.

Lemma NoDup_snoc {A} (l : list A) (x : A) :
  List.NoDup l -> ~ In x l -> List.NoDup (l ++ [x]).
Proof.
  induction l as [| y l IH]; simpl; intros Hnd Hx.
  - constructor; [tauto | constructor].
  - apply List.NoDup_cons_iff in Hnd as [Hy Hnd].
    apply List.NoDup_cons_iff. split.
    + rewrite in_app_iff. simpl. intros [? | [? | []]]; [done | subst; tauto].
    + apply IH; tauto.
Qed.

Lemma on_channel_snoc (c : Z) (nets : list WiFiNetwork.t) (n : WiFiNetwork.t) :
  on_channel c (nets ++ [n]) =
    on_channel c nets ++ (if WiFiNetwork.channel n =? c then [n] else []).
Proof. unfold on_channel. rewrite List.filter_app. reflexivity. Qed.

Lemma usage_of_add (nets : list WiFiNetwork.t) (d : list (Z * list WiFiNetwork.t))
    (n : WiFiNetwork.t) :
  usage_of nets d -> usage_of (nets ++ [n]) (channel_usage_add d n).
Proof.
  intros [Hnd Hget]. unfold channel_usage_add.
  set (ch := WiFiNetwork.channel n).
  pose proof (Hget ch) as Hch. unfold dict_contains.
  destruct (dict_get ch d) as [l |] eqn:Hl; cbn [negb].
  - rewrite Hl. cbn [default]. split.
    + rewrite dict_keys_set. unfold dict_contains. by rewrite Hl.
    + intros c. rewrite on_channel_snoc. fold ch.
      destruct (Z.eqb_spec ch c) as [<- | Hne].
      * rewrite dict_get_set_eq.
        destruct (on_channel ch nets) as [| x xs]; [done |].
        injection Hch as ->. reflexivity.
      * rewrite dict_get_set_ne by done. rewrite app_nil_r. apply Hget.
  - rewrite dict_get_set_eq. cbn [default app]. split.
    + rewrite !dict_keys_set. unfold dict_contains.
      rewrite dict_get_set_eq, Hl.
      apply NoDup_snoc; [exact Hnd | by apply dict_get_None].
    + intros c. rewrite on_channel_snoc. fold ch.
      destruct (Z.eqb_spec ch c) as [<- | Hne].
      * rewrite dict_get_set_eq.
        destruct (on_channel ch nets) as [| x xs]; [reflexivity | done].
      * rewrite !dict_get_set_ne by done. rewrite app_nil_r. apply Hget.
Qed.

Lemma usage_of_fold (nets' nets : list WiFiNetwork.t) (d : list (Z * list WiFiNetwork.t)) :
  usage_of nets d -> usage_of (nets ++ nets') (fold_left channel_usage_add nets' d).
Proof.
  revert nets d. induction nets' as [| n nets' IH]; intros nets d H; simpl.
  - by rewrite app_nil_r.
  - replace (nets ++ n :: nets') with ((nets ++ [n]) ++ nets')
      by (by rewrite <- app_assoc).
    apply IH. by apply usage_of_add.
Qed.

Lemma usage_of_all (nets : list WiFiNetwork.t) :
  usage_of nets (fold_left channel_usage_add nets []).
Proof.
  apply (usage_of_fold nets [] []). split; [constructor | reflexivity].
Qed.

Lemma congestion_loop (d : list (Z * list WiFiNetwork.t)) :
  forall issues : list Issue.t,
    fold_left congestion_step d issues =
      issues ++ map (fun e => congestion_issue (fst e) (length (snd e)))
                  (List.filter congested d).
Proof.
  induction d as [| [c ns] d IH]; intros issues; simpl.
  - by rewrite app_nil_r.
  - rewrite IH. unfold congested at 2. cbn [snd fst].
    destruct (3 <? length ns)%nat; simpl; [by rewrite <- app_assoc | reflexivity].
Qed.

(** C6. Over any list of networks the congestion rule appends exactly one
    medium-severity issue for every channel that carries more than 3 of
    them, and none for a channel with 3 or fewer; for networks on the
    channels 1, 1, 1, 1, 6, 6 it appends exactly one issue, for channel 1
    with its 4 networks. *)
Theorem channel_congestion_one_per_channel
    (wifi_networks : list WiFiNetwork.t) (issues : list Issue.t) :
  (exists channels : list Z,
     List.NoDup channels
     /\ (forall c : Z,
           In c channels <-> (3 < length (on_channel c wifi_networks))%nat)
     /\ _check_channel_congestion wifi_networks issues =
          issues ++ map (fun c => congestion_issue c (length (on_channel c wifi_networks)))
                      channels
     /\ (forall c n, Issue.severity (congestion_issue c n) = "medium"
                     /\ Issue.type (congestion_issue c n) = "channel_congestion"))
  /\ _check_channel_congestion (map sample_network [1; 1; 1; 1; 6; 6]) [] =
       [{| Issue.type := "channel_congestion";
           Issue.severity := "medium";
           Issue.description := "Channel 1 has 4 networks";
           Issue.solution := "Switch to less congested channel" |}].
Proof.
  split; [| vm_compute; reflexivity].
  destruct wifi_networks as [| n0 nets0] eqn:Hnets.
  { exists []. simpl. split; [constructor |]. split; [intros c; simpl; lia |].
    split; [by rewrite app_nil_r | by split]. }
  rewrite <- Hnets. clear Hnets.
  replace (_check_channel_congestion wifi_networks issues)
    with (fold_left congestion_step (fold_left channel_usage_add wifi_networks []) issues).
  2: { unfold _check_channel_congestion. by destruct wifi_networks. }
  destruct (usage_of_all wifi_networks) as [Hnd Hget].
  set (d := fold_left channel_usage_add wifi_networks []) in *.
  assert (Hval : forall c ns, In (c, ns) d -> ns = on_channel c wifi_networks).
  { intros c ns Hin. apply (dict_In_get _ _ _ Hnd) in Hin.
    rewrite Hget in Hin. destruct (on_channel c wifi_networks); congruence. }
  exists (map fst (List.filter congested d)).
  split; [by apply NoDup_keys_filter |]. split; [| split; [| by split]].
  - intros c. split.
    + intros Hin. apply in_map_iff in Hin as ([c' ns] & Hc & Hin). simpl in Hc. subst c'.
      apply filter_In in Hin as [Hin Hlen]. unfold congested in Hlen. simpl in Hlen.
      rewrite <- (Hval _ _ Hin). by apply Nat.ltb_lt.
    + intros Hlen. specialize (Hget c).
      destruct (on_channel c wifi_networks) as [| x xs] eqn:Hon; [simpl in Hlen; lia |].
      apply dict_get_In in Hget. change c with (fst (c, x :: xs)).
      apply in_map. apply filter_In. split; [exact Hget |].
      unfold congested. simpl. by apply Nat.ltb_lt.
  - rewrite congestion_loop. f_equal. rewrite map_map.
    apply map_ext_in. intros [c ns] Hin. simpl.
    apply filter_In in Hin as [Hin _]. by rewrite (Hval _ _ Hin).
Qed.

(** ** Remediation dispatcher *)

Lemma new_flags_app (tr calls : trace) :
  new_flags tr (tr ++ calls) = map call_succeeded calls.
Proof. unfold new_flags. by rewrite drop_app_length. Qed.

(** C8, as stated, fails: with power management switched off on wlan1
    after the call for wlan0 failed, the fix reports success although one
    of the two calls it made did not succeed. *)
Lemma power_management_not_conjunction :
  exists (r : FixResult.t) (tr : trace),
    _apply_fix_for_issue false
      [sample_wifi_interface "wlan0"; sample_wifi_interface "wlan1"]
      (sample_issue "wifi_power_management") world_wlan1_only [] = (Return (Some r), tr)
    /\ new_flags [] tr = [false; true]
    /\ FixResult.success r = true
    /\ FixResult.success r <> forallb id (new_flags [] tr).
Proof.
  eexists _, _. split; [vm_compute; reflexivity |].
  split; [reflexivity |]. split; [reflexivity |]. simpl. discriminate.
Qed.

Lemma bind_assoc {A B C} (c : M A) (k : A -> M B) (k' : B -> M C)
    (w : world) (tr : trace) :
  bind (bind c k) k' w tr = bind c (fun a => bind (k a) k') w tr.
Proof. unfold bind. destruct (c w tr) as [[a | e] tr']; reflexivity. Qed.

(** One call of the runner at the head of a computation. *)
Ltac run_step :=
  rewrite ?bind_assoc; rewrite bind_run;
  let ok := fresh "ok" in
  destruct (answer _ _ _ true 30) as [[ok ?] ?].

(** The loop of [_fix_wifi_power_management] runs the commands of its
    interfaces in order and stops at the first one that succeeds. *)
Lemma power_management_loop_calls (l : list NetworkInterface.t) (w : world) :
  forall tr : trace,
  exists (r : FixResult.t) (calls : trace),
    _fix_wifi_power_management_loop l w tr = (Return r, tr ++ calls)
    /\ FixResult.issue r = "wifi_power_management"
    /\ FixResult.success r = existsb id (map call_succeeded calls)
    /\ calls =
         run_calls w tr
           (take (length calls)
              (map (fun i => "sudo iwconfig " +:+ NetworkInterface.name i +:+ " power off")
                 l))
    /\ Forall (fun c => call_succeeded c = false) (removelast calls)
    /\ (existsb call_succeeded calls = true \/ length calls = length l).
Proof.
  induction l as [| i l IH]; intros tr.
  - exists {| FixResult.issue := "wifi_power_management";
              FixResult.fix_ := "Failed to disable power management";
              FixResult.success := false |}, [].
    simpl. unfold ret. rewrite app_nil_r.
    repeat split; [constructor | by right].
  - cbn [_fix_wifi_power_management_loop]. rewrite bind_run.
    set (c := "sudo iwconfig " +:+ NetworkInterface.name i +:+ " power off").
    destruct (answer w tr c true 30) as [[ok out] err] eqn:E.
    destruct ok.
    + eexists _, [called c (true, out, err)]. split; [reflexivity |].
      split; [reflexivity |]. split; [reflexivity |].
      split; [cbn [length map take run_calls]; fold c; by rewrite E |].
      split; [constructor | by left].
    + destruct (IH (tr ++ [called c (false, out, err)]))
        as (r & calls & Hr & Hi & Hs & Hc & Hf & Hl).
      exists r, (called c (false, out, err) :: calls).
      split; [rewrite Hr; by rewrite <- app_assoc |].
      split; [exact Hi |]. split; [rewrite Hs; reflexivity |].
      split; [cbn [length map take run_calls]; fold c; rewrite E; by rewrite <- Hc |].
      split.
      * destruct calls as [| c1 calls]; [constructor |].
        change (removelast (called c (false, out, err) :: c1 :: calls))
          with (called c (false, out, err) :: removelast (c1 :: calls)).
        by constructor.
      * destruct Hl as [Hl | Hl]; [by left | right; simpl; by rewrite Hl].
Qed.

(** C8, amended. For every issue whose kind has a mapped action the
    dispatcher returns a FixResult for that kind. For slow_dns,
    mdns_high_cpu, vpn_dns_issue, networkmanager_inactive and
    weak_signal the action runs exactly the commands of its kind, all of
    them and in order, and the success flag is the conjunction of the
    flags the world answered to them (weak_signal runs none and reports
    success). For wifi_power_management the action tries the power-off
    commands of the WiFi interfaces in order and stops at the first one
    that succeeds: the calls are a prefix of these commands, every call
    but the last failed, either one succeeded or all were tried, and the
    success flag is the disjunction of the flags of the calls. *)
Theorem fix_success_reflects_calls (is_mac : bool)
    (interfaces : list NetworkInterface.t) (issue : Issue.t) (w : world) (tr : trace) :
  In (Issue.type issue) mapped_kinds ->
  exists (r : FixResult.t) (calls : trace),
    _apply_fix_for_issue is_mac interfaces issue w tr = (Return (Some r), tr ++ calls)
    /\ FixResult.success r =
         (if String.eqb (Issue.type issue) "wifi_power_management"
          then existsb id (new_flags tr (tr ++ calls))
          else forallb id (new_flags tr (tr ++ calls)))
    /\ (Issue.type issue = "weak_signal" -> calls = [])
    /\ FixResult.issue r = Issue.type issue
    /\ (if String.eqb (Issue.type issue) "wifi_power_management"
        then calls = run_calls w tr (take (length calls) (power_off_commands interfaces))
             /\ Forall (fun c => call_succeeded c = false) (removelast calls)
             /\ (existsb call_succeeded calls = true
                 \/ length calls = length (power_off_commands interfaces))
        else calls = run_calls w tr (fix_commands is_mac (Issue.type issue))).
Proof.
  intros Hkind.
  unfold _apply_fix_for_issue, try_except, fix_commands.
  simpl in Hkind.
  destruct Hkind as [<- | [<- | [<- | [<- | [<- | [<- | []]]]]]];
    cbn [String.eqb Ascii.eqb Bool.eqb andb run_calls]; unfold some.
  - (* slow_dns *)
    unfold _fix_dns_issues. destruct is_mac; cbn [run_calls].
    + do 2 run_step. rewrite <- app_assoc.
      destruct ok, ok0; (eexists _, _; split; [reflexivity |]);
        rewrite new_flags_app; (split; [reflexivity |]);
        (split; [discriminate |]); split; reflexivity.
    + run_step.
      destruct ok; (eexists _, _; split; [reflexivity |]);
        rewrite new_flags_app; (split; [reflexivity |]);
        (split; [discriminate |]); split; reflexivity.
  - (* mdns_high_cpu *)
    unfold _fix_mdns_issues. run_step.
    destruct ok; (eexists _, _; split; [reflexivity |]);
      rewrite new_flags_app; (split; [reflexivity |]);
      (split; [discriminate |]); split; reflexivity.
  - (* vpn_dns_issue *)
    unfold _fix_vpn_dns_issues. do 2 run_step. rewrite <- app_assoc.
    destruct ok, ok0; (eexists _, _; split; [reflexivity |]);
      rewrite new_flags_app; (split; [reflexivity |]);
      (split; [discriminate |]); split; reflexivity.
  - (* networkmanager_inactive *)
    unfold _fix_networkmanager_issues. run_step.
    destruct ok; (eexists _, _; split; [reflexivity |]);
      rewrite new_flags_app; (split; [reflexivity |]);
      (split; [discriminate |]); split; reflexivity.
  - (* wifi_power_management *)
    unfold _fix_wifi_power_management, power_off_commands.
    destruct (power_management_loop_calls (List.filter is_wifi interfaces) w tr)
      as (r & calls & Hr & Hi & Hs & Hc & Hf & Hl).
    exists r, calls. unfold bind. rewrite Hr, new_flags_app.
    split; [reflexivity |]. split; [exact Hs |]. split; [discriminate |].
    split; [exact Hi |]. split; [exact Hc |]. split; [exact Hf |].
    by rewrite length_map.
  - (* weak_signal *)
    exists {| FixResult.issue := "weak_signal";
              FixResult.fix_ := "Applied WiFi optimization settings";
              FixResult.success := true |}, [].
    rewrite new_flags_app, app_nil_r.
    split; [reflexivity |]. split; [reflexivity |]. split; [reflexivity |].
    split; reflexivity.
Qed.

(** The statement at the power-management issue, in the world where the
    call for wlan0 fails and the call for wlan1 succeeds. *)
Lemma fix_success_reflects_calls_witness :
  In (Issue.type (sample_issue "wifi_power_management")) mapped_kinds
  /\ exists (r : FixResult.t) (calls : trace),
       _apply_fix_for_issue false
         [sample_wifi_interface "wlan0"; sample_wifi_interface "wlan1"]
         (sample_issue "wifi_power_management") world_wlan1_only [] =
         (Return (Some r), [] ++ calls)
       /\ FixResult.success r =
            (if String.eqb (Issue.type (sample_issue "wifi_power_management"))
                           "wifi_power_management"
             then existsb id (new_flags [] ([] ++ calls))
             else forallb id (new_flags [] ([] ++ calls)))
       /\ (Issue.type (sample_issue "wifi_power_management") = "weak_signal" ->
           calls = [])
       /\ FixResult.issue r = Issue.type (sample_issue "wifi_power_management")
       /\ (if String.eqb (Issue.type (sample_issue "wifi_power_management"))
                         "wifi_power_management"
           then calls =
                  run_calls world_wlan1_only []
                    (take (length calls)
                       (power_off_commands
                          [sample_wifi_interface "wlan0"; sample_wifi_interface "wlan1"]))
                /\ Forall (fun c => call_succeeded c = false) (removelast calls)
                /\ (existsb call_succeeded calls = true
                    \/ length calls =
                         length (power_off_commands
                                   [sample_wifi_interface "wlan0";
                                    sample_wifi_interface "wlan1"]))
           else calls =
                  run_calls world_wlan1_only []
                    (fix_commands false
                       (Issue.type (sample_issue "wifi_power_management")))).
Proof.
  split; [simpl; tauto |].
  apply (fix_success_reflects_calls false
           [sample_wifi_interface "wlan0"; sample_wifi_interface "wlan1"]
           (sample_issue "wifi_power_management") world_wlan1_only []).
  simpl. tauto.
Defined.

(** ** Computations *)

Lemma post_ret {A} (a : A) (P : A -> Prop) : P a -> post (ret a) P.
Proof. intros H w tr a' tr' E. injection E as <- _. exact H. Qed.

Lemma post_bind {A B} (c : M A) (k : A -> M B) (P : B -> Prop) :
  (forall a, post (k a) P) -> post (bind c k) P.
Proof.
  intros H w tr b tr'. unfold bind.
  destruct (c w tr) as [[a | e] tr1]; [apply H | discriminate].
Qed.

Lemma post_bind_with {A B} (c : M A) (k : A -> M B) (Q : A -> Prop) (P : B -> Prop) :
  post c Q -> (forall a, Q a -> post (k a) P) -> post (bind c k) P.
Proof.
  intros Hc Hk w tr b tr'. unfold bind.
  destruct (c w tr) as [[a | e] tr1] eqn:E; [| discriminate].
  apply Hk. by apply (Hc w tr a tr1).
Qed.

(** ** Interfaces of the Linux parsers and the IP-conflict rule *)

Lemma legacy_status (interface_name : string) :
  post (_parse_linux_interface_legacy interface_name)
    (fun o => forall i, o = Some i ->
       NetworkInterface.status i = "up" \/ NetworkInterface.status i = "down").
Proof.
  unfold _parse_linux_interface_legacy.
  apply post_bind; intros present.
  destruct (negb present); [by apply post_ret |].
  apply post_bind; intros [[success output] err].
  destruct (negb success); [by apply post_ret |].
  apply post_bind; intros [[success1 mac_output] err1].
  apply post_bind; intros [[success2 wireless_output] err2].
  apply post_bind; intros [[signal_strength frequency] channel].
  apply post_ret. intros i [= <-]. simpl.
  destruct (truthy_str _); [by left | by right].
Qed.

Lemma nmcli_status (device iface_type state connection : string) :
  post (_parse_linux_interface_nmcli device iface_type state connection)
    (fun o => forall i, o = Some i -> NetworkInterface.status i = state).
Proof.
  unfold _parse_linux_interface_nmcli.
  apply post_bind; intros [[success output] err].
  apply post_bind; intros [[ip_address gateway] dns_servers].
  apply post_bind; intros [[success1 output1] err1].
  apply post_bind; intros [[signal_strength frequency] channel].
  apply post_ret. by intros i [= <-].
Qed.

(** An interface whose status is not the string active never passes the
    test of the rule, with or without an address. *)
Lemma not_active_does_not_count (i : NetworkInterface.t) :
  NetworkInterface.status i <> "active" -> counts_as_active i = false.
Proof.
  intros H. unfold counts_as_active.
  destruct (String.eqb_spec (NetworkInterface.status i) "active"); [done |].
  by rewrite andb_false_r.
Qed.

Lemma ip_conflict_none_counted (interfaces : list NetworkInterface.t) :
  forall (active_ips : gmap string NetworkInterface.t) (issues : list Issue.t),
    (forall i, In i interfaces -> counts_as_active i = false) ->
    fold_left ip_conflict_step interfaces (active_ips, issues) = (active_ips, issues).
Proof.
  induction interfaces as [| i l IH]; intros m issues H; [reflexivity |].
  cbn [fold_left]. unfold ip_conflict_step at 2.
  rewrite (H i) by (by left). apply IH. intros j Hj. apply H. by right.
Qed.

(** Every interface the legacy detection path collects is up or down. *)
Lemma legacy_detection_loop (names : list string) :
  forall interfaces : list NetworkInterface.t,
    Forall (fun i => counts_as_active i = false) interfaces ->
    post (_detect_linux_legacy_loop names interfaces)
      (Forall (fun i => counts_as_active i = false)).
Proof.
  induction names as [| n names IH]; intros interfaces Hall;
    cbn [_detect_linux_legacy_loop].
  - by apply post_ret.
  - destruct (String.eqb n "lo"); [by apply IH |].
    apply (post_bind_with _ _ _ _ (legacy_status n)).
    intros [i |] Hi; [| by apply IH].
    apply IH. apply Forall_app. split; [exact Hall |].
    constructor; [| constructor]. apply not_active_does_not_count.
    destruct (Hi i eq_refl) as [-> | ->]; discriminate.
Qed.

(** The interfaces of the legacy detection path add no IP-conflict
    issue. *)
Lemma legacy_detection_no_ip_conflict (issues : list Issue.t) :
  post _detect_linux_legacy
    (fun interfaces => _check_ip_conflicts interfaces issues = issues).
Proof.
  unfold _detect_linux_legacy.
  apply post_bind; intros [[success output] err].
  assert (H : forall names,
            post (_detect_linux_legacy_loop names [])
              (fun interfaces => _check_ip_conflicts interfaces issues = issues)).
  { intros names w tr l tr' E.
    pose proof (legacy_detection_loop names [] (List.Forall_nil _) w tr l tr' E) as Hall.
    unfold _check_ip_conflicts. rewrite ip_conflict_none_counted; [reflexivity |].
    intros i Hi. rewrite Forall_forall in Hall. apply Hall. by apply list_elem_of_In. }
  destruct success; [apply H | by apply post_ret].
Qed.

(** ** DNS servers *)

(** The macOS parser returns the DNS servers without duplicates. *)
Lemma mac_dns_servers_nodup (interface_data : gmap string string) :
  post (_parse_mac_interface interface_data)
    (fun i => NoDup (NetworkInterface.dns_servers i)).
Proof.
  unfold _parse_mac_interface.
  apply post_bind; intros [[success output] err].
  apply post_bind; intros [[success1 output1] err1].
  apply post_bind; intros [[signal_strength frequency] channel].
  apply post_ret. simpl.
  destruct success1; [apply NoDup_elements | constructor].
Qed.

(** C7, at the failing input. When nmcli lists the DNS server 8.8.8.8
    twice for a device, the Linux nmcli parser keeps both occurrences;
    the macOS parser never returns a server twice, and returns 8.8.8.8
    once when scutil names it twice. *)
Theorem nmcli_keeps_duplicate_dns :
  fst (_parse_linux_interface_nmcli "eth0" "ethernet" "connected" "Wired"
         world_dup_dns []) = Return (Some nmcli_eth0)
  /\ count_occ String.string_dec (NetworkInterface.dns_servers nmcli_eth0) "8.8.8.8" = 2%nat
  /\ match fst (_parse_mac_interface en0_data world_mac_dup_dns []) with
     | Return i => NetworkInterface.dns_servers i = ["8.8.8.8"]
     | Raise _ => False
     end
  /\ (forall interface_data : gmap string string,
        post (_parse_mac_interface interface_data)
          (fun i => NoDup (NetworkInterface.dns_servers i))).
Proof.
  split; [vm_compute; reflexivity |]. split; [vm_compute; reflexivity |].
  split; [vm_compute; reflexivity |]. exact mac_dns_servers_nodup.
Qed.

(** ** Signal strength on the nmcli paths *)

Lemma digits_val_nonneg (s : string) : forall acc : Z, 0 <= acc -> 0 <= digits_val acc s.
Proof.
  induction s as [| c s IH]; intros acc H; simpl; [exact H |].
  apply IH. unfold digit_val. lia.
Qed.

Lemma int_if_isdigit_nonneg (s : string) (n : Z) :
  int_if_isdigit s = Return (Some n) -> 0 <= n.
Proof.
  unfold int_if_isdigit. destruct (isdigit s) eqn:Hd; [| discriminate].
  destruct s as [| c s']; [discriminate |].
  assert (Hc : is_digit_char c = true).
  { simpl in Hd. by apply andb_true_iff in Hd as [? _]. }
  assert (Hv : bind_r (if isdecimal (String c s')
                       then Return (digits_val 0 (String c s'))
                       else Raise (ValueError (String c s')))
                 (fun n => Return (Some n))
               = Return (Some n) -> 0 <= n).
  { destruct (isdecimal (String c s')); cbn [bind_r]; [| discriminate].
    intros [= <-]. apply (digits_val_nonneg (String c s')). lia. }
  unfold int.
  destruct c as [[] [] [] [] [] [] [] []]; try discriminate Hc; exact Hv.
Qed.

(** The signal strength the nmcli interface parser reads from the line
    of the connected network is never negative. *)
Lemma nmcli_wifi_lines_signal_nonneg (lines : list string) (s : Z)
    (frequency : option string) (channel : option Z) :
  nmcli_wifi_lines lines = Return (Some s, frequency, channel) -> 0 <= s.
Proof.
  induction lines as [| line rest IH]; cbn [nmcli_wifi_lines]; [discriminate |].
  destruct (startswith "*" line); [| exact IH].
  destruct (4 <=? length (split ":" line))%nat; [| discriminate].
  destruct (index (split ":" line) 1) as [p1 | e]; cbn [bind_r]; [| discriminate].
  destruct (int_if_isdigit p1) as [[n |] | e] eqn:Hn; cbn [bind_r]; [| | discriminate].
  - destruct (index (split ":" line) 2); cbn [bind_r]; [| discriminate].
    destruct (index (split ":" line) 3) as [p3 |]; cbn [bind_r]; [| discriminate].
    destruct (int_if_isdigit p3); cbn [bind_r]; [| discriminate].
    intros [= <- _ _]. by apply (int_if_isdigit_nonneg p1).
  - destruct (index (split ":" line) 2); cbn [bind_r]; [| discriminate].
    destruct (index (split ":" line) 3) as [p3 |]; cbn [bind_r]; [| discriminate].
    destruct (int_if_isdigit p3); cbn [bind_r]; discriminate.
Qed.

(** C3, at the failing inputs. For a connected network that nmcli lists
    with SIGNAL 75, the nmcli interface parser builds an interface with
    signal strength 75 and the nmcli scan parser a network with signal
    strength 75: the field is present and positive. On the interface
    path no signal strength read is ever negative. *)
Theorem nmcli_signal_strength_positive :
  match fst (_parse_linux_interface_nmcli "wlan0" "wifi" "connected" "Home"
               world_nmcli_wifi []) with
  | Return (Some i) => NetworkInterface.signal_strength i = Some 75
  | _ => False
  end
  /\ match _parse_nmcli_wifi_scan nmcli_scan_output with
     | Return [n] => WiFiNetwork.signal_strength n = 75
     | _ => False
     end
  /\ ~ (75 <= 0)
  /\ (forall lines s frequency channel,
        nmcli_wifi_lines lines = Return (Some s, frequency, channel) -> 0 <= s).
Proof.
  split; [vm_compute; reflexivity |]. split; [vm_compute; reflexivity |].
  split; [lia |]. exact nmcli_wifi_lines_signal_nonneg.
Qed.

(** ** The regular expression engine on the patterns of the iwlist parser *)

Lemma append_cons (a : ascii) (s t : string) : String a s +:+ t = String a (s +:+ t).
Proof. reflexivity. Qed.

Lemma append_empty_r (s : string) : s +:+ EmptyString = s.
Proof. induction s as [| a s IH]; [reflexivity |]. by rewrite append_cons, IH. Qed.

Lemma append_snoc (t d : string) (c : ascii) :
  (t +:+ String c EmptyString) +:+ d = t +:+ String c d.
Proof. induction t as [| a t IH]; [reflexivity |]. by rewrite !append_cons, IH. Qed.

(** A repetition of exactly one character takes it or fails. *)
Lemma rep_one (cls : ascii -> bool)
    (k : string -> nat -> option string -> list string -> option (nat * list string))
    (s : string) (pos : nat) (g : option string) (caps : list string) :
  rep_go cls 1 (Some 1%nat) true k O s pos g caps =
    match s with
    | String c s' => if cls c then k s' (S pos) (push c g) caps else None
    | EmptyString => None
    end.
Proof.
  destruct s as [| c s']; [reflexivity |]. simpl.
  destruct (cls c); [| reflexivity]. simpl.
  destruct s' as [| c' s'']; simpl; [by destruct (k _ _ _ _) |].
  rewrite andb_false_r. by destruct (k _ _ _ _).
Qed.

(** An optional character is taken when it is there and the rest of
    the pattern then matches, and left out otherwise. *)
Lemma rep_opt (cls : ascii -> bool)
    (k : string -> nat -> option string -> list string -> option (nat * list string))
    (s : string) (pos : nat) (g : option string) (caps : list string) :
  rep_go cls 0 (Some 1%nat) true k O s pos g caps =
    match
      match s with
      | String c s' => if cls c then k s' (S pos) (push c g) caps else None
      | EmptyString => None
      end
    with
    | Some r => Some r
    | None => k s pos g caps
    end.
Proof.
  destruct s as [| c s']; [reflexivity |]. simpl.
  destruct (cls c); [| reflexivity]. simpl.
  destruct s' as [| c' s'']; simpl; [by destruct (k _ _ _ _) |].
  rewrite andb_false_r. by destruct (k _ _ _ _).
Qed.

(** After a literal prefix outside any group the rest of the pattern is
    matched at some later place, outside any group. *)
Lemma match_lits (l : string) (r : regex) :
  forall (s : string) (pos : nat) (caps : list string) (res : nat * list string),
    match_here (lits l ++ r) s pos None caps = Some res ->
    exists s' pos', match_here r s' pos' None caps = Some res.
Proof.
  induction l as [| a l IH]; intros s pos caps res H.
  - by exists s, pos.
  - change (match_here (lits (String a l) ++ r) s pos None caps)
      with (rep_go (Ascii.eqb a) 1 (Some 1%nat) true (match_here (lits l ++ r))
              O s pos None caps) in H.
    rewrite rep_one in H. destruct s as [| c s']; [discriminate |].
    destruct (Ascii.eqb a c); [| discriminate]. by apply IH in H.
Qed.

Lemma search_go_match (p : regex) (s : string) :
  forall (pos : nat) (res : nat * list string),
    search_go p s pos = Some res ->
    exists s' pos', match_here p s' pos' None [] = Some res.
Proof.
  induction s as [| c s IH]; intros pos res; cbn [search_go];
    destruct (match_here p _ pos None []) eqn:E; intros H; simplify_eq; eauto.
Qed.

(** A closing run of digits adds a non-empty run of digits to the group. *)
Lemma rep_digits_close (s : string) :
  forall (n pos : nat) (t : string) (caps : list string) (e : nat) (caps' : list string),
    rep_go is_digit 1 None true (match_here [GClose]) n s pos (Some t) caps
      = Some (e, caps') ->
    exists d, caps' = rev ((t +:+ d) :: caps)
              /\ all_chars is_digit d = true
              /\ (1 <= n + String.length d)%nat.
Proof.
  assert (Hstop : forall s n pos t caps e caps',
            (if Nat.leb 1 n then match_here [GClose] s pos (Some t) caps else None)
              = Some (e, caps') ->
            exists d, caps' = rev ((t +:+ d) :: caps)
                      /\ all_chars is_digit d = true
                      /\ (1 <= n + String.length d)%nat).
  { intros s0 n pos t caps e caps' H. destruct (Nat.leb_spec 1 n); [| discriminate].
    simpl in H. injection H as _ <-. exists EmptyString.
    rewrite append_empty_r. simpl. split; [done | split; [done | lia]]. }
  induction s as [| c s IH]; intros n pos t caps e caps' H.
  - simpl in H. by apply Hstop in H.
  - cbn [rep_go] in H. cbn [below] in H. rewrite andb_true_r in H.
    destruct (is_digit c) eqn:Hc; [| by apply Hstop in H].
    destruct (rep_go is_digit 1 None true (match_here [GClose]) (S n) s (S pos)
                (push c (Some t)) caps) as [[e1 caps1] |] eqn:E;
      [| by apply Hstop in H].
    injection H as -> ->. apply IH in E as (d & -> & Hd & Hlen).
    exists (String c d). rewrite append_snoc. simpl. rewrite Hc, Hd.
    split; [done | split; [done | lia]].
Qed.

Lemma int_digits (d : string) :
  isdecimal d = true -> int d = Return (digits_val 0 d).
Proof.
  intros Hd. unfold int. destruct d as [| c d']; [discriminate |].
  assert (Hc : is_digit c = true).
  { simpl in Hd. by apply andb_true_iff in Hd as [? _]. }
  destruct c as [[] [] [] [] [] [] [] []]; try discriminate Hc; by rewrite Hd.
Qed.

Lemma int_minus_digits (d : string) :
  isdecimal d = true -> int (String "-" d) = Return (- digits_val 0 d).
Proof. intros Hd. simpl. by rewrite Hd. Qed.

Lemma isdecimal_all (d : string) :
  all_chars is_digit d = true -> (1 <= String.length d)%nat -> isdecimal d = true.
Proof. destruct d; simpl; [lia | done]. Qed.

(** The group of [Channel:(\d+)] is a decimal literal. *)
Lemma channel_group_int (cell : string) (m : match_object) :
  re_search re_channel cell = Some m -> exists n : Z, int (group m 1) = Return n.
Proof.
  unfold re_search. destruct (search_go re_channel cell O) as [[e caps] |] eqn:E;
    [| discriminate].
  intros [= <-]. apply search_go_match in E as (s1 & p1 & E).
  unfold re_channel in E. apply match_lits in E as (s2 & p2 & E).
  apply rep_digits_close in E as (d & -> & Hd & Hlen).
  simpl. exists (digits_val 0 d). apply int_digits. apply isdecimal_all; [done | lia].
Qed.

(** The group of [Signal level=(-?\d+)] is a decimal literal with an
    optional minus sign. *)
Lemma signal_group_int (cell : string) (m : match_object) :
  re_search re_signal_level cell = Some m -> exists n : Z, int (group m 1) = Return n.
Proof.
  unfold re_search.
  destruct (search_go re_signal_level cell O) as [[e caps] |] eqn:E; [| discriminate].
  intros [= <-]. apply search_go_match in E as (s1 & p1 & E).
  unfold re_signal_level in E. apply match_lits in E as (s2 & p2 & E).
  change (match_here (grp signed) s2 p2 None [])
    with (rep_go (is_char "-") 0 (Some 1%nat) true
            (rep_go is_digit 1 None true (match_here [GClose]) O)
            O s2 p2 (Some EmptyString) []) in E.
  assert (Hplain : forall s p,
            rep_go is_digit 1 None true (match_here [GClose]) O s p (Some EmptyString) []
              = Some (e, caps) ->
            exists n : Z, int (group caps 1) = Return n).
  { intros s p H. apply rep_digits_close in H as (d & -> & Hd & Hlen).
    exists (digits_val 0 d). simpl. apply int_digits. apply isdecimal_all; [done | lia]. }
  rewrite rep_opt in E. destruct s2 as [| c s2']; [by apply Hplain in E |].
  unfold is_char in E at 1.
  destruct (Ascii.eqb_spec "-" c) as [<- | Hne]; [| by apply Hplain in E].
  destruct (rep_go is_digit 1 None true (match_here [GClose]) O s2' (S p2)
              (push "-" (Some EmptyString)) []) as [r |] eqn:E2;
    [| by apply Hplain in E].
  injection E as ->.
  apply rep_digits_close in E2 as (d & -> & Hd & Hlen).
  exists (- digits_val 0 d). simpl. apply int_minus_digits.
  apply isdecimal_all; [done | lia].
Qed.

(** ** The iwlist scan parser *)

(** What one cell yields: a network, with the defaults of the fields the
    cell does not show. *)
Lemma iwlist_cell_defaults (cell : string) :
  exists network : WiFiNetwork.t,
    iwlist_cell cell = Return network
    /\ (re_search re_essid cell = None -> WiFiNetwork.ssid network = "Hidden")
    /\ (re_search re_address cell = None -> WiFiNetwork.bssid network = "")
    /\ (re_search re_channel cell = None ->
        WiFiNetwork.channel network = 0 /\ WiFiNetwork.frequency network = "2.4 GHz")
    /\ (re_search re_signal_level cell = None ->
        WiFiNetwork.signal_strength network = -100 /\ WiFiNetwork.quality network = 10).
Proof.
  unfold iwlist_cell.
  destruct (re_search re_essid cell) as [me |] eqn:Ee;
    destruct (re_search re_address cell) as [ma |] eqn:Ea;
    (destruct (re_search re_channel cell) as [mc |] eqn:Ec;
       [destruct (channel_group_int cell mc Ec) as [c ->] |]);
    (destruct (re_search re_signal_level cell) as [ms |] eqn:Es;
       [destruct (signal_group_int cell ms Es) as [sg ->] |]);
    cbn [bind_r]; eexists; (split; [reflexivity |]);
    cbn [WiFiNetwork.ssid WiFiNetwork.bssid WiFiNetwork.channel
         WiFiNetwork.frequency WiFiNetwork.signal_strength WiFiNetwork.quality];
    repeat split; intros; try discriminate; reflexivity.
Qed.

Lemma iwlist_loop (cells : list string) :
  forall networks : list WiFiNetwork.t,
  exists found : list WiFiNetwork.t,
    fold_left iwlist_cell_step cells networks = networks ++ found
    /\ Forall2 (fun cell network => iwlist_cell cell = Return network) cells found.
Proof.
  induction cells as [| cell cells IH]; intros networks.
  - exists []. split; [by rewrite app_nil_r | constructor].
  - cbn [fold_left]. unfold iwlist_cell_step at 2.
    destruct (iwlist_cell_defaults cell) as (n & Hn & _). rewrite Hn.
    destruct (IH (networks ++ [n])) as (found & Hf & Hall).
    exists (n :: found). split; [by rewrite Hf, <- app_assoc | by constructor].
Qed.

(** Without a bound [int_limited] is [int]. *)
Lemma int_limited_0 (s : string) : int_limited 0 s = int s.
Proof.
  unfold int_limited, exceeds_limit. cbn [Nat.eqb negb].
  by rewrite andb_false_r.
Qed.

Lemma iwlist_cell_limited_0 (cell : string) :
  iwlist_cell_limited 0 cell = iwlist_cell cell.
Proof.
  unfold iwlist_cell_limited, iwlist_cell.
  destruct (re_search re_channel cell), (re_search re_signal_level cell);
    by rewrite ?int_limited_0.
Qed.

(** What one cell yields under the bound: nothing when it is over the
    bound, and otherwise a network, with the defaults of the fields the
    cell does not show. *)
Lemma iwlist_cell_limited_defaults (max_str_digits : nat) (cell : string) :
  if over_limit max_str_digits cell
  then exists e, iwlist_cell_limited max_str_digits cell = Raise e
  else exists network : WiFiNetwork.t,
    iwlist_cell_limited max_str_digits cell = Return network
    /\ (re_search re_essid cell = None -> WiFiNetwork.ssid network = "Hidden")
    /\ (re_search re_address cell = None -> WiFiNetwork.bssid network = "")
    /\ (re_search re_channel cell = None ->
        WiFiNetwork.channel network = 0 /\ WiFiNetwork.frequency network = "2.4 GHz")
    /\ (re_search re_signal_level cell = None ->
        WiFiNetwork.signal_strength network = -100 /\ WiFiNetwork.quality network = 10).
Proof.
  unfold iwlist_cell_limited, over_limit, int_limited.
  destruct (re_search re_essid cell) as [me |] eqn:Ee;
    destruct (re_search re_address cell) as [ma |] eqn:Ea;
    (destruct (re_search re_channel cell) as [mc |] eqn:Ec;
       [destruct (channel_group_int cell mc Ec) as [c ->];
        destruct (exceeds_limit max_str_digits (group mc 1)) |]);
    (destruct (re_search re_signal_level cell) as [ms |] eqn:Es;
       [destruct (signal_group_int cell ms Es) as [sg ->];
        destruct (exceeds_limit max_str_digits (group ms 1)) |]);
    cbn [bind_r orb]; eexists; try reflexivity; (split; [reflexivity |]);
    cbn [WiFiNetwork.ssid WiFiNetwork.bssid WiFiNetwork.channel
         WiFiNetwork.frequency WiFiNetwork.signal_strength WiFiNetwork.quality];
    repeat split; intros; try discriminate; reflexivity.
Qed.

Lemma iwlist_loop_limited (max_str_digits : nat) (cells : list string) :
  forall networks : list WiFiNetwork.t,
  exists found : list WiFiNetwork.t,
    fold_left (iwlist_cell_step_limited max_str_digits) cells networks = networks ++ found
    /\ Forall2 (fun cell network => iwlist_cell_limited max_str_digits cell = Return network)
         (List.filter (fun cell => negb (over_limit max_str_digits cell)) cells) found.
Proof.
  induction cells as [| cell cells IH]; intros networks.
  - exists []. split; [by rewrite app_nil_r | constructor].
  - cbn [fold_left List.filter]. unfold iwlist_cell_step_limited at 2.
    pose proof (iwlist_cell_limited_defaults max_str_digits cell) as H.
    destruct (over_limit max_str_digits cell); cbn [negb].
    + destruct H as [e ->]. apply IH.
    + destruct H as (n & Hn & _). rewrite Hn.
      destruct (IH (networks ++ [n])) as (found & Hf & Hall).
      exists (n :: found). split; [by rewrite Hf, <- app_assoc | by constructor].
Qed.

(** C10. In the iwlist scan parser, whatever bound the interpreter puts
    on the digits of an int literal, every cell within the bound yields a
    network, in the order of the cells; a cell over the bound raises in
    its try block, is skipped, and does not abort the parse of the cells
    after it. In the network of a cell, an absent ESSID gives the ssid
    Hidden, an absent address the empty bssid, an absent channel the
    channel 0 and with it the band label 2.4 GHz, and an absent signal
    level the signal strength -100 and with it the quality 10. Without a
    bound no cell is skipped and the parser is [_parse_iwlist_scan]. *)
Theorem iwlist_scan_defaults (max_str_digits : nat) (output : string) :
  Forall2
    (fun cell network =>
       iwlist_cell_limited max_str_digits cell = Return network
       /\ (re_search re_essid cell = None -> WiFiNetwork.ssid network = "Hidden")
       /\ (re_search re_address cell = None -> WiFiNetwork.bssid network = "")
       /\ (re_search re_channel cell = None ->
           WiFiNetwork.channel network = 0
           /\ WiFiNetwork.frequency network = "2.4 GHz")
       /\ (re_search re_signal_level cell = None ->
           WiFiNetwork.signal_strength network = -100
           /\ WiFiNetwork.quality network = 10))
    (List.filter (fun cell => negb (over_limit max_str_digits cell))
       (drop 1 (split "Cell " output)))
    (_parse_iwlist_scan_limited max_str_digits output)
  /\ (forall cell, over_limit max_str_digits cell = true ->
        exists e, iwlist_cell_limited max_str_digits cell = Raise e)
  /\ (forall cell, over_limit 0 cell = false)
  /\ _parse_iwlist_scan_limited 0 output = _parse_iwlist_scan output.
Proof.
  split; [| split; [| split]].
  - unfold _parse_iwlist_scan_limited.
    destruct (iwlist_loop_limited max_str_digits (drop 1 (split "Cell " output)) [])
      as (found & -> & Hall).
    simpl.
    induction Hall as [| cell n cells found Hn Hall IH]; constructor; [| exact IH].
    pose proof (iwlist_cell_limited_defaults max_str_digits cell) as H.
    destruct (over_limit max_str_digits cell).
    + destruct H as [e He]. rewrite He in Hn. discriminate Hn.
    + destruct H as (n' & Hn' & Hd). rewrite Hn in Hn'. injection Hn' as <-. by split.
  - intros cell Hover.
    pose proof (iwlist_cell_limited_defaults max_str_digits cell) as H.
    by rewrite Hover in H.
  - intros cell. unfold over_limit, exceeds_limit. cbn [Nat.eqb negb].
    destruct (re_search re_channel cell), (re_search re_signal_level cell);
      by rewrite ?andb_false_r.
  - unfold _parse_iwlist_scan_limited, _parse_iwlist_scan.
    generalize (@nil WiFiNetwork.t).
    induction (drop 1 (split "Cell " output)) as [| cell cells IH]; intros acc;
      [reflexivity |].
    cbn [fold_left]. unfold iwlist_cell_step_limited at 2, iwlist_cell_step at 2.
    rewrite iwlist_cell_limited_0. apply IH.
Qed.

(** A scan whose second cell shows a channel of 4301 digits, under the
    default bound: the cell is skipped and the third cell is parsed. *)
Example iwlist_scan_long_channel :
  map WiFiNetwork.channel
    (_parse_iwlist_scan_limited default_max_str_digits iwlist_long_channel_output)
  = [0; 11].
Proof. vm_compute. reflexivity. Qed.

(** A scan whose first cell shows no field and whose second cell shows
    all of them: both are parsed. *)
Example iwlist_scan_bare_cell :
  _parse_iwlist_scan iwlist_scan_output =
    [{| WiFiNetwork.ssid := "Hidden";
        WiFiNetwork.bssid := "";
        WiFiNetwork.channel := 0;
        WiFiNetwork.frequency := "2.4 GHz";
        WiFiNetwork.signal_strength := -100;
        WiFiNetwork.quality := 10;
        WiFiNetwork.encryption := "Open";
        WiFiNetwork.vendor := None |};
     {| WiFiNetwork.ssid := "Home";
        WiFiNetwork.bssid := "A4:5E:60:DD:EE:FF";
        WiFiNetwork.channel := 36;
        WiFiNetwork.frequency := "5 GHz";
        WiFiNetwork.signal_strength := -67;
        WiFiNetwork.quality := 50;
        WiFiNetwork.encryption := "WPA2";
        WiFiNetwork.vendor := Some "Apple" |}].
Proof. vm_compute. reflexivity. Qed.

(** * Further properties *)

(** ** Vendor heuristic *)












Lemma upper_char_colon (c : ascii) : upper_char c = ":"%char -> c = ":"%char.
Proof.
  destruct c as [[] [] [] [] [] [] [] []]; intros H; vm_compute in H;
    first [reflexivity | discriminate H].
Qed.

(** X2. A vendor is found only for an address of at least eight
    characters whose third and sixth characters are colons, and it is one
    of Apple, VMware and VirtualBox: an address written with dashes or
    without separators has no vendor. *)
Theorem vendor_found_shape (mac v : string) :
  _get_vendor_from_mac mac = Some v ->
  In v ["Apple"; "VMware"; "VirtualBox"]
  /\ (8 <= String.length mac)%nat
  /\ String.get 2 mac = Some ":"%char
  /\ String.get 5 mac = Some ":"%char.
Proof.
  unfold _get_vendor_from_mac.
  destruct (negb (truthy_str (Some mac))); [discriminate |]. cbn [orb].
  destruct (Nat.ltb_spec (String.length mac) 8) as [? | Hge]; [discriminate |].
  intros H. apply elem_of_list_to_map_2 in H.
  assert (Hk : In (upper (take_string 8 mac), v)
                 [("00:03:93", "Apple"); ("00:0A:95", "Apple"); ("00:17:F2", "Apple");
                  ("28:CF:E9", "Apple"); ("A4:5E:60", "Apple"); ("00:1B:63", "Apple");
                  ("58:55:CA", "Apple"); ("00:26:08", "Apple"); ("3C:15:C2", "Apple");
                  ("00:50:56", "VMware"); ("08:00:27", "VirtualBox")])
    by (by apply list_elem_of_In).
  clear H.
  destruct mac as [| c0 [| c1 [| c2 [| c3 [| c4 [| c5 mac]]]]]]; try (simpl in Hge; lia).
  assert (c2 = ":"%char /\ c5 = ":"%char /\ In v ["Apple"; "VMware"; "VirtualBox"])
    as (-> & -> & Hv).
  { simpl in Hk.
    repeat (destruct Hk as [Hk | Hk];
            [injection Hk as ? ? ? ? ? ? ? <-;
             split; [by apply upper_char_colon |];
             split; [by apply upper_char_colon | simpl; tauto] |]).
    destruct Hk. }
  repeat split; [exact Hv | exact Hge].
Qed.

Lemma vendor_found_shape_witness :
  _get_vendor_from_mac "a4:5e:60:12:34:56" = Some "Apple"
  /\ In "Apple" ["Apple"; "VMware"; "VirtualBox"]
  /\ (8 <= String.length "a4:5e:60:12:34:56")%nat
  /\ String.get 2 "a4:5e:60:12:34:56" = Some ":"%char
  /\ String.get 5 "a4:5e:60:12:34:56" = Some ":"%char.
Proof.
  split; [vm_compute; reflexivity |].
  apply (vendor_found_shape "a4:5e:60:12:34:56" "Apple"). vm_compute. reflexivity.
Defined.

(** ** What a match leaves in its groups *)

Lemma push_text_empty (g : option string) : push_text EmptyString g = g.
Proof. destruct g as [t |]; [| reflexivity]. simpl. by rewrite append_empty_r. Qed.

Lemma push_text_push (c : ascii) (r : string) (g : option string) :
  push_text r (push c g) = push_text (String c r) g.
Proof. destruct g as [t |]; [| reflexivity]. simpl. by rewrite append_snoc. Qed.

(** A repetition that leads to a match has taken a run of its class,
    within its bounds, before the rest of the pattern matched. *)
Lemma rep_go_run (cls : ascii -> bool) (lo : nat) (hi : option nat) (greedy : bool)
    (k : string -> nat -> option string -> list string -> option (nat * list string))
    (Q : option string -> list string -> Prop) (res : nat * list string) :
  (forall s pos g caps, k s pos g caps = Some res -> Q g caps) ->
  forall (s : string) (n pos : nat) (g : option string) (caps : list string),
    rep_go cls lo hi greedy k n s pos g caps = Some res ->
    exists r : string,
      all_chars cls r = true
      /\ (lo <= n + String.length r)%nat
      /\ match hi with
         | Some h => String.length r = O \/ (n + String.length r <= h)%nat
         | None => True
         end
      /\ Q (push_text r g) caps.
Proof.
  intros Hk.
  assert (Hstop : forall s n pos g caps,
            (if Nat.leb lo n then k s pos g caps else None) = Some res ->
            exists r : string,
              all_chars cls r = true
              /\ (lo <= n + String.length r)%nat
              /\ match hi with
                 | Some h => String.length r = O \/ (n + String.length r <= h)%nat
                 | None => True
                 end
              /\ Q (push_text r g) caps).
  { intros s n pos g caps H. destruct (Nat.leb_spec lo n); [| discriminate].
    exists EmptyString. rewrite push_text_empty. simpl.
    split; [done |]. split; [lia |]. split; [destruct hi; auto | by apply Hk in H]. }
  assert (Hmore : forall c n g caps,
            cls c && below n hi = true ->
            (exists r : string,
               all_chars cls r = true
               /\ (lo <= S n + String.length r)%nat
               /\ match hi with
                  | Some h => String.length r = O \/ (S n + String.length r <= h)%nat
                  | None => True
                  end
               /\ Q (push_text r (push c g)) caps) ->
            exists r : string,
              all_chars cls r = true
              /\ (lo <= n + String.length r)%nat
              /\ match hi with
                 | Some h => String.length r = O \/ (n + String.length r <= h)%nat
                 | None => True
                 end
              /\ Q (push_text r g) caps).
  { intros c n g caps Hc (r & Hr & Hlo & Hhi & HQ).
    apply andb_true_iff in Hc as [Hc Hb].
    exists (String c r). rewrite <- push_text_push. simpl. rewrite Hc, Hr.
    split; [done |]. split; [lia |]. split; [| exact HQ].
    destruct hi as [h |]; [| done]. right. simpl in Hb.
    apply Nat.ltb_lt in Hb. destruct Hhi as [H0 | Hle]; lia. }
  induction s as [| c s IH]; intros n pos g caps H.
  - simpl in H. destruct greedy; [by apply Hstop in H |].
    destruct (if Nat.leb lo n then k EmptyString pos g caps else None) eqn:E;
      [| discriminate].
    injection H as ->. by apply Hstop in E.
  - cbn [rep_go] in H.
    destruct (cls c && below n hi) eqn:Hc.
    + destruct greedy.
      * destruct (rep_go cls lo hi true k (S n) s (S pos) (push c g) caps) eqn:E.
        -- injection H as ->. apply (Hmore c n g caps Hc). by apply IH in E.
        -- by apply Hstop in H.
      * destruct (if Nat.leb lo n then k (String c s) pos g caps else None) eqn:E.
        -- injection H as ->. by apply Hstop in E.
        -- apply (Hmore c n g caps Hc). by apply IH in H.
    + destruct greedy.
      * by apply Hstop in H.
      * destruct (if Nat.leb lo n then k (String c s) pos g caps else None) eqn:E;
          [| discriminate].
        injection H as ->. by apply Hstop in E.
Qed.

(** The engine is sound for the group texts: a match ends with texts of
    the shape of the pattern. *)
Lemma match_here_shape (p : regex) :
  forall (s : string) (pos : nat) (g : option string) (caps : list string)
         (e : nat) (out : list string),
    match_here p s pos g caps = Some (e, out) -> shape p g caps out.
Proof.
  induction p as [| [cls lo hi greedy | |] p IH]; intros s pos g caps e out H.
  - simpl in H. by injection H as _ <-.
  - cbn [match_here] in H. cbn [shape].
    apply (rep_go_run cls lo hi greedy (match_here p)
             (fun g caps => shape p g caps out) (e, out)) in H.
    + destruct H as (r & Hr & Hlo & Hhi & Hs). exists r.
      split; [done |]. split; [lia |]. split; [| done].
      destruct hi; [destruct Hhi; lia | done].
    + intros s' pos' g' caps' H'. by apply IH in H'.
  - cbn [match_here] in H. cbn [shape]. by apply IH in H.
  - cbn [match_here] in H. cbn [shape]. by apply IH in H.
Qed.

Lemma re_match_shape (p : regex) (s : string) (m : match_object) :
  re_match p s = Some m -> shape p None [] m.
Proof.
  unfold re_match. destruct (match_here p s O None []) as [[e out] |] eqn:E;
    [| discriminate].
  intros [= <-]. by apply match_here_shape in E.
Qed.

Lemma re_search_shape (p : regex) (s : string) (m : match_object) :
  re_search p s = Some m -> shape p None [] m.
Proof.
  unfold re_search. destruct (search_go p s O) as [[e out] |] eqn:E; [| discriminate].
  intros [= <-]. apply search_go_match in E as (s' & pos' & E).
  by apply match_here_shape in E.
Qed.

(** ** The scan parsers *)

Ltac open_shape H :=
  repeat match type of H with
         | exists _, _ => let r := fresh "r" in destruct H as (r & ? & ? & ? & H)
         end.

Lemma nmcli_row_groups (line : string) (m : match_object) :
  re_match re_nmcli_row line = Some m ->
  isdecimal (group m 4) = true /\ isdecimal (group m 6) = true.
Proof.
  intros H. apply re_match_shape in H.
  unfold re_nmcli_row in H.
  cbn [app star grp opt plus plus_lazy lits chr shape] in H.
  open_shape H.
  cbv [push_text default from_option id rev app String.append] in H. subst m.
  cbn [group nth Nat.pred]. split; by apply isdecimal_all.
Qed.

Lemma quality_values (s : Z) : In (_calculate_wifi_quality s) [100; 70; 50; 30; 10].
Proof.
  unfold _calculate_wifi_quality.
  repeat match goal with
         | |- context [?a >=? ?b] => destruct (a >=? b)
         end; simpl; tauto.
Qed.

(** One row adds at most one network, of the nmcli kind, and never
    raises. *)
Lemma nmcli_scan_row_adds (networks : list WiFiNetwork.t) (line : string) :
  exists found : list WiFiNetwork.t,
    nmcli_scan_row networks line = Return (networks ++ found)
    /\ Forall nmcli_network found
    /\ (length found <= 1)%nat.
Proof.
  assert (Hnone : exists found : list WiFiNetwork.t,
            Return networks = Return (networks ++ found)
            /\ Forall nmcli_network found /\ (length found <= 1)%nat).
  { exists []. rewrite app_nil_r. split; [done |]. split; [constructor | simpl; lia]. }
  unfold nmcli_scan_row. destruct (strip line); [exact Hnone |].
  destruct (re_match re_nmcli_row line) as [m |] eqn:E; [| exact Hnone].
  destruct (nmcli_row_groups line m E) as [Hc Hs].
  rewrite (int_digits _ Hc), (int_digits _ Hs). cbn [bind_r].
  eexists [_]. split; [reflexivity |]. split; [| simpl; lia].
  constructor; [| constructor]. unfold nmcli_network.
  cbn [WiFiNetwork.signal_strength WiFiNetwork.quality WiFiNetwork.channel
       WiFiNetwork.frequency WiFiNetwork.bssid WiFiNetwork.vendor].
  split; [apply digits_val_nonneg; lia |]. split; [done |].
  split; [apply digits_val_nonneg; lia |]. by repeat split.
Qed.

Lemma nmcli_scan_rows (lines : list string) :
  forall networks : list WiFiNetwork.t,
  exists found : list WiFiNetwork.t,
    for_each nmcli_scan_row lines networks = Return (networks ++ found)
    /\ Forall nmcli_network found
    /\ (length found <= length lines)%nat.
Proof.
  induction lines as [| line lines IH]; intros networks.
  - exists []. rewrite app_nil_r. split; [done |]. split; [constructor | simpl; lia].
  - cbn [for_each].
    destruct (nmcli_scan_row_adds networks line) as (f1 & -> & H1 & L1). cbn [bind_r].
    destruct (IH (networks ++ f1)) as (f2 & -> & H2 & L2).
    exists (f1 ++ f2). rewrite app_assoc. split; [done |].
    split; [by apply Forall_app | rewrite length_app; simpl; lia].
Qed.

(** X3. The nmcli scan parser never raises. Every network it returns has
    a signal strength that is not negative and is also its quality, a
    channel that is not negative with the band label of that channel, no
    address and no vendor; and the first line, the header, never gives a
    network: there are at most as many networks as lines after it. *)
Theorem nmcli_scan_never_raises (output : string) :
  exists networks : list WiFiNetwork.t,
    _parse_nmcli_wifi_scan output = Return networks
    /\ Forall nmcli_network networks
    /\ (length networks <= length (split newline (strip output)) - 1)%nat.
Proof.
  unfold _parse_nmcli_wifi_scan.
  destruct (nmcli_scan_rows (drop 1 (split newline (strip output))) [])
    as (found & -> & Hall & Hlen).
  exists found. split; [done |]. split; [done |].
  by rewrite length_drop in Hlen.
Qed.

Lemma re_address_group (cell : string) (m : match_object) :
  re_search re_address cell = Some m ->
  String.length (group m 1) = 17%nat /\ all_chars is_hex_colon (group m 1) = true.
Proof.
  intros H. apply re_search_shape in H. unfold re_address in H.
  cbn [app grp times lits chr shape] in H. open_shape H.
  cbv [push_text default from_option id rev app String.append] in H. subst m.
  cbv [group nth Nat.pred]. split; [lia | done].
Qed.

Lemma re_channel_group (cell : string) (m : match_object) :
  re_search re_channel cell = Some m -> isdecimal (group m 1) = true.
Proof.
  intros H. apply re_search_shape in H. unfold re_channel in H.
  cbn [app grp plus lits chr shape] in H. open_shape H.
  cbv [push_text default from_option id rev app String.append] in H. subst m.
  cbn [group nth Nat.pred]. by apply isdecimal_all.
Qed.

(** What a cell yields is a network of the iwlist kind. *)
Lemma iwlist_cell_network (cell : string) (n : WiFiNetwork.t) :
  iwlist_cell cell = Return n -> iwlist_network n.
Proof.
  unfold iwlist_cell.
  assert (Hch : exists c, 0 <= c /\
            match re_search re_channel cell with
            | Some channel_match => int (group channel_match 1)
            | None => Return 0
            end = Return c).
  { destruct (re_search re_channel cell) as [m |] eqn:E.
    - apply re_channel_group in E. rewrite (int_digits _ E).
      eexists. split; [| reflexivity]. apply digits_val_nonneg. lia.
    - exists 0. split; [lia | done]. }
  destruct Hch as (c & Hc & ->). cbn [bind_r].
  destruct (match re_search re_signal_level cell with
            | Some signal_match => int (group signal_match 1)
            | None => Return (-100)
            end) as [sg | e]; cbn [bind_r]; [| discriminate].
  intros [= <-]. unfold iwlist_network. simpl.
  split; [done |]. split; [apply quality_values |]. split; [done |].
  split; [done |]. split.
  { destruct (contains "Privacy:on" cell); [| simpl; tauto].
    destruct (contains "WPA2" cell); [simpl; tauto |].
    destruct (contains "WPA" cell); simpl; tauto. }
  split; [done |].
  destruct (re_search re_address cell) as [m |] eqn:E; [| by left].
  right. by apply (re_address_group cell).
Qed.

(** X4. Every network the iwlist scan parser returns has the quality of
    its signal strength, one of 100, 70, 50, 30 and 10, a channel that is
    not negative with the band label of that channel, one of the four
    encryption labels, the vendor of its address, and an address that is
    empty or made of 17 hexadecimal digits and colons. *)
Theorem iwlist_scan_networks (output : string) :
  Forall iwlist_network (_parse_iwlist_scan output).
Proof.
  unfold _parse_iwlist_scan.
  destruct (iwlist_loop (drop 1 (split "Cell " output)) []) as (found & -> & Hall).
  simpl. induction Hall as [| cell n cells found Hn _ IH]; constructor; [| exact IH].
  by apply (iwlist_cell_network cell).
Qed.

(** ** Interfaces of the nmcli parser are never of type WiFi *)

Lemma lower_char_not_F (c : ascii) : lower_char c <> "F"%char.
Proof.
  destruct c as [[] [] [] [] [] [] [] []]; intros H; vm_compute in H; discriminate H.
Qed.

Lemma capitalize_not_WiFi (s : string) : capitalize s <> "WiFi".
Proof.
  destruct s as [| c0 [| c1 [| c2 s]]]; try discriminate.
  unfold capitalize, lower. simpl. intros [= _ _ H _]. by apply lower_char_not_F in H.
Qed.

Lemma nmcli_type (device iface_type state connection : string) :
  post (_parse_linux_interface_nmcli device iface_type state connection)
    (fun o => forall i, o = Some i -> NetworkInterface.type i = capitalize iface_type).
Proof.
  unfold _parse_linux_interface_nmcli.
  apply post_bind; intros [[success output] err].
  apply post_bind; intros [[ip_address gateway] dns_servers].
  apply post_bind; intros [[success1 output1] err1].
  apply post_bind; intros [[signal_strength frequency] channel].
  apply post_ret. by intros i [= <-].
Qed.

(** X5. Whenever the nmcli interface parser returns an interface, its
    type is the capitalized device type, which is never the string WiFi
    (a wifi device gets the type Wifi): the tests for WiFi interfaces do
    not recognise it. *)
Theorem nmcli_interface_never_wifi (device iface_type state connection : string)
    (w : world) (tr tr' : trace) (i : NetworkInterface.t) :
  _parse_linux_interface_nmcli device iface_type state connection w tr =
    (Return (Some i), tr') ->
  NetworkInterface.type i = capitalize iface_type
  /\ NetworkInterface.type i <> "WiFi"
  /\ is_wifi i = false.
Proof.
  intros E. pose proof (nmcli_type device iface_type state connection w tr _ tr' E i eq_refl)
    as Ht.
  assert (Hne : NetworkInterface.type i <> "WiFi").
  { rewrite Ht. apply capitalize_not_WiFi. }
  split; [done |]. split; [done |]. unfold is_wifi.
  by destruct (String.eqb_spec (NetworkInterface.type i) "WiFi").
Qed.

Lemma nmcli_interface_never_wifi_witness :
  NetworkInterface.type nmcli_wlan0 = capitalize "wifi"
  /\ NetworkInterface.type nmcli_wlan0 <> "WiFi"
  /\ is_wifi nmcli_wlan0 = false.
Proof.
  apply (nmcli_interface_never_wifi "wlan0" "wifi" "connected" "Home" world_nmcli_wifi []
           (snd (_parse_linux_interface_nmcli "wlan0" "wifi" "connected" "Home"
                   world_nmcli_wifi []))).
  vm_compute. reflexivity.
Defined.

(** ** The WiFi scan on Linux *)

Lemma bind_run_command {A} (command : string) (shell : bool) (timeout : Z)
    (k : bool * string * string -> M A) (w : world) (tr : trace) :
  bind (run_command command shell timeout) k w tr =
    k (answer w tr command shell timeout) w
      (tr ++ [called command (answer w tr command shell timeout)]).
Proof. unfold bind. by rewrite run_command_spec. Qed.

Lemma iwlist_scan_all (output : string) : Forall iwlist_network (_parse_iwlist_scan output).
Proof.
  unfold _parse_iwlist_scan.
  destruct (iwlist_loop (drop 1 (split "Cell " output)) []) as (found & -> & Hall).
  simpl. induction Hall as [| cell n cells found Hn _ IH]; constructor; [| exact IH].
  by apply (iwlist_cell_network cell).
Qed.

(** The fallback loop runs one scan per interface it is given, in order,
    and never raises. *)
Lemma scan_wifi_linux_loop (l : list NetworkInterface.t) (w : world) :
  forall (networks : list WiFiNetwork.t) (tr : trace),
  exists (found : list WiFiNetwork.t) (calls : trace),
    _scan_wifi_linux_loop l networks w tr = (Return (networks ++ found), tr ++ calls)
    /\ Forall iwlist_network found
    /\ map call_command calls =
         map (fun i => "iwlist " +:+ NetworkInterface.name i +:+ " scan") l.
Proof.
  induction l as [| i l IH]; intros networks tr.
  - exists [], []. rewrite !app_nil_r. split; [done |]. split; [constructor | done].
  - cbn [_scan_wifi_linux_loop]. rewrite bind_run_command.
    set (c := "iwlist " +:+ NetworkInterface.name i +:+ " scan").
    destruct (answer w tr c true 60) as [[ok out] err].
    destruct ok.
    + destruct (IH (networks ++ _parse_iwlist_scan out)
                  (tr ++ [called c (true, out, err)])) as (found & calls & -> & Hf & Hc).
      exists (_parse_iwlist_scan out ++ found), (called c (true, out, err) :: calls).
      rewrite <- !app_assoc. split; [done |].
      split; [apply Forall_app; split; [apply iwlist_scan_all | done] |].
      simpl. by rewrite Hc.
    + destruct (IH networks (tr ++ [called c (false, out, err)]))
        as (found & calls & -> & Hf & Hc).
      exists found, (called c (false, out, err) :: calls).
      rewrite <- !app_assoc. split; [done |]. split; [done |].
      simpl. by rewrite Hc.
Qed.

(** X6. The WiFi scan on Linux never raises. When the nmcli listing
    succeeds it is the only command run and every network is of the
    nmcli kind; otherwise iwlist is run once for each interface of type
    WiFi, in order, and every network is of the iwlist kind. *)
Theorem scan_wifi_linux_paths (interfaces : list NetworkInterface.t)
    (w : world) (tr : trace) :
  exists (networks : list WiFiNetwork.t) (calls : trace),
    _scan_wifi_linux interfaces w tr = (Return networks, tr ++ calls)
    /\ if fst (fst (answer w tr "nmcli device wifi list" true 30))
       then map call_command calls = ["nmcli device wifi list"]
            /\ Forall nmcli_network networks
       else map call_command calls =
              "nmcli device wifi list"
              :: map (fun i => "iwlist " +:+ NetworkInterface.name i +:+ " scan")
                   (List.filter is_wifi interfaces)
            /\ Forall iwlist_network networks.
Proof.
  unfold _scan_wifi_linux. rewrite bind_run.
  destruct (answer w tr "nmcli device wifi list" true 30) as [[ok out] err].
  cbn [fst]. destruct ok.
  - unfold _parse_nmcli_wifi_scan, lift.
    destruct (nmcli_scan_rows (drop 1 (split newline (strip out))) [])
      as (found & -> & Hall & _).
    by exists found, [called "nmcli device wifi list" (true, out, err)].
  - destruct (scan_wifi_linux_loop (List.filter is_wifi interfaces) w []
                (tr ++ [called "nmcli device wifi list" (false, out, err)]))
      as (found & calls & -> & Hf & Hc).
    exists found, (called "nmcli device wifi list" (false, out, err) :: calls).
    rewrite <- app_assoc. split; [done |]. split; [| done]. simpl. by rewrite Hc.
Qed.

(** ** The Linux checks of the issue detector *)

Lemma check_linux_loop (l : list NetworkInterface.t) (w : world) :
  forall (issues : list Issue.t) (tr : trace),
  exists (found : list Issue.t) (calls : trace),
    _check_linux_specific_issues_loop l issues w tr =
      (Return (issues ++ found), tr ++ calls)
    /\ map call_command calls =
         map (fun i => "iwconfig " +:+ NetworkInterface.name i) l
    /\ Forall (fun x => Issue.type x = "wifi_power_management"
                        /\ Issue.severity x = "medium") found
    /\ (length found <= length l)%nat.
Proof.
  induction l as [| i l IH]; intros issues tr.
  - exists [], []. rewrite !app_nil_r. split; [done |]. split; [done |].
    split; [constructor | done].
  - cbn [_check_linux_specific_issues_loop]. rewrite bind_run.
    set (c := "iwconfig " +:+ NetworkInterface.name i).
    destruct (answer w tr c true 30) as [[ok out] err].
    destruct (ok && contains "Power Management:on" out).
    + destruct (IH (issues ++ [power_management_issue (NetworkInterface.name i)])
                  (tr ++ [called c (ok, out, err)])) as (found & calls & -> & Hc & Hf & Hl).
      exists (power_management_issue (NetworkInterface.name i) :: found),
        (called c (ok, out, err) :: calls).
      rewrite <- !app_assoc. split; [done |]. split; [simpl; by rewrite Hc |].
      split; [by constructor | simpl; lia].
    + destruct (IH issues (tr ++ [called c (ok, out, err)]))
        as (found & calls & -> & Hc & Hf & Hl).
      exists found, (called c (ok, out, err) :: calls).
      rewrite <- !app_assoc. split; [done |]. split; [simpl; by rewrite Hc |].
      split; [done | simpl; lia].
Qed.

(** X7. The Linux checks never raise and keep the issues found before.
    They run the NetworkManager query and then iwconfig once for each
    interface of type WiFi, in order. They report the NetworkManager issue
    unless the query succeeds and prints the word active, white space
    around it aside, and after it at most one power-management issue of
    medium severity for each WiFi interface. *)
Theorem check_linux_specific_issues_appends (interfaces : list NetworkInterface.t)
    (issues : list Issue.t) (w : world) (tr : trace) :
  exists (found : list Issue.t) (calls : trace),
    _check_linux_specific_issues interfaces issues w tr =
      (Return (issues
               ++ (let '(success, output, _) :=
                     answer w tr "systemctl is-active NetworkManager" true 30 in
                   if success && String.eqb (strip output) "active"
                   then [] else [networkmanager_issue])
               ++ found),
       tr ++ calls)
    /\ map call_command calls =
         "systemctl is-active NetworkManager"
         :: map (fun i => "iwconfig " +:+ NetworkInterface.name i)
              (List.filter is_wifi interfaces)
    /\ Forall (fun x => Issue.type x = "wifi_power_management"
                        /\ Issue.severity x = "medium") found
    /\ (length found <= length (List.filter is_wifi interfaces))%nat.
Proof.
  unfold _check_linux_specific_issues. rewrite bind_run.
  destruct (answer w tr "systemctl is-active NetworkManager" true 30)
    as [[ok out] err].
  match goal with
  | |- context [_check_linux_specific_issues_loop ?l ?acc w ?t] =>
      destruct (check_linux_loop l w acc t) as (found & calls & -> & Hc & Hf & Hl)
  end.
  exists found, (called "systemctl is-active NetworkManager" (ok, out, err) :: calls).
  rewrite <- !app_assoc. split.
  - f_equal. f_equal.
    destruct ok, (String.eqb (strip out) "active"); simpl;
      by rewrite <- ?app_assoc.
  - split; [simpl; by rewrite Hc | by split].
Qed.

(** ** The rules of the issue detector *)

Lemma weak_signal_loop (l : list NetworkInterface.t) :
  forall issues : list Issue.t,
    fold_left weak_signal_step l issues = issues ++ fold_left weak_signal_step l [].
Proof.
  induction l as [| i l IH]; intros issues; cbn [fold_left].
  - by rewrite app_nil_r.
  - rewrite IH. rewrite (IH (weak_signal_step [] i)).
    unfold weak_signal_step.
    destruct (NetworkInterface.signal_strength i) as [s |]; [| done].
    destruct (s <? -70); [by rewrite <- app_assoc | done].
Qed.

Lemma ip_conflict_loop_appends (l : list NetworkInterface.t) :
  forall (m : gmap string NetworkInterface.t) (issues : list Issue.t),
    snd (fold_left ip_conflict_step l (m, issues)) =
      issues ++ snd (fold_left ip_conflict_step l (m, [])).
Proof.
  induction l as [| i l IH]; intros m issues; cbn [fold_left].
  - simpl. by rewrite app_nil_r.
  - unfold ip_conflict_step at 2 4. destruct (counts_as_active i); [| apply IH].
    destruct (m !! default EmptyString (NetworkInterface.ip_address i)); [| apply IH].
    rewrite IH. rewrite (IH m ([] ++ _)). by rewrite <- app_assoc.
Qed.

(** X8. The weak-signal, channel-congestion and IP-conflict rules only
    append: the issues found before stay in place in front, and what a
    rule adds does not depend on them. *)
Theorem rules_only_append (interfaces : list NetworkInterface.t)
    (wifi_networks : list WiFiNetwork.t) (issues : list Issue.t) :
  weak_signal_rule interfaces issues = issues ++ weak_signal_rule interfaces []
  /\ _check_channel_congestion wifi_networks issues =
       issues ++ _check_channel_congestion wifi_networks []
  /\ _check_ip_conflicts interfaces issues = issues ++ _check_ip_conflicts interfaces [].
Proof.
  split; [apply weak_signal_loop |]. split; [| apply ip_conflict_loop_appends].
  unfold _check_channel_congestion. destruct wifi_networks as [| n ns].
  - by rewrite app_nil_r.
  - rewrite congestion_loop. by rewrite (congestion_loop _ []).
Qed.

Lemma weak_signal_found (l : list NetworkInterface.t) (g : NetworkInterface.t -> bool) :
  fold_left weak_signal_step (List.filter g l) [] =
    map (fun i => weak_signal_issue (NetworkInterface.name i)
                    (default 0 (NetworkInterface.signal_strength i)))
      (List.filter
         (fun i => g i && match NetworkInterface.signal_strength i with
                          | Some s => s <? -70
                          | None => false
                          end) l).
Proof.
  induction l as [| i l IH]; [reflexivity |]. cbn [List.filter].
  destruct (g i); cbn [andb]; [| exact IH].
  cbn [fold_left]. rewrite weak_signal_loop, IH. unfold weak_signal_step.
  destruct (NetworkInterface.signal_strength i) as [s |] eqn:Es; [| reflexivity].
  destruct (s <? -70); [| reflexivity]. cbn [map]. by rewrite Es.
Qed.

(** X9. The weak-signal rule reports exactly the interfaces of type WiFi
    whose signal strength is present and below -70, each once and in the
    order of the interfaces, with its name and signal strength in the
    description; an interface of another type, or with no signal
    strength, is never reported. *)
Theorem weak_signal_reports (interfaces : list NetworkInterface.t) :
  weak_signal_rule interfaces [] =
    map (fun i => weak_signal_issue (NetworkInterface.name i)
                    (default 0 (NetworkInterface.signal_strength i)))
      (List.filter
         (fun i => is_wifi i && match NetworkInterface.signal_strength i with
                                | Some s => s <? -70
                                | None => false
                                end) interfaces).
Proof.
  unfold weak_signal_rule. rewrite weak_signal_found. f_equal.
  apply List.filter_ext. intros i. unfold has_wifi_signal, truthy_int.
  destruct (is_wifi i); [| reflexivity]. cbn [andb].
  destruct (NetworkInterface.signal_strength i) as [s |]; [| reflexivity].
  destruct (Z.eqb_spec s 0) as [-> | _]; reflexivity.
Qed.

(** ** Lists of interfaces built by the nmcli parser *)

Lemma power_management_no_wifi (interfaces : list NetworkInterface.t)
    (w : world) (tr : trace) :
  List.filter is_wifi interfaces = [] ->
  _fix_wifi_power_management interfaces w tr = (Return power_management_failed, tr).
Proof. unfold _fix_wifi_power_management. by intros ->. Qed.

(** X10. For a list of interfaces that the nmcli parser built, none
    counts as a WiFi interface: the weak-signal rule adds no issue; the
    power-management fix runs no command and reports failure; the Linux
    checks run the NetworkManager query only and return the issues they
    were given, followed by the NetworkManager issue when the query does
    not answer active, so they add no power-management issue; and the
    WiFi scan runs the nmcli listing only and returns what the nmcli scan
    parser makes of it, or no network when the listing fails. *)
Theorem nmcli_interfaces_no_wifi_handling (interfaces : list NetworkInterface.t)
    (issues : list Issue.t) (w : world) (tr : trace) :
  (forall i, In i interfaces ->
     exists device iface_type state connection w0 tr0 tr1,
       _parse_linux_interface_nmcli device iface_type state connection w0 tr0 =
         (Return (Some i), tr1)) ->
  weak_signal_rule interfaces issues = issues
  /\ _fix_wifi_power_management interfaces w tr = (Return power_management_failed, tr)
  /\ _check_linux_specific_issues interfaces issues w tr =
       (Return (issues
                ++ (let '(success, output, _) :=
                      answer w tr "systemctl is-active NetworkManager" true 30 in
                    if success && String.eqb (strip output) "active"
                    then [] else [networkmanager_issue])),
        tr ++ [called "systemctl is-active NetworkManager"
                 (answer w tr "systemctl is-active NetworkManager" true 30)])
  /\ snd (_scan_wifi_linux interfaces w tr) =
       tr ++ [called "nmcli device wifi list"
                (answer w tr "nmcli device wifi list" true 30)]
  /\ (let '(success, output, _) := answer w tr "nmcli device wifi list" true 30 in
      fst (_scan_wifi_linux interfaces w tr) =
        if success then _parse_nmcli_wifi_scan output else Return []).
Proof.
  intros H.
  assert (Hnone : List.filter is_wifi interfaces = []).
  { induction interfaces as [| i l IH]; [reflexivity |]. cbn [List.filter].
    destruct (H i (or_introl eq_refl)) as (d & t & st & c & w0 & tr0 & tr1 & E).
    pose proof (nmcli_type d t st c w0 tr0 _ tr1 E i eq_refl) as Ht.
    unfold is_wifi at 1. rewrite Ht.
    destruct (String.eqb_spec (capitalize t) "WiFi") as [He | _];
      [by apply capitalize_not_WiFi in He |].
    apply IH. intros j Hj. apply H. by right. }
  split.
  { unfold weak_signal_rule. rewrite weak_signal_loop, weak_signal_found.
    replace (List.filter _ interfaces) with (@nil NetworkInterface.t);
      [by rewrite app_nil_r |].
    symmetry. clear H. induction interfaces as [| i l IH]; [reflexivity |].
    cbn [List.filter] in Hnone |- *. unfold has_wifi_signal at 1.
    destruct (is_wifi i); [discriminate | by apply IH]. }
  split; [by apply power_management_no_wifi |].
  split.
  { unfold _check_linux_specific_issues. rewrite bind_run, Hnone.
    destruct (answer w tr "systemctl is-active NetworkManager" true 30)
      as [[ok out] err].
    cbn [_check_linux_specific_issues_loop]. unfold ret.
    destruct ok, (String.eqb (strip out) "active"); cbn [negb orb andb];
      by rewrite ?app_nil_r. }
  unfold _scan_wifi_linux. rewrite bind_run, Hnone.
  destruct (answer w tr "nmcli device wifi list" true 30) as [[ok out] err].
  destruct ok; by split.
Qed.

Lemma nmcli_interfaces_no_wifi_handling_witness :
  weak_signal_rule [nmcli_wlan0] [] = []
  /\ _fix_wifi_power_management [nmcli_wlan0] world_wlan1_only [] =
       (Return power_management_failed, [])
  /\ _check_linux_specific_issues [nmcli_wlan0] [] world_wlan1_only [] =
       (Return ([]
                ++ (let '(success, output, _) :=
                      answer world_wlan1_only [] "systemctl is-active NetworkManager"
                        true 30 in
                    if success && String.eqb (strip output) "active"
                    then [] else [networkmanager_issue])),
        [] ++ [called "systemctl is-active NetworkManager"
                 (answer world_wlan1_only [] "systemctl is-active NetworkManager"
                    true 30)])
  /\ snd (_scan_wifi_linux [nmcli_wlan0] world_wlan1_only []) =
       [] ++ [called "nmcli device wifi list"
                (answer world_wlan1_only [] "nmcli device wifi list" true 30)]
  /\ (let '(success, output, _) :=
        answer world_wlan1_only [] "nmcli device wifi list" true 30 in
      fst (_scan_wifi_linux [nmcli_wlan0] world_wlan1_only []) =
        if success then _parse_nmcli_wifi_scan output else Return []).
Proof.
  apply (nmcli_interfaces_no_wifi_handling [nmcli_wlan0] [] world_wlan1_only []).
  intros i [<- | []].
  exists "wlan0", "wifi", "connected", "Home", world_nmcli_wifi, [],
    (snd (_parse_linux_interface_nmcli "wlan0" "wifi" "connected" "Home"
            world_nmcli_wifi [])).
  vm_compute. reflexivity.
Defined.

(** ** Applying the fixes *)

Lemma power_management_loop_issue (l : list NetworkInterface.t) (w : world) :
  forall tr : trace,
  exists (r : FixResult.t) (tr' : trace),
    _fix_wifi_power_management_loop l w tr = (Return r, tr')
    /\ FixResult.issue r = "wifi_power_management".
Proof.
  induction l as [| i l IH]; intros tr.
  - by eexists _, _.
  - cbn [_fix_wifi_power_management_loop]. rewrite bind_run.
    destruct (answer w tr _ true 30) as [[[] out] err]; [by eexists _, _ | apply IH].
Qed.

(** What the dispatcher does with one issue: a result of the kind of the
    issue when the kind is mapped, and nothing, with no call, otherwise. *)
Lemma apply_fix_outcome (is_mac : bool) (interfaces : list NetworkInterface.t)
    (issue : Issue.t) (w : world) (tr : trace) :
  if mapped (Issue.type issue)
  then exists (r : FixResult.t) (tr' : trace),
         _apply_fix_for_issue is_mac interfaces issue w tr = (Return (Some r), tr')
         /\ FixResult.issue r = Issue.type issue
  else _apply_fix_for_issue is_mac interfaces issue w tr = (Return None, tr).
Proof.
  unfold mapped, mapped_kinds, _apply_fix_for_issue, try_except, some.
  cbn [existsb].
  destruct (String.eqb_spec (Issue.type issue) "slow_dns") as [-> | _].
  { cbn [orb]. unfold _fix_dns_issues. destruct is_mac.
    - do 2 run_step. destruct ok, ok0; by eexists _, _.
    - run_step. destruct ok; by eexists _, _. }
  destruct (String.eqb_spec (Issue.type issue) "mdns_high_cpu") as [-> | _].
  { cbn [orb]. unfold _fix_mdns_issues. run_step. by eexists _, _. }
  destruct (String.eqb_spec (Issue.type issue) "vpn_dns_issue") as [-> | _].
  { cbn [orb]. unfold _fix_vpn_dns_issues. do 2 run_step. by eexists _, _. }
  destruct (String.eqb_spec (Issue.type issue) "networkmanager_inactive") as [-> | _].
  { cbn [orb]. unfold _fix_networkmanager_issues. run_step. by eexists _, _. }
  destruct (String.eqb_spec (Issue.type issue) "wifi_power_management") as [-> | _].
  { cbn [orb]. unfold _fix_wifi_power_management.
    destruct (power_management_loop_issue (List.filter is_wifi interfaces) w tr)
      as (r & tr' & Hr & Hi).
    exists r, tr'. unfold bind. by rewrite Hr. }
  destruct (String.eqb_spec (Issue.type issue) "weak_signal") as [-> | _].
  { cbn [orb]. by eexists _, _. }
  reflexivity.
Qed.

Lemma apply_fixes_loop (is_mac : bool) (interfaces : list NetworkInterface.t)
    (issues : list Issue.t) (w : world) :
  forall (fixes : list FixResult.t) (tr : trace),
  exists (found : list FixResult.t) (tr' : trace),
    apply_automatic_fixes_loop is_mac interfaces issues fixes w tr =
      (Return (fixes ++ found), tr')
    /\ map FixResult.issue found = List.filter mapped (map Issue.type issues).
Proof.
  induction issues as [| issue issues IH]; intros fixes tr.
  - exists [], tr. by rewrite app_nil_r.
  - cbn [apply_automatic_fixes_loop map List.filter].
    pose proof (apply_fix_outcome is_mac interfaces issue w tr) as H.
    destruct (mapped (Issue.type issue)).
    + destruct H as (r & tr1 & Hr & Hi). unfold bind at 1. rewrite Hr.
      destruct (IH (fixes ++ [r]) tr1) as (found & tr' & -> & Hf).
      exists (r :: found), tr'. rewrite <- app_assoc. split; [done |].
      simpl. by rewrite Hi, Hf.
    + unfold bind at 1. rewrite H. apply IH.
Qed.

(** X11. Applying the fixes never raises. It returns one result for
    every detected issue whose kind has a mapped action, in the order of
    the issues and with that kind as its issue field; an issue of any
    other kind, such as no_internet, channel_congestion or ip_conflict,
    gives no result. *)
Theorem apply_automatic_fixes_kinds (is_mac : bool)
    (interfaces : list NetworkInterface.t) (issues_detected : list Issue.t)
    (w : world) (tr : trace) :
  exists (fixes : list FixResult.t) (tr' : trace),
    apply_automatic_fixes is_mac interfaces issues_detected w tr = (Return fixes, tr')
    /\ map FixResult.issue fixes = List.filter mapped (map Issue.type issues_detected)
    /\ mapped "no_internet" = false
    /\ mapped "channel_congestion" = false
    /\ mapped "ip_conflict" = false.
Proof.
  unfold apply_automatic_fixes.
  destruct (apply_fixes_loop is_mac interfaces issues_detected w [] tr)
    as (found & tr' & -> & Hf).
  by exists found, tr'.
Qed.

(** X12. For an issue whose kind has no mapped action the dispatcher
    returns nothing and runs no command: the trace is left as it was. *)
Theorem unmapped_issue_runs_nothing (is_mac : bool)
    (interfaces : list NetworkInterface.t) (issue : Issue.t) (w : world) (tr : trace) :
  ~ In (Issue.type issue) mapped_kinds ->
  _apply_fix_for_issue is_mac interfaces issue w tr = (Return None, tr).
Proof.
  intros Hn. pose proof (apply_fix_outcome is_mac interfaces issue w tr) as H.
  destruct (mapped (Issue.type issue)) eqn:Em; [| exact H].
  exfalso. apply Hn. unfold mapped in Em. apply existsb_exists in Em as (k & Hk & Ek).
  apply String.eqb_eq in Ek. by subst k.
Qed.

Lemma unmapped_issue_runs_nothing_witness :
  ~ In (Issue.type (ip_conflict_issue "192.168.1.5")) mapped_kinds
  /\ _apply_fix_for_issue false three_active (ip_conflict_issue "192.168.1.5")
       world_wlan1_only [] = (Return None, []).
Proof.
  assert (H : ~ In (Issue.type (ip_conflict_issue "192.168.1.5")) mapped_kinds).
  { simpl. intros [H | [H | [H | [H | [H | [H | []]]]]]]; discriminate H. }
  split; [exact H |].
  apply (unmapped_issue_runs_nothing false three_active
           (ip_conflict_issue "192.168.1.5") world_wlan1_only [] H).
Defined.

(** ** Performance optimizations *)

(** X13. The macOS optimization never raises and always runs both of its
    commands, the second also after the first failed. It reports the DNS
    entry exactly when the first command succeeded and the priority entry
    exactly when the second did, so a failure is never reported and every
    entry has success set. *)
Theorem optimize_macos_reports_successes (w : world) (tr : trace) :
  exists c1 c2 : call,
    _optimize_macos_network w tr =
      (Return ((if call_succeeded c1 then [dns_servers_set] else [])
               ++ (if call_succeeded c2 then [interface_priority_set] else [])),
       tr ++ [c1; c2])
    /\ call_command c1 = "sudo networksetup -setdnsservers Wi-Fi 1.1.1.1 8.8.8.8 8.8.4.4"
    /\ call_command c2 = "sudo networksetup -ordernetworkservices Wi-Fi Ethernet"
    /\ Optimization.success dns_servers_set = true
    /\ Optimization.success interface_priority_set = true.
Proof.
  unfold _optimize_macos_network, attempt, try_except.
  rewrite bind_run.
  destruct (answer w tr _ true 30) as [[ok1 o1] e1].
  rewrite bind_run.
  destruct (answer w _ _ true 30) as [[ok2 o2] e2].
  eexists (called _ (ok1, o1, e1)), (called _ (ok2, o2, e2)).
  rewrite <- app_assoc. cbn [called call_succeeded call_command fst].
  split; [| by repeat split].
  by destruct ok1, ok2.
Qed.

(** The buffer loop stops at the first command that succeeds. *)
Lemma optimize_linux_loop (cmds : list string) (w : world) :
  forall (optimizations : list Optimization.t) (tr : trace),
  exists calls : trace,
    _optimize_linux_network_loop cmds optimizations w tr =
      (Return (optimizations
               ++ (if existsb call_succeeded calls then [buffers_optimized] else [])),
       tr ++ calls)
    /\ map call_command calls = take (length calls) cmds
    /\ Forall (fun c => call_succeeded c = false) (removelast calls)
    /\ (existsb call_succeeded calls = true \/ length calls = length cmds).
Proof.
  induction cmds as [| cmd cmds IH]; intros optimizations tr.
  - exists []. simpl. unfold ret. rewrite !app_nil_r.
    split; [done |]. split; [done |]. split; [constructor | by right].
  - cbn [_optimize_linux_network_loop]. unfold attempt, try_except.
    rewrite bind_run.
    destruct (answer w tr cmd true 30) as [[ok out] err]. destruct ok.
    + exists [called cmd (true, out, err)]. simpl.
      split; [done |]. split; [done |]. split; [constructor | by left].
    + destruct (IH optimizations (tr ++ [called cmd (false, out, err)]))
        as (calls & -> & Hc & Hf & Hl).
      exists (called cmd (false, out, err) :: calls).
      rewrite <- app_assoc. cbn [existsb called call_succeeded fst orb].
      split; [done |]. split; [simpl; by rewrite Hc |]. split.
      * destruct calls as [| c calls]; [constructor |].
        change (removelast (called cmd (false, out, err) :: c :: calls))
          with (called cmd (false, out, err) :: removelast (c :: calls)).
        by constructor.
      * destruct Hl as [? | Hl]; [by left | right; simpl; by rewrite Hl].
Qed.

(** X14. The Linux optimization never raises. After the command that
    enables systemd-resolved it runs the buffer commands in order and
    stops at the first one that succeeds, so the commands after it are
    never run; all four are run only when the first three failed. It
    reports the DNS entry exactly when the first command succeeded and
    one buffer entry exactly when some buffer command succeeded. *)
Theorem optimize_linux_stops_at_first_success (w : world) (tr : trace) :
  exists (c0 : call) (calls : trace),
    _optimize_linux_network w tr =
      (Return ((if call_succeeded c0 then [resolved_enabled] else [])
               ++ (if existsb call_succeeded calls then [buffers_optimized] else [])),
       tr ++ c0 :: calls)
    /\ call_command c0 = "sudo systemctl enable systemd-resolved"
    /\ map call_command calls = take (length calls) network_optimizations
    /\ Forall (fun c => call_succeeded c = false) (removelast calls)
    /\ (existsb call_succeeded calls = true \/ length calls = 4%nat).
Proof.
  unfold _optimize_linux_network, attempt, try_except at 1.
  rewrite bind_run.
  destruct (answer w tr _ true 30) as [[ok0 o0] e0].
  match goal with
  | |- context [_optimize_linux_network_loop ?cs ?os w ?t] =>
      destruct (optimize_linux_loop cs w os t) as (calls & -> & Hc & Hf & Hl)
  end.
  exists (called "sudo systemctl enable systemd-resolved" (ok0, o0, e0)), calls.
  rewrite <- app_assoc. cbn [called call_succeeded call_command fst].
  split; [done |]. by repeat split.
Qed.

(** ** Computations that never raise *)

Lemma returns_ret {A} (a : A) (P : A -> Prop) : P a -> returns (ret a) P.
Proof. intros H w tr. by exists a, tr. Qed.

Lemma returns_bind {A B} (c : M A) (k : A -> M B) (Q : A -> Prop) (P : B -> Prop) :
  returns c Q -> (forall a, Q a -> returns (k a) P) -> returns (bind c k) P.
Proof.
  intros Hc Hk w tr. destruct (Hc w tr) as (a & tr1 & E & Ha).
  unfold bind. rewrite E. by apply Hk.
Qed.

Lemma returns_run (command : string) : returns (run command) (fun _ => True).
Proof. intros w tr. unfold run. rewrite run_command_spec. by eexists _, _. Qed.

Lemma returns_lift {A} (r : py_result A) (a : A) (P : A -> Prop) :
  r = Return a -> P a -> returns (lift r) P.
Proof. intros -> H w tr. by exists a, tr. Qed.

Lemma returns_exists (path : string) : returns (os_path_exists path) (fun _ => True).
Proof. intros w tr. by eexists _, _. Qed.

Lemma returns_weaken {A} (c : M A) (P Q : A -> Prop) :
  returns c P -> (forall a, P a -> Q a) -> returns c Q.
Proof.
  intros H HPQ w tr. destruct (H w tr) as (a & tr' & E & Ha). exists a, tr'. auto.
Qed.

(** ** What the groups of the interface patterns hold *)

Lemma append_nonempty_l (r t : string) : r <> EmptyString -> r +:+ t <> EmptyString.
Proof. destruct r; [done | discriminate]. Qed.

Lemma nonempty_of_length (r : string) : (1 <= String.length r)%nat -> r <> EmptyString.
Proof. destruct r; simpl; [lia | discriminate]. Qed.

(** The address found by [inet (\d+\.\d+\.\d+\.\d+)] is never empty. *)
Lemma re_inet_group (output : string) (m : match_object) :
  re_search re_inet output = Some m -> group m 1 <> EmptyString.
Proof.
  intros H. apply re_search_shape in H. unfold re_inet, ip4 in H.
  cbn [app grp plus lits chr shape] in H. open_shape H.
  cbv [push_text default from_option id rev app] in H. subst m.
  cbv [group nth Nat.pred]. do 6 apply append_nonempty_l.
  by apply nonempty_of_length.
Qed.

Lemma int_signed_text (sign digits : string) :
  all_chars (is_char "-") sign = true ->
  (String.length sign <= 1)%nat ->
  all_chars is_digit digits = true ->
  (1 <= String.length digits)%nat ->
  exists n : Z, int (sign +:+ digits) = Return n.
Proof.
  intros Hs Hl Hd Hn. pose proof (isdecimal_all digits Hd Hn) as Hdig.
  destruct sign as [| c [| c' sign]]; [| | simpl in Hl; lia].
  - exists (digits_val 0 digits). by apply int_digits.
  - cbn [all_chars] in Hs. rewrite andb_true_r in Hs. unfold is_char in Hs.
    apply Ascii.eqb_eq in Hs as <-. exists (- digits_val 0 digits).
    by apply int_minus_digits.
Qed.

(** After a literal prefix the shape is that of the rest of the pattern. *)
Lemma shape_lits (l : string) (r : regex) (out : list string) :
  forall caps : list string, shape (lits l ++ r) None caps out -> shape r None caps out.
Proof.
  induction l as [| c l IH]; intros caps H; [exact H |].
  cbn [lits chr app shape] in H. destruct H as (run & _ & _ & _ & H).
  cbn [push_text] in H. by apply IH.
Qed.

Lemma int_group1_signed (prefix output : string) :
  exists o : option Z,
    int_group1 (re_search (lits prefix ++ grp signed) output) = Return o.
Proof.
  destruct (re_search (lits prefix ++ grp signed) output) as [m |] eqn:E;
    [| by exists None].
  apply re_search_shape, shape_lits in E.
  cbn [app grp signed opt plus shape] in E. open_shape E.
  cbv [push_text default from_option id rev app] in E. subst m.
  unfold int_group1. cbv [group nth Nat.pred].
  change (EmptyString +:+ r) with r.
  destruct (int_signed_text r r0) as [n ->]; try done.
  by exists (Some n).
Qed.

Lemma int_group1_digits (p : regex) (output : string) :
  (forall out, shape p None [] out ->
     exists d, out = [d] /\ all_chars is_digit d = true /\ (1 <= String.length d)%nat) ->
  exists o : option Z, int_group1 (re_search p output) = Return o.
Proof.
  intros Hp. destruct (re_search p output) as [m |] eqn:E; [| by exists None].
  apply re_search_shape, Hp in E as (d & -> & Hd & Hl).
  unfold int_group1. cbv [group nth Nat.pred].
  rewrite (int_digits d (isdecimal_all d Hd Hl)). by eexists.
Qed.

Lemma current_channel_group (output : string) :
  exists o : option Z,
    int_group1 (re_search re_current_channel output) = Return o.
Proof.
  apply int_group1_digits. intros out H. unfold re_current_channel in H.
  apply shape_lits in H. cbn [app star shape] in H.
  destruct H as (run & _ & _ & _ & H). cbn [push_text] in H.
  apply shape_lits in H. cbn [app grp plus shape] in H. open_shape H.
  cbv [push_text default from_option id rev app] in H. subst out.
  change (EmptyString +:+ r) with r. by exists r.
Qed.

(** ** The legacy Linux parser *)

Lemma legacy_parser_total (interface_name : string) :
  returns (_parse_linux_interface_legacy interface_name)
    (fun o => forall i, o = Some i -> legacy_interface interface_name i).
Proof.
  unfold _parse_linux_interface_legacy.
  apply (returns_bind _ _ _ _ (returns_exists _)); intros present _.
  destruct (negb present); [by apply returns_ret |].
  apply (returns_bind _ _ _ _ (returns_run _)); intros [[success output] err] _.
  destruct (negb success); [by apply returns_ret |].
  apply (returns_bind _ _ _ _ (returns_run _)); intros [[success1 mac_output] err1] _.
  apply (returns_bind _ _ _ _ (returns_run _)); intros [[success2 wireless] err2] _.
  assert (Hip : (truthy_str (group1 (re_search re_inet output)) = true
                 /\ exists ip, group1 (re_search re_inet output) = Some ip
                               /\ ip <> EmptyString)
                \/ (truthy_str (group1 (re_search re_inet output)) = false
                    /\ group1 (re_search re_inet output) = None)).
  { destruct (re_search re_inet output) as [m |] eqn:E; [| by right].
    left. apply re_inet_group in E. unfold group1.
    split; [| by exists (group m 1)].
    simpl. by destruct (group m 1). }
  destruct (success2 && contains "IEEE 802.11" wireless).
  - change (String.eqb "WiFi" "WiFi") with true. cbv iota.
    apply (returns_bind _ _ (fun _ => True)).
    { assert (Hsg : exists sg, int_group1 (re_search re_signal_level wireless) = Return sg)
        by exact (int_group1_signed "Signal level=" wireless).
      destruct Hsg as [sg Hsg].
      apply (returns_bind _ _ (fun _ => True) _ (returns_lift _ sg _ Hsg I)); intros ? _.
      apply (returns_bind _ _ _ _ (returns_run _)); intros [[success3 chan] err3] _.
      apply (returns_bind _ _ (fun _ => True)).
      - destruct success3; [| by apply returns_ret].
        destruct (current_channel_group chan) as [o Ho].
        by apply (returns_lift _ o).
      - intros ? _. by apply returns_ret. }
    intros [[signal_strength frequency] channel] _.
    apply returns_ret. intros i [= <-]. unfold legacy_interface.
    cbn [NetworkInterface.name NetworkInterface.type NetworkInterface.status
         NetworkInterface.ip_address NetworkInterface.gateway
         NetworkInterface.dns_servers NetworkInterface.signal_strength
         NetworkInterface.frequency NetworkInterface.channel].
    split; [done |]. split; [| split; [done |]; split; [done |]; by left].
    destruct Hip as [[-> Hip] | [-> Hip]]; [by left | by right].
  - change (String.eqb "Ethernet" "WiFi") with false. cbv iota.
    apply (returns_bind _ _ (fun x => x = (None, None, None)));
      [by apply returns_ret |].
    intros [[signal_strength frequency] channel] [= -> -> ->].
    apply returns_ret. intros i [= <-]. unfold legacy_interface.
    cbn [NetworkInterface.name NetworkInterface.type NetworkInterface.status
         NetworkInterface.ip_address NetworkInterface.gateway
         NetworkInterface.dns_servers NetworkInterface.signal_strength
         NetworkInterface.frequency NetworkInterface.channel].
    split; [done |]. split; [| split; [done |]; split; [done |]; by right].
    destruct Hip as [[-> Hip] | [-> Hip]]; [by left | by right].
Qed.

(** X15. The legacy interface parser never raises. An interface it
    returns carries the name it was asked for; it is up with a non-empty
    address or down with none; it never has a gateway or a DNS server;
    and it is of type WiFi, or of type Ethernet with no signal strength,
    frequency or channel. *)
Theorem legacy_parser_returns (interface_name : string) :
  returns (_parse_linux_interface_legacy interface_name)
    (fun o => forall i, o = Some i -> legacy_interface interface_name i).
Proof. exact (legacy_parser_total interface_name). Qed.

Lemma legacy_detection_total (names : list string) :
  forall interfaces : list NetworkInterface.t,
    Forall (fun i => legacy_interface (NetworkInterface.name i) i
                     /\ NetworkInterface.name i <> "lo") interfaces ->
    returns (_detect_linux_legacy_loop names interfaces)
      (Forall (fun i => legacy_interface (NetworkInterface.name i) i
                        /\ NetworkInterface.name i <> "lo")).
Proof.
  induction names as [| n names IH]; intros interfaces Hall;
    cbn [_detect_linux_legacy_loop].
  - by apply returns_ret.
  - destruct (String.eqb_spec n "lo") as [-> | Hlo]; [by apply IH |].
    apply (returns_bind _ _ _ _ (legacy_parser_total n)).
    intros [i |] Hi; [| by apply IH].
    apply IH. apply Forall_app. split; [exact Hall |].
    constructor; [| constructor].
    pose proof (Hi i eq_refl) as Hleg. destruct Hleg as [Hname Hrest].
    rewrite Hname. split; [by split | done].
Qed.

(** X16. The legacy detection never raises. Every interface it lists was
    built by the legacy parser for its own name, so it is up with an
    address or down without one and has no gateway and no DNS server;
    and the loopback interface lo is never listed. *)
Theorem legacy_detection_returns :
  returns _detect_linux_legacy
    (Forall (fun i => legacy_interface (NetworkInterface.name i) i
                      /\ NetworkInterface.name i <> "lo")).
Proof.
  unfold _detect_linux_legacy.
  apply (returns_bind _ _ _ _ (returns_run _)); intros [[success output] err] _.
  destruct success; [by apply legacy_detection_total | by apply returns_ret].
Qed.

(** ** The macOS parser and detection *)

Lemma airport_channel_group (output : string) :
  exists o : option Z,
    int_group1 (re_search re_airport_channel output) = Return o.
Proof.
  apply int_group1_digits. intros out H. unfold re_airport_channel in H.
  apply shape_lits in H. cbn [app grp plus shape] in H. open_shape H.
  cbv [push_text default from_option id rev app] in H. subst out.
  change (EmptyString +:+ r) with r. by exists r.
Qed.

Lemma mac_parser_total (interface_data : gmap string string) :
  returns (_parse_mac_interface interface_data) (mac_interface interface_data).
Proof.
  unfold _parse_mac_interface.
  apply (returns_bind _ _ _ _ (returns_run _)); intros [[success output] err] _.
  apply (returns_bind _ _ _ _ (returns_run _)); intros [[success1 output1] err1] _.
  apply (returns_bind _ _ (fun _ => True)).
  { destruct (contains "wi-fi" (lower (get interface_data "name" ""))
              || contains "wifi" (lower (get interface_data "device" "")));
      [| by apply returns_ret].
    apply (returns_bind _ _ _ _ (returns_run _)); intros [[success2 output2] err2] _.
    destruct success2; [| by apply returns_ret].
    assert (Hsg : exists sg, int_group1 (re_search re_rssi output2) = Return sg)
      by exact (int_group1_signed "agrCtlRSSI: " output2).
    destruct Hsg as [sg Hsg].
    apply (returns_bind _ _ (fun _ => True) _ (returns_lift _ sg _ Hsg I)); intros ? _.
    destruct (airport_channel_group output2) as [ch Hch].
    apply (returns_bind _ _ (fun _ => True) _ (returns_lift _ ch _ Hch I)); intros ? _.
    by apply returns_ret. }
  intros [[signal_strength frequency] channel] _.
  apply returns_ret. unfold mac_interface.
  cbn [NetworkInterface.name NetworkInterface.type NetworkInterface.status
       NetworkInterface.ip_address NetworkInterface.gateway
       NetworkInterface.dns_servers NetworkInterface.mac_address].
  split; [done |]. split; [done |]. split.
  { destruct success; [| by right].
    destruct (re_search re_inet output) as [m |] eqn:E; [| by right].
    left. apply re_inet_group in E. unfold group1.
    split; [| by exists (group m 1)].
    simpl. by destruct (group m 1). }
  split; [done |]. split.
  { destruct success1; [apply NoDup_elements | constructor]. }
  destruct (contains "wi-fi" (lower (get interface_data "name" ""))); [by left | by right].
Qed.

(** X17. The macOS interface parser never raises. The interface it
    returns has the name and hardware address of the port data, or the
    name Unknown and an empty address when they are missing; it is active
    with a non-empty address or inactive with none; it never has a
    gateway; its DNS servers hold no duplicate; and its type is WiFi or
    Ethernet. *)
Theorem mac_parser_returns (interface_data : gmap string string) :
  returns (_parse_mac_interface interface_data) (mac_interface interface_data).
Proof. exact (mac_parser_total interface_data). Qed.

(** A line that starts with a text holding a colon has a part after its
    first colon. *)
Lemma split1_go_prefix (p : string) :
  forall s : string,
    contains ":" p = true -> startswith p s = true ->
    exists a b, split1_go ":" s = Some (a, b).
Proof.
  induction p as [| c p IH]; intros s Hp Hs; [discriminate |].
  destruct s as [| d s]; [discriminate |].
  cbn [startswith] in Hs. apply andb_true_iff in Hs as [Hcd Hs].
  apply Ascii.eqb_eq in Hcd as <-.
  cbn [split1_go]. destruct (startswith ":" (String c s)) eqn:E; [by eexists _, _ |].
  cbn [contains] in Hp.
  assert (Hp' : contains ":" p = true).
  { cbn [startswith] in E, Hp. destruct (Ascii.eqb ":" c); [discriminate |].
    simpl in Hp. exact Hp. }
  destruct (IH s Hp' Hs) as (a & b & ->). by eexists _, _.
Qed.

Lemma after_colon_prefix (p line : string) :
  contains ":" p = true -> startswith p line = true ->
  exists v, after_colon line = Return v.
Proof.
  intros Hp Hs. destruct (split1_go_prefix p line Hp Hs) as (a & b & E).
  unfold after_colon, split1. rewrite E. by eexists.
Qed.

Lemma truthy_dict_insert (k v : string) (d : gmap string string) :
  truthy_dict (<[k := v]> d) = true.
Proof.
  unfold truthy_dict. rewrite bool_decide_eq_false_2; [done |].
  apply insert_non_empty.
Qed.

Lemma flush_mac_total (current : gmap string string) (interfaces : list NetworkInterface.t) :
  returns (flush_mac_interface current interfaces)
    (fun r => exists found,
       r = interfaces ++ found
       /\ Forall (fun i => exists data, mac_interface data i) found
       /\ length found = (if truthy_dict current then 1 else 0)%nat).
Proof.
  unfold flush_mac_interface. destruct (truthy_dict current).
  - apply (returns_bind _ _ _ _ (mac_parser_total current)). intros i Hi.
    apply returns_ret. exists [i]. split; [done |]. split; [| done].
    constructor; [by exists current | constructor].
  - apply returns_ret. exists []. by rewrite app_nil_r.
Qed.

Lemma detect_mac_loop (lines : list string) :
  forall (current : gmap string string) (interfaces : list NetworkInterface.t),
    returns (_detect_mac_interfaces_loop lines current interfaces)
      (fun r => exists found,
         r = interfaces ++ found
         /\ Forall (fun i => exists data, mac_interface data i) found
         /\ (length (List.filter (fun raw => startswith "Hardware Port:" (strip raw)) lines)
             <= length found
             <= 1 + length (List.filter
                              (fun raw => startswith "Hardware Port:" (strip raw)) lines))%nat
         /\ (truthy_dict current = true ->
             length found =
               S (length (List.filter
                            (fun raw => startswith "Hardware Port:" (strip raw)) lines)))).
Proof.
  induction lines as [| raw lines IH]; intros current interfaces;
    cbn [_detect_mac_interfaces_loop List.filter].
  - apply (returns_weaken _ _ _ (flush_mac_total current interfaces)).
    intros r (found & -> & Hf & Hl). exists found. split; [done |]. split; [done |].
    simpl. destruct (truthy_dict current); split; try lia; done.
  - destruct (startswith "Hardware Port:" (strip raw)) eqn:Ehp.
    + apply (returns_bind _ _ _ _ (flush_mac_total current interfaces)).
      intros r (f1 & -> & Hf1 & Hl1).
      destruct (after_colon_prefix "Hardware Port:" (strip raw) eq_refl Ehp) as [v Hv].
      apply (returns_bind _ _ (fun x => x = v) _ (returns_lift _ v _ Hv eq_refl)).
      intros ? ->.
      apply (returns_weaken _ _ _ (IH (<["name" := v]> ∅) (interfaces ++ f1))).
      intros r (f2 & -> & Hf2 & Hb & Ht).
      specialize (Ht (truthy_dict_insert _ _ _)).
      exists (f1 ++ f2). rewrite app_assoc. split; [done |].
      split; [by apply Forall_app |]. rewrite length_app. cbn [length].
      destruct (truthy_dict current); split; try lia; intros; try done; lia.
    + destruct (startswith "Device:" (strip raw)) eqn:Ed.
      { destruct (after_colon_prefix "Device:" (strip raw) eq_refl Ed) as [v Hv].
        apply (returns_bind _ _ (fun x => x = v) _ (returns_lift _ v _ Hv eq_refl)).
        intros ? ->.
        apply (returns_weaken _ _ _ (IH (<["device" := v]> current) interfaces)).
        intros r (f2 & -> & Hf2 & Hb & Ht).
        specialize (Ht (truthy_dict_insert _ _ _)).
        exists f2. split; [done |]. split; [done |]. split; [lia | done]. }
      destruct (startswith "Ethernet Address:" (strip raw)) eqn:Ee.
      { destruct (after_colon_prefix "Ethernet Address:" (strip raw) eq_refl Ee) as [v Hv].
        apply (returns_bind _ _ (fun x => x = v) _ (returns_lift _ v _ Hv eq_refl)).
        intros ? ->.
        apply (returns_weaken _ _ _ (IH (<["mac" := v]> current) interfaces)).
        intros r (f2 & -> & Hf2 & Hb & Ht).
        specialize (Ht (truthy_dict_insert _ _ _)).
        exists f2. split; [done |]. split; [done |]. split; [lia | done]. }
      apply IH.
Qed.

(** X18. The macOS detection never raises. When the hardware port
    listing fails it returns no interface. Otherwise every interface it
    returns was built by the macOS parser, and there are as many of them
    as lines that start with Hardware Port, or one more (when a Device or
    Ethernet Address line comes before the first such line). *)
Theorem mac_detection_returns (w : world) (tr : trace) :
  exists (interfaces : list NetworkInterface.t) (tr' : trace),
    _detect_mac_interfaces w tr = (Return interfaces, tr')
    /\ Forall (fun i => exists data, mac_interface data i) interfaces
    /\ let '(success, output, _) :=
         answer w tr "networksetup -listallhardwareports" true 30 in
       if success
       then (length (List.filter (fun raw => startswith "Hardware Port:" (strip raw))
                       (split newline output))
             <= length interfaces
             <= 1 + length (List.filter
                              (fun raw => startswith "Hardware Port:" (strip raw))
                              (split newline output)))%nat
       else interfaces = []
            /\ tr' = tr ++ [called "networksetup -listallhardwareports"
                              (answer w tr "networksetup -listallhardwareports" true 30)].
Proof.
  unfold _detect_mac_interfaces. rewrite bind_run.
  destruct (answer w tr "networksetup -listallhardwareports" true 30)
    as [[success output] err] eqn:E.
  destruct success; cbn [negb].
  - destruct (detect_mac_loop (split newline output) ∅ [] w
                (tr ++ [called "networksetup -listallhardwareports" (true, output, err)]))
      as (r & tr' & Hr & found & -> & Hf & Hb & _).
    exists found, tr'. rewrite Hr. cbn [app] in *.
    split; [done |]. split; [done | exact Hb].
  - eexists [], _. split; [reflexivity |]. split; [constructor | by split].
Qed.

(** ** When the nmcli interface parser raises *)

Lemma split1_go_contains (sep s : string) :
  split1_go sep s = None <-> contains sep s = false.
Proof.
  induction s as [| c s IH]; cbn [split1_go contains].
  - destruct (startswith sep EmptyString); simpl; split; congruence.
  - destruct (startswith sep (String c s)); cbn [orb]; [split; congruence |].
    rewrite <- IH. destruct (split1_go sep s) as [[a b] |]; split; congruence.
Qed.

Lemma after_first_colon (line : string) :
  if contains ":" line
  then exists v, index (split1 ":" line) 1 = Return v
  else index (split1 ":" line) 1 = Raise IndexError.
Proof.
  unfold split1. destruct (contains ":" line) eqn:E.
  - destruct (split1_go ":" line) as [[a b] |] eqn:Es; [by eexists |].
    apply split1_go_contains in Es. congruence.
  - apply split1_go_contains in E. by rewrite E.
Qed.

(** One line of the device listing raises exactly when it is a line
    without colon that reaches the index. *)
Lemma nmcli_show_line_outcome
    (st : option string * option string * list string) (line : string) :
  if colonless_line line
  then nmcli_show_line st line = Raise IndexError
  else exists st', nmcli_show_line st line = Return st'.
Proof.
  unfold colonless_line, nmcli_show_line. destruct st as [[ip gw] dns].
  destruct (startswith "IP4.ADDRESS" line); cbn [negb andb].
  { destruct (re_search re_ip4 line); by eexists. }
  pose proof (after_first_colon line) as H.
  destruct (startswith "IP4.GATEWAY" line); cbn [orb andb].
  { destruct (contains ":" line); cbn [negb].
    - destruct H as [v ->]. by eexists.
    - by rewrite H. }
  destruct (startswith "IP4.DNS" line); cbn [andb]; [| by eexists].
  destruct (contains ":" line); cbn [negb].
  - destruct H as [v ->]. cbn [bind_r]. destruct (strip v); by eexists.
  - by rewrite H.
Qed.

Lemma nmcli_show_lines_outcome (lines : list string) :
  forall st : option string * option string * list string,
    if existsb colonless_line lines
    then for_each nmcli_show_line lines st = Raise IndexError
    else exists st', for_each nmcli_show_line lines st = Return st'.
Proof.
  induction lines as [| line lines IH]; intros st; cbn [existsb for_each].
  - by eexists.
  - pose proof (nmcli_show_line_outcome st line) as H.
    destruct (colonless_line line); cbn [orb].
    + by rewrite H.
    + destruct H as [st' ->]. cbn [bind_r]. apply IH.
Qed.

Lemma index_in_range {A} (l : list A) (i : nat) :
  (i < length l)%nat -> exists x, index l i = Return x.
Proof.
  intros H. unfold index. destruct (l !! i) as [x |] eqn:E; [by eexists |].
  apply lookup_ge_None in E. lia.
Qed.

(** [int(s) if s.isdigit() else None] raises exactly on a field that
    passes [isdigit] and is no literal. *)
Lemma int_if_isdigit_outcome (s : string) :
  if superscript_field s
  then int_if_isdigit s = Raise (ValueError s)
  else exists o, int_if_isdigit s = Return o.
Proof.
  unfold superscript_field, int_if_isdigit.
  destruct (isdigit s) eqn:Ed; cbn [andb]; [| by eexists].
  destruct (isdecimal s) eqn:Ec; cbn [negb].
  - rewrite (int_digits s Ec). by eexists.
  - destruct s as [| c s']; [discriminate |].
    assert (Hc : is_digit_char c = true).
    { simpl in Ed. by apply andb_true_iff in Ed as [? _]. }
    assert (Hi : int (String c s') = Raise (ValueError (String c s'))).
    { unfold int.
      destruct c as [[] [] [] [] [] [] [] []]; try discriminate Hc; by rewrite Ec. }
    by rewrite Hi.
Qed.

Lemma nmcli_wifi_lines_outcome (lines : list string) :
  match bad_wifi_listing lines with
  | Some lit => nmcli_wifi_lines lines = Raise (ValueError lit)
  | None => exists r, nmcli_wifi_lines lines = Return r
  end.
Proof.
  induction lines as [| line lines IH]; cbn [nmcli_wifi_lines bad_wifi_listing];
    [by eexists |].
  destruct (startswith "*" line); [| exact IH].
  destruct (split ":" line) as [| p0 [| p1 [| p2 [| p3 rest]]]]; try by eexists.
  change (4 <=? length (p0 :: p1 :: p2 :: p3 :: rest))%nat with true.
  change (index (p0 :: p1 :: p2 :: p3 :: rest) 1) with (Return p1).
  change (index (p0 :: p1 :: p2 :: p3 :: rest) 2) with (Return p2).
  change (index (p0 :: p1 :: p2 :: p3 :: rest) 3) with (Return p3).
  cbn [bind_r].
  pose proof (int_if_isdigit_outcome p1) as H1.
  destruct (superscript_field p1); [by rewrite H1 |].
  destruct H1 as [o1 ->]. cbn [bind_r].
  pose proof (int_if_isdigit_outcome p3) as H3.
  destruct (superscript_field p3); [by rewrite H3 |].
  destruct H3 as [o3 ->]. cbn [bind_r]. by eexists.
Qed.

(** The parser raises IndexError at a colon-less line of the device
    listing, ValueError at a superscript field of the WiFi listing, and
    returns an interface otherwise. *)
Lemma nmcli_parser_outcome (device iface_type state connection : string)
    (w : world) (tr : trace) :
  let '(success, output, _) :=
    answer w tr
      ("nmcli -t -f IP4.ADDRESS,IP4.GATEWAY,IP4.DNS device show " +:+ device) true 30 in
  if success && existsb colonless_line (split newline output)
  then exists tr',
         _parse_linux_interface_nmcli device iface_type state connection w tr
         = (Raise IndexError, tr')
  else match wifi_listing_fault device iface_type w tr with
       | Some lit =>
           exists tr',
             _parse_linux_interface_nmcli device iface_type state connection w tr
             = (Raise (ValueError lit), tr')
       | None =>
           exists i tr',
             _parse_linux_interface_nmcli device iface_type state connection w tr
             = (Return (Some i), tr')
       end.
Proof.
  unfold _parse_linux_interface_nmcli, wifi_listing_fault. cbv zeta.
  rewrite bind_run.
  destruct (answer w tr _ true 30) as [[success output] err].
  match goal with
  | |- context [bind _ ?k w ?t] =>
      assert (Hk : forall x,
                match
                  (if String.eqb iface_type "wifi"
                   then
                     let '(success, output, _) :=
                       answer w
                         (t ++ [called ("cat /sys/class/net/" +:+ device +:+ "/address")
                                  (answer w t
                                     ("cat /sys/class/net/" +:+ device +:+ "/address")
                                     true 30)])
                         ("nmcli -t -f IN-USE,SIGNAL,FREQ,CHAN device wifi list ifname "
                          +:+ device) true 30 in
                     if success then bad_wifi_listing (split newline output) else None
                   else None)
                with
                | Some lit => exists tr', k x w t = (Raise (ValueError lit), tr')
                | None => exists i tr', k x w t = (Return (Some i), tr')
                end)
  end.
  { intros [[ip gw] dns]. rewrite bind_run.
    destruct (answer w _ ("cat /sys/class/net/" +:+ device +:+ "/address") true 30)
      as [[s0 o0] e0].
    destruct (String.eqb iface_type "wifi").
    - rewrite bind_assoc, bind_run.
      destruct (answer w _ _ true 30) as [[s1 o1] e1].
      destruct s1.
      + pose proof (nmcli_wifi_lines_outcome (split newline o1)) as H.
        destruct (bad_wifi_listing (split newline o1)) as [lit |].
        * unfold bind, lift. rewrite H. by eexists.
        * destruct H as [[[a b] c] H]. unfold bind, lift, ret. rewrite H.
          by eexists _, _.
      + unfold bind, ret. by eexists _, _.
    - unfold bind, ret. by eexists _, _. }
  destruct success; cbn [andb].
  - pose proof (nmcli_show_lines_outcome (split newline output) (None, None, [])) as H.
    destruct (existsb colonless_line (split newline output)).
    + unfold bind at 1, lift. rewrite H. by eexists.
    + destruct H as [st' H]. unfold bind at 1, lift. rewrite H. exact (Hk st').
  - unfold bind at 1, ret. exact (Hk (None, None, [])).
Qed.

(** X19. The nmcli interface parser raises in two cases and returns an
    interface in every other one. It raises IndexError exactly when the
    device listing succeeded and holds a line that starts with
    IP4.GATEWAY or IP4.DNS, not with IP4.ADDRESS, and has no colon. When
    it does not, it raises ValueError exactly when the device is of type
    wifi, the WiFi listing succeeded and, in its first line that starts
    with a star, the SIGNAL or the CHAN field passes isdigit and is no
    int literal, as a superscript digit. Nothing in the parser or in the
    detection catches either exception. *)
Theorem nmcli_parser_raises_exactly (device iface_type state connection : string)
    (w : world) (tr : trace) :
  let '(success, output, _) :=
    answer w tr
      ("nmcli -t -f IP4.ADDRESS,IP4.GATEWAY,IP4.DNS device show " +:+ device) true 30 in
  if success && existsb colonless_line (split newline output)
  then fst (_parse_linux_interface_nmcli device iface_type state connection w tr)
       = Raise IndexError
  else match wifi_listing_fault device iface_type w tr with
       | Some lit =>
           fst (_parse_linux_interface_nmcli device iface_type state connection w tr)
           = Raise (ValueError lit)
       | None =>
           exists i,
             fst (_parse_linux_interface_nmcli device iface_type state connection w tr)
             = Return (Some i)
       end.
Proof.
  pose proof (nmcli_parser_outcome device iface_type state connection w tr) as H.
  destruct (answer w tr _ true 30) as [[success output] err].
  destruct (success && existsb colonless_line (split newline output)).
  - destruct H as [tr' ->]. reflexivity.
  - destruct (wifi_listing_fault device iface_type w tr) as [lit |].
    + destruct H as [tr' ->]. reflexivity.
    + destruct H as (i & tr' & ->). by exists i.
Qed.

(** The parser at a WiFi listing whose signal is a superscript two. *)
Example nmcli_parser_superscript :
  fst (_parse_linux_interface_nmcli "wlan0" "wifi" "connected" "Home"
         world_nmcli_superscript []) = Raise (ValueError superscript_two).
Proof. vm_compute. reflexivity. Qed.

(** The parser at a listing whose gateway line has no colon. *)
Example nmcli_parser_colonless :
  fst (_parse_linux_interface_nmcli "eth0" "ethernet" "connected" "Wired"
         world_colonless []) = Raise IndexError.
Proof. vm_compute. reflexivity. Qed.

(** ** The phases of main and the report summary *)

(** The [try] block makes the calls the flags ask for, in order. *)
Lemma main_body_planned (does : phase -> outcome) (args : Args) (log : list phase) :
  main_body does args log = perform_all does (planned args) log.
Proof.
  unfold main_body, planned, when, any.
  destruct args as [[] [] [] [] []];
    cbn [scan speed_test fix_flag optimize report existsb id orb negb app perform_all];
    unfold and_then, perform, skip;
    repeat first
      [ reflexivity
      | match goal with
        | |- context [does ?p] => destruct (does p)
        end ].
Qed.

(** Calls made one after another stop at the first that does not
    return. *)
Lemma perform_all_outcome (does : phase -> outcome) (l : list phase) :
  forall log : list phase,
    (Forall (fun p => does p = Completes) l
     /\ perform_all does l log = (Completes, log ++ l))
    \/ (exists before p after,
          l = before ++ p :: after
          /\ Forall (fun q => does q = Completes) before
          /\ does p <> Completes
          /\ perform_all does l log = (does p, log ++ before ++ [p])).
Proof.
  induction l as [| p l IH]; intros log; cbn [perform_all].
  - left. split; [constructor |]. unfold skip. by rewrite app_nil_r.
  - unfold and_then, perform. destruct (does p) eqn:Ep.
    + destruct (IH (log ++ [p])) as [[Hall E] | (before & q & after & -> & Hb & Hq & E)].
      * left. split; [by constructor |]. rewrite E. by rewrite <- app_assoc.
      * right. exists (p :: before), q, after. split; [done |].
        split; [by constructor |]. split; [done |].
        rewrite E. by rewrite <- !app_assoc.
    + right. exists [], p, l. rewrite Ep. by repeat split.
    + right. exists [], p, l. rewrite Ep. by repeat split.
Qed.

(** X20. The calls the flags ask for are, in order: the constructor and
    the interface detection; with no flag the scan, the performance test,
    the diagnosis and the fixes, and with any flag exactly those of them
    whose own flag is set (so the report flag or the optimize flag alone
    asks for no scan, no test and no diagnosis); the optimization with
    its flag; and last the report, as JSON with the report flag and
    printed without it. When each of these calls returns, main makes all
    of them and returns. Otherwise it makes them up to the first one that
    raises or is interrupted, makes none after it, so no report follows a
    call that failed, and exits with status 1. *)
Theorem main_phases_by_flag (does : phase -> outcome) (args : Args) :
  let plan :=
    BuildFixer :: DetectInterfaces ::
    (if scan args || speed_test args || fix_flag args || optimize args || report args
     then (if scan args then [ScanWifi] else [])
          ++ (if speed_test args then [TestPerformance] else [])
          ++ (if fix_flag args then [DiagnoseIssues; ApplyFixes] else [])
          ++ (if optimize args then [OptimizePerformance] else [])
          ++ (if report args then [JsonReport] else [PrintReport])
     else [ScanWifi; TestPerformance; DiagnoseIssues; ApplyFixes; PrintReport]) in
  (Forall (fun p => does p = Completes) plan
   /\ main does args = (plan, Returned))
  \/ (exists before p after,
        plan = before ++ p :: after
        /\ Forall (fun q => does q = Completes) before
        /\ does p <> Completes
        /\ main does args = (before ++ [p], Exited 1)).
Proof.
  cbv zeta. fold (planned args). unfold main. rewrite main_body_planned.
  destruct (perform_all_outcome does (planned args) [])
    as [[Hall E] | (before & p & after & Hp & Hb & Hq & E)]; rewrite E.
  - left. by split.
  - right. exists before, p, after. split; [exact Hp |]. split; [exact Hb |].
    split; [exact Hq |]. cbn [app]. by destruct (does p).
Qed.

(** A run with the report flag alone in which the detection raises: no
    report is made and main exits with status 1. *)
Example main_detection_fails :
  main (fun p => match p with
                 | DetectInterfaces => Fails IndexError
                 | _ => Completes
                 end)
    {| scan := false; speed_test := false; fix_flag := false; optimize := false;
       report := true |}
  = ([BuildFixer; DetectInterfaces], Exited 1).
Proof. reflexivity. Qed.

Lemma filter_ext_in_length {A} (f g : A -> bool) (l : list A) :
  (forall x, In x l -> f x = g x) ->
  length (List.filter f l) = length (List.filter g l).
Proof.
  intros H. induction l as [| x l IH]; [reflexivity |]. cbn [List.filter].
  rewrite (H x) by (by left). destruct (g x); simpl; rewrite IH; auto.
  all: intros y Hy; apply H; by right.
Qed.

(** X21. For interfaces built by the legacy parser or by the macOS
    parser, the number of active interfaces in the report summary is the
    number of interfaces that have an address, and it is at most the
    total number. *)
Theorem summary_active_is_addressed (interfaces : list NetworkInterface.t)
    (wifi_networks : list WiFiNetwork.t) (issues_detected : list Issue.t)
    (fixes : list FixResult.t) :
  (forall i, In i interfaces ->
     (exists n, legacy_interface n i) \/ (exists d, mac_interface d i)) ->
  active_interfaces (report_summary interfaces wifi_networks issues_detected fixes)
    = length (List.filter has_address interfaces)
  /\ (active_interfaces (report_summary interfaces wifi_networks issues_detected fixes)
      <= total_interfaces (report_summary interfaces wifi_networks issues_detected fixes))%nat.
Proof.
  intros H. cbn [report_summary active_interfaces total_interfaces]. split.
  - apply filter_ext_in_length. intros i Hi. unfold reported_active, has_address.
    destruct (H i Hi) as [(n & _ & Hs & _) | (d & _ & _ & Hs & _)];
      destruct Hs as [[-> (ip & -> & _)] | [-> ->]]; reflexivity.
  - apply List.filter_length_le.
Qed.

Lemma summary_active_is_addressed_witness :
  active_interfaces (report_summary [legacy_eth0] [] [] [])
    = length (List.filter has_address [legacy_eth0])
  /\ (active_interfaces (report_summary [legacy_eth0] [] [] [])
      <= total_interfaces (report_summary [legacy_eth0] [] [] []))%nat.
Proof.
  apply (summary_active_is_addressed [legacy_eth0] [] [] []).
  intros i [<- | []]. left. exists "eth0". unfold legacy_interface. simpl.
  split; [reflexivity |]. split.
  - left. split; [reflexivity |]. exists "192.168.1.5". split; [reflexivity | discriminate].
  - split; [reflexivity |]. split; [reflexivity |]. right. repeat split.
Defined.

(** X22. For interfaces built by the nmcli parser from state strings
    other than active and up, such as connected, the report summary
    counts no active interface, whatever addresses they have. *)
Theorem summary_nmcli_none_active (interfaces : list NetworkInterface.t)
    (wifi_networks : list WiFiNetwork.t) (issues_detected : list Issue.t)
    (fixes : list FixResult.t) :
  (forall i, In i interfaces ->
     exists device iface_type state connection w tr tr',
       state <> "active" /\ state <> "up"
       /\ _parse_linux_interface_nmcli device iface_type state connection w tr =
            (Return (Some i), tr')) ->
  active_interfaces (report_summary interfaces wifi_networks issues_detected fixes) = O.
Proof.
  intros H. cbn [report_summary active_interfaces].
  induction interfaces as [| i l IH]; [reflexivity |]. cbn [List.filter].
  destruct (H i (or_introl eq_refl)) as (d & t & st & c & w & tr & tr' & Ha & Hu & E).
  pose proof (nmcli_status d t st c w tr _ tr' E i eq_refl) as Hs.
  unfold reported_active at 1. rewrite Hs.
  destruct (String.eqb_spec st "active"); [done |].
  destruct (String.eqb_spec st "up"); [done |]. cbn [orb].
  apply IH. intros j Hj. apply H. by right.
Qed.

Lemma summary_nmcli_none_active_witness :
  active_interfaces (report_summary [nmcli_eth0; nmcli_wlan0] [] [] []) = O.
Proof.
  apply (summary_nmcli_none_active [nmcli_eth0; nmcli_wlan0] [] [] []).
  intros i [<- | [<- | []]].
  - exists "eth0", "ethernet", "connected", "Wired", world_dup_dns, [],
      (snd (_parse_linux_interface_nmcli "eth0" "ethernet" "connected" "Wired"
              world_dup_dns [])).
    split; [discriminate |]. split; [discriminate | vm_compute; reflexivity].
  - exists "wlan0", "wifi", "connected", "Home", world_nmcli_wifi, [],
      (snd (_parse_linux_interface_nmcli "wlan0" "wifi" "connected" "Home"
              world_nmcli_wifi [])).
    split; [discriminate |]. split; [discriminate | vm_compute; reflexivity].
Defined.

(** ** The WiFi scan on macOS *)

Lemma split_ws_go_nonempty (s : string) :
  (forall x, fst (split_ws_go s) = Some x -> x <> EmptyString)
  /\ Forall (fun x => x <> EmptyString) (snd (split_ws_go s)).
Proof.
  induction s as [| c s [IHw IHws]]; cbn [split_ws_go].
  - split; [discriminate | constructor].
  - destruct (split_ws_go s) as [w ws]. cbn [fst snd] in *.
    destruct (is_space c); cbn [fst snd].
    + split; [discriminate |]. destruct w as [x |]; [| done].
      constructor; [by apply IHw | done].
    + split; [| done]. by intros x [= <-].
Qed.

Lemma split_ws_nonempty (s : string) : Forall (fun x => x <> EmptyString) (split_ws s).
Proof.
  unfold split_ws. destruct (split_ws_go_nonempty s) as [Hw Hws].
  destruct (split_ws_go s) as [[x |] ws]; cbn [fst snd] in *; [| done].
  constructor; [by apply Hw | done].
Qed.

Lemma join_nonempty (sep x : string) (l : list string) :
  x <> EmptyString -> join sep (x :: l) <> EmptyString.
Proof.
  intros Hx. destruct l as [| y l]; cbn [join]; [done |].
  by apply append_nonempty_l.
Qed.

(** One row: it raises exactly when it is a bad row, and adds at most one
    network otherwise. *)
Lemma airport_row_outcome (networks : list WiFiNetwork.t) (line : string) :
  if bad_row line
  then exists lit, airport_row networks line = Raise (ValueError lit)
  else exists found,
         airport_row networks line = Return (networks ++ found)
         /\ Forall airport_network found /\ (length found <= 1)%nat.
Proof.
  assert (Hnone : exists found : list WiFiNetwork.t,
            Return networks = Return (networks ++ found)
            /\ Forall airport_network found /\ (length found <= 1)%nat).
  { exists []. rewrite app_nil_r. split; [done |]. split; [constructor | simpl; lia]. }
  unfold bad_row, airport_row. destruct (strip line); [exact Hnone |].
  pose proof (split_ws_nonempty line) as Hne.
  destruct (split_ws line) as [| f0 [| f1 [| p2 [| p3 [| f4 [| f5 rest]]]]]];
    try exact Hnone.
  unfold int_field.
  destruct (int_value p2) as [sg |]; cbn [bind_r]; [| by eexists].
  destruct (int_value p3) as [ch |]; cbn [bind_r]; [| by eexists].
  eexists [_]. split; [reflexivity |]. split; [| simpl; lia].
  constructor; [| constructor]. unfold airport_network.
  cbn [WiFiNetwork.quality WiFiNetwork.signal_strength WiFiNetwork.frequency
       WiFiNetwork.channel WiFiNetwork.vendor WiFiNetwork.bssid WiFiNetwork.encryption].
  split; [done |]. split; [done |]. split; [done |].
  destruct rest as [| x rest]; [discriminate |].
  apply join_nonempty.
  do 6 (apply Forall_cons in Hne as [_ Hne]). by apply Forall_cons in Hne as [Hx _].
Qed.

Lemma airport_rows_outcome (lines : list string) :
  forall networks : list WiFiNetwork.t,
    if existsb bad_row lines
    then exists lit, for_each airport_row lines networks = Raise (ValueError lit)
    else exists found,
           for_each airport_row lines networks = Return (networks ++ found)
           /\ Forall airport_network found /\ (length found <= length lines)%nat.
Proof.
  induction lines as [| line lines IH]; intros networks; cbn [existsb for_each].
  - exists []. rewrite app_nil_r. split; [done |]. split; [constructor | simpl; lia].
  - pose proof (airport_row_outcome networks line) as H.
    destruct (bad_row line); cbn [orb].
    + destruct H as [lit ->]. by exists lit.
    + destruct H as (f1 & -> & H1 & L1). cbn [bind_r].
      specialize (IH (networks ++ f1)).
      destruct (existsb bad_row lines); [exact IH |].
      destruct IH as (f2 & -> & H2 & L2). exists (f1 ++ f2).
      rewrite app_assoc. split; [done |].
      split; [by apply Forall_app | rewrite length_app; simpl; lia].
Qed.

(** X23. The macOS scan returns no network when the airport listing
    fails. Otherwise it raises ValueError exactly when some row after the
    header is not blank and has at least six fields of which the third or
    the fourth is no integer literal (as the channel 149,+1), and nothing
    in the scan catches it. When it returns, every network has the quality
    of its signal strength, the band label of its channel, the vendor of
    its address and a non-empty encryption label, and there are at most as
    many networks as lines after the header. *)
Theorem scan_wifi_mac_outcome (w : world) (tr : trace) :
  let '(success, output, _) := answer w tr (airport +:+ " -s") true 30 in
  if negb success then fst (_scan_wifi_mac w tr) = Return []
  else if existsb bad_row (drop 1 (split newline (strip output)))
  then exists lit, fst (_scan_wifi_mac w tr) = Raise (ValueError lit)
  else exists networks,
         fst (_scan_wifi_mac w tr) = Return networks
         /\ Forall airport_network networks
         /\ (length networks <= length (split newline (strip output)) - 1)%nat.
Proof.
  unfold _scan_wifi_mac. rewrite bind_run.
  destruct (answer w tr (airport +:+ " -s") true 30) as [[success output] err].
  destruct success; cbn [negb]; [| reflexivity].
  pose proof (airport_rows_outcome (drop 1 (split newline (strip output))) []) as H.
  destruct (existsb bad_row (drop 1 (split newline (strip output)))).
  - destruct H as [lit H]. exists lit. unfold lift. by rewrite H.
  - destruct H as (found & H & Hall & Hlen). exists found. unfold lift. rewrite H.
    split; [done |]. split; [done |]. by rewrite length_drop in Hlen.
Qed.

(** The scan at a listing whose second row has the channel 149,+1. *)
Example scan_wifi_mac_wide_channel :
  fst (_scan_wifi_mac (scripted [(airport +:+ " -s", exits 0 airport_scan_output)]) [])
  = Raise (ValueError "149,+1").
Proof. vm_compute. reflexivity. Qed.

(** ** When the interface detection raises *)

Lemma bad_wifi_listing_field (lines : list string) (lit : string) :
  bad_wifi_listing lines = Some lit -> superscript_field lit = true.
Proof.
  induction lines as [| line lines IH]; cbn [bad_wifi_listing]; [discriminate |].
  destruct (startswith "*" line); [| exact IH].
  destruct (split ":" line) as [| p0 [| p1 [| p2 [| p3 rest]]]]; try discriminate.
  destruct (superscript_field p1) eqn:E1; [by intros [= <-] |].
  destruct (superscript_field p3) eqn:E3; [by intros [= <-] | discriminate].
Qed.

(** The nmcli interface parser returns an interface, or raises
    IndexError, or raises ValueError for a superscript field. *)
Lemma nmcli_parser_cases (device iface_type state connection : string)
    (w : world) (tr : trace) :
  exists tr' : trace,
    (exists i, _parse_linux_interface_nmcli device iface_type state connection w tr
               = (Return (Some i), tr'))
    \/ _parse_linux_interface_nmcli device iface_type state connection w tr
       = (Raise IndexError, tr')
    \/ (exists lit,
          superscript_field lit = true
          /\ _parse_linux_interface_nmcli device iface_type state connection w tr
             = (Raise (ValueError lit), tr')).
Proof.
  pose proof (nmcli_parser_outcome device iface_type state connection w tr) as H.
  destruct (answer w tr _ true 30) as [[success output] err].
  destruct (success && existsb colonless_line (split newline output)).
  { destruct H as [tr' H]. exists tr'. right. by left. }
  destruct (wifi_listing_fault device iface_type w tr) as [lit |] eqn:E.
  - destruct H as [tr' H]. exists tr'. right. right. exists lit. split; [| exact H].
    unfold wifi_listing_fault in E. cbv zeta in E.
    destruct (String.eqb iface_type "wifi"); [| discriminate].
    destruct (answer w _ _ true 30) as [[s1 o1] e1] in E.
    destruct s1; [| discriminate]. by apply bad_wifi_listing_field in E.
  - destruct H as (i & tr' & H). exists tr'. left. by exists i.
Qed.

Lemma detect_nmcli_loop_outcome (lines : list string) (w : world) :
  forall (interfaces : list NetworkInterface.t) (tr : trace),
  exists tr' : trace,
    (exists found, _detect_linux_nmcli_loop lines interfaces w tr
                   = (Return (interfaces ++ found), tr')
                   /\ (length found <= length lines)%nat)
    \/ _detect_linux_nmcli_loop lines interfaces w tr = (Raise IndexError, tr')
    \/ (exists lit,
          superscript_field lit = true
          /\ _detect_linux_nmcli_loop lines interfaces w tr
             = (Raise (ValueError lit), tr')).
Proof.
  induction lines as [| line lines IH]; intros interfaces tr;
    cbn [_detect_linux_nmcli_loop].
  - exists tr. left. exists []. by rewrite app_nil_r.
  - assert (Hskip : exists tr' : trace,
              (exists found, _detect_linux_nmcli_loop lines interfaces w tr
                             = (Return (interfaces ++ found), tr')
                             /\ (length found <= length (line :: lines))%nat)
              \/ _detect_linux_nmcli_loop lines interfaces w tr = (Raise IndexError, tr')
              \/ (exists lit,
                    superscript_field lit = true
                    /\ _detect_linux_nmcli_loop lines interfaces w tr
                       = (Raise (ValueError lit), tr'))).
    { destruct (IH interfaces tr) as [tr' [(found & E & L) | E]]; exists tr';
        [left; exists found; split; [done | simpl; lia] | by right]. }
    destruct line as [| c line]; [exact Hskip |].
    destruct (split ":" (String c line)) as [| device [| iface_type [| state [| connection rest]]]];
      try exact Hskip.
    destruct (nmcli_parser_cases device iface_type state connection w tr)
      as [tr1 [[i E] | [E | (lit & Hlit & E)]]]; unfold bind; rewrite E.
    + destruct (IH (interfaces ++ [i]) tr1) as [tr' [(found & E' & L) | E']]; exists tr'.
      * left. exists (i :: found). rewrite E'. rewrite <- app_assoc.
        split; [done | simpl; lia].
      * by right.
    + exists tr1. right. by left.
    + exists tr1. right. right. by exists lit.
Qed.

(** X24. The interface detection returns a list of interfaces, or raises
    IndexError, or raises ValueError for a field that passes isdigit and
    is no int literal. It can raise only on Linux, when which nmcli
    succeeds and the nmcli device listing that follows succeeds too: on
    macOS, and on Linux without nmcli, it always returns. *)
Theorem detection_raises_only_with_nmcli (is_mac : bool) (w : world) (tr : trace) :
  (exists interfaces tr',
     detect_network_interfaces is_mac w tr = (Return interfaces, tr'))
  \/ (is_mac = false
      /\ fst (fst (answer w tr "which nmcli" true 30)) = true
      /\ fst (fst (answer w
                     (tr ++ [called "which nmcli" (answer w tr "which nmcli" true 30)])
                     "nmcli -t -f DEVICE,TYPE,STATE,CONNECTION device" true 30)) = true
      /\ (fst (detect_network_interfaces is_mac w tr) = Raise IndexError
          \/ exists lit,
               superscript_field lit = true
               /\ fst (detect_network_interfaces is_mac w tr) = Raise (ValueError lit))).
Proof.
  unfold detect_network_interfaces. destruct is_mac.
  - left. unfold _detect_mac_interfaces. rewrite bind_run.
    destruct (answer w tr "networksetup -listallhardwareports" true 30)
      as [[success output] err].
    destruct success; cbn [negb]; [| by eexists _, _].
    match goal with
    | |- exists _ _, _ w ?t = _ =>
        destruct (detect_mac_loop (split newline output) ∅ [] w t)
          as (r & tr' & Hr & _)
    end.
    by exists r, tr'.
  - unfold _detect_linux_interfaces. rewrite bind_run.
    destruct (answer w tr "which nmcli" true 30) as [[has_nmcli out] err].
    cbn [fst]. destruct has_nmcli.
    + unfold _detect_linux_nmcli. rewrite bind_run.
      destruct (answer w _ "nmcli -t -f DEVICE,TYPE,STATE,CONNECTION device" true 30)
        as [[success output] err'].
      cbn [fst]. destruct success; [| left; by eexists _, _].
      match goal with
      | |- (exists _ _, _ w ?t = _) \/ _ =>
          destruct (detect_nmcli_loop_outcome (split newline (strip output)) w [] t)
            as [tr' [(found & E & _) | [E | (lit & Hlit & E)]]]
      end.
      * left. by exists found, tr'.
      * right. rewrite E. repeat split. by left.
      * right. rewrite E. repeat split. right. by exists lit.
    + left. unfold _detect_linux_legacy.
      match goal with
      | |- exists _ _, ?c w ?t = _ =>
          assert (H : returns c (fun _ => True)); [| destruct (H w t) as (r & tr' & E & _)]
      end.
      { apply (returns_bind _ _ _ _ (returns_run _)); intros [[success output] err'] _.
        destruct success; [| by apply returns_ret].
        eapply returns_weaken; [apply legacy_detection_total; constructor | done]. }
      by exists r, tr'.
Qed.

(** The detection at a host whose WiFi listing shows a superscript two
    as the signal: the exception leaves the detection. *)
Example detection_superscript :
  fst (detect_network_interfaces false world_nmcli_superscript [])
  = Raise (ValueError superscript_two).
Proof. vm_compute. reflexivity. Qed.

(** The detection at a host whose listing for eth0 has a gateway line
    with no colon: the exception leaves the detection. *)
Example detection_colonless :
  fst (detect_network_interfaces false world_nmcli_colonless []) = Raise IndexError.
Proof. vm_compute. reflexivity. Qed.

(** ** The ping test *)

Lemma float_number_digits (st : float_state) (d rest : string) :
  st = FInt \/ st = FFrac ->
  all_chars is_digit d = true ->
  float_number st (d +:+ rest) = float_number st rest.
Proof.
  intros Hst Hd. induction d as [| c d IH]; [reflexivity |].
  cbn [all_chars] in Hd. apply andb_true_iff in Hd as [Hc Hd].
  rewrite append_cons. cbn [float_number].
  destruct Hst as [-> | ->]; cbn [float_step]; rewrite Hc; by apply IH.
Qed.

(** A run of digits, an optional point and a run of digits is a float
    literal when the first run is not empty. *)
Lemma float_of_figure (a b c : string) :
  all_chars is_digit a = true -> (1 <= String.length a)%nat ->
  all_chars (is_char ".") b = true -> (String.length b <= 1)%nat ->
  all_chars is_digit c = true ->
  float_number FStart (a +:+ b +:+ c) = true.
Proof.
  intros Ha La Hb Lb Hc.
  destruct a as [| d a]; [simpl in La; lia |].
  cbn [all_chars] in Ha. apply andb_true_iff in Ha as [Hd Ha].
  rewrite append_cons. cbn [float_number float_step]. rewrite Hd.
  rewrite float_number_digits; [| by left | done].
  assert (Hfrac : forall s, all_chars is_digit s = true -> float_number FFrac s = true).
  { intros s Hs. rewrite <- (append_empty_r s).
    by rewrite float_number_digits; [| by right |]. }
  destruct b as [| p [| p' b]]; [| | simpl in Lb; lia].
  - change (EmptyString +:+ c) with c. rewrite <- (append_empty_r c).
    by rewrite float_number_digits; [| by left |].
  - cbn [all_chars] in Hb. rewrite andb_true_r in Hb.
    rewrite append_cons. change (EmptyString +:+ c) with c.
    cbn [float_number float_step].
    assert (Hp : is_digit p = false).
    { unfold is_char in Hb. apply Ascii.eqb_eq in Hb as <-. reflexivity. }
    rewrite Hp.
    assert (Hu : is_char "_" p = false).
    { unfold is_char in *. apply Ascii.eqb_eq in Hb as <-. reflexivity. }
    rewrite Hu, Hb.
    destruct c as [| e c]; [reflexivity |].
    cbn [all_chars] in Hc. apply andb_true_iff in Hc as [He Hc].
    cbn [float_number float_step]. rewrite He. by apply Hfrac.
Qed.

Lemma rstrip_no_space (s : string) :
  all_chars (fun c => negb (is_space c)) s = true -> rstrip s = s.
Proof.
  induction s as [| c s IH]; [reflexivity |]. cbn [all_chars rstrip].
  intros [Hc Hs]%andb_true_iff. rewrite (IH Hs).
  apply negb_true_iff in Hc. rewrite Hc. by destruct s.
Qed.

Lemma strip_no_space (s : string) :
  all_chars (fun c => negb (is_space c)) s = true -> strip s = s.
Proof.
  intros Hs. unfold strip. rewrite (rstrip_no_space s Hs).
  destruct s as [| c s]; [reflexivity |]. cbn [all_chars] in Hs.
  apply andb_true_iff in Hs as [Hc _]. apply negb_true_iff in Hc.
  cbn [lstrip]. by rewrite Hc.
Qed.

Lemma all_chars_append (p : ascii -> bool) (s t : string) :
  all_chars p s = true -> all_chars p t = true -> all_chars p (s +:+ t) = true.
Proof.
  intros Hs Ht. induction s as [| c s IH]; [exact Ht |].
  cbn [all_chars] in Hs. apply andb_true_iff in Hs as [Hc Hs].
  rewrite append_cons. cbn [all_chars]. by rewrite Hc, IH.
Qed.

Lemma all_chars_weaken (p q : ascii -> bool) (s : string) :
  (forall c, p c = true -> q c = true) -> all_chars p s = true -> all_chars q s = true.
Proof.
  intros Hpq. induction s as [| c s IH]; [done |]. cbn [all_chars].
  intros [Hc Hs]%andb_true_iff. by rewrite (Hpq c Hc), IH.
Qed.

Lemma digit_facts (c : ascii) :
  is_digit c = true -> is_space c = false /\ is_sign c = false.
Proof.
  unfold is_digit, is_space, is_sign, is_char, in_range, code.
  destruct c as [[] [] [] [] [] [] [] []]; vm_compute; intros H;
    first [discriminate H | by split].
Qed.

(** [float()] never raises on the group of the ping pattern. *)
Lemma float_of_ping_group (output : string) (m : match_object) :
  re_search re_ping output = Some m ->
  float_of_str (group m 1) = Return (Float (group m 1)).
Proof.
  intros E. apply re_search_shape in E. unfold re_ping in E.
  apply shape_lits in E. cbn [app grp plus opt star shape] in E. open_shape E.
  cbv [push_text default from_option id rev app] in E. subst m.
  cbv [group nth Nat.pred].
  change (EmptyString +:+ r) with r.
  assert (Hlit : float_literal ((r +:+ r0) +:+ r1) = true).
  { unfold float_literal.
    assert (Hns : all_chars (fun c => negb (is_space c)) ((r +:+ r0) +:+ r1) = true).
    { apply all_chars_append; [apply all_chars_append |].
      - eapply all_chars_weaken; [| eassumption].
        intros c Hc. destruct (digit_facts c Hc) as [-> _]. reflexivity.
      - eapply all_chars_weaken; [| eassumption].
        intros c Hc. unfold is_char in Hc. apply Ascii.eqb_eq in Hc as <-. reflexivity.
      - eapply all_chars_weaken; [| eassumption].
        intros c Hc. destruct (digit_facts c Hc) as [-> _]. reflexivity. }
    rewrite (strip_no_space _ Hns).
    destruct r as [| d r]; [simpl in *; lia |].
    rewrite !append_cons.
    match goal with
    | H : all_chars is_digit (String d r) = true |- _ =>
        pose proof H as Hd; cbn [all_chars] in Hd;
        apply andb_true_iff in Hd as [Hd _]
    end.
    destruct (digit_facts d Hd) as [_ ->].
    rewrite <- !append_cons.
    replace ((String d r +:+ r0) +:+ r1) with (String d r +:+ r0 +:+ r1).
    - rewrite float_of_figure; try done.
    - clear. induction (String d r) as [| c s IH]; [reflexivity |].
      rewrite !append_cons. by rewrite IH. }
  unfold float_of_str. by rewrite Hlit.
Qed.

(** One host: the body never raises, runs one command, and returns the
    figure of its answer. *)
Lemma ping_host_outcome (host : string) (w : world) (tr : trace) :
  try_except (ping_host host) (fun _ => ret None) w tr =
    (Return (match ping_figure w tr host with
             | Some lit => Some (Float lit)
             | None => None
             end),
     tr ++ [called (ping_command host) (answer w tr (ping_command host) true 10)]).
Proof.
  unfold try_except, ping_host, ping_figure. rewrite bind_run_command.
  destruct (answer w tr (ping_command host) true 10) as [[success output] err].
  destruct success; [| reflexivity].
  destruct (re_search re_ping output) as [m |] eqn:E; [| reflexivity].
  unfold bind, lift, ret, group1. by rewrite (float_of_ping_group output m E).
Qed.

Lemma test_ping_loop (hosts : list string) (w : world) :
  forall tr : trace,
  exists (ping : py_float) (calls : trace),
    _test_ping_loop hosts w tr = (Return ping, tr ++ calls)
    /\ map call_command calls = take (length calls) (map ping_command hosts)
    /\ (forall (k : nat) (host : string),
          hosts !! k = Some host -> (S k < length calls)%nat ->
          ping_figure w (tr ++ take k calls) host = None)
    /\ ((ping = Float "999.0" /\ length calls = length hosts
         /\ forall host, hosts !! Nat.pred (length calls) = Some host ->
                         ping_figure w (tr ++ removelast calls) host = None)
        \/ (exists host lit,
              hosts !! Nat.pred (length calls) = Some host /\ calls <> []
              /\ ping_figure w (tr ++ removelast calls) host = Some lit
              /\ ping = Float lit)).
Proof.
  induction hosts as [| host rest IH]; intros tr; cbn [_test_ping_loop].
  - exists (Float "999.0"), []. unfold ret. rewrite app_nil_r.
    split; [done |]. split; [done |]. split; [intros k h; simpl; lia |].
    left. split; [done |]. split; [done |]. intros h. by rewrite lookup_nil.
  - unfold bind. rewrite ping_host_outcome.
    set (c0 := called (ping_command host) (answer w tr (ping_command host) true 10)).
    destruct (ping_figure w tr host) as [lit |] eqn:Ef.
    + exists (Float lit), [c0]. unfold ret. split; [done |].
      split; [subst c0; by destruct (answer w tr _ true 10) as [[? ?] ?] |].
      split; [intros k h _; simpl; lia |].
      right. exists host, lit. cbn [length Nat.pred removelast].
      rewrite app_nil_r. by repeat split.
    + destruct (IH (tr ++ [c0])) as (ping & calls & E & Hc & Hnone & Hlast).
      exists ping, (c0 :: calls). rewrite E, <- app_assoc.
      split; [done |]. split.
      { cbn [map length take]. rewrite <- Hc.
        f_equal; subst c0; by destruct (answer w tr _ true 10) as [[? ?] ?]. }
      split.
      { intros [| k] h Hk Hlt.
        - cbn in Hk. injection Hk as <-. cbn [take]. by rewrite app_nil_r.
        - cbn [take]. change (tr ++ c0 :: take k calls) with (tr ++ [c0] ++ take k calls).
          rewrite app_assoc. apply Hnone; [exact Hk |]. simpl in Hlt. lia. }
      destruct calls as [| c1 calls].
      { destruct Hlast as [(-> & Hl & Hh) | (h & l & _ & Hne & _)]; [| done].
        left. destruct rest; [| discriminate Hl].
        split; [done |]. split; [done |].
        intros h [= <-]. cbn [removelast]. by rewrite app_nil_r. }
      change (removelast (c0 :: c1 :: calls)) with (c0 :: removelast (c1 :: calls)).
      change (tr ++ c0 :: removelast (c1 :: calls))
        with (tr ++ [c0] ++ removelast (c1 :: calls)).
      rewrite app_assoc.
      destruct Hlast as [(-> & Hl & Hh) | (h & l & Hh & Hne & Hf & ->)].
      * left. split; [done |]. split; [simpl in *; lia |]. exact Hh.
      * right. exists h, l. by repeat split.
Qed.

(** X25. The ping test never raises. It pings 8.8.8.8, 1.1.1.1 and
    google.com in this order and stops at the first host whose command
    succeeds with a time figure in its output: the result is the float of
    that figure (which float() always accepts), every host before it had
    none, and the hosts after it are not pinged. The result is 999.0
    when all three were pinged and none had a figure. *)
Theorem test_ping_first_figure (w : world) (tr : trace) :
  exists (ping : py_float) (calls : trace),
    _test_ping w tr = (Return ping, tr ++ calls)
    /\ map call_command calls = take (length calls) (map ping_command test_hosts)
    /\ (forall (k : nat) (host : string),
          test_hosts !! k = Some host -> (S k < length calls)%nat ->
          ping_figure w (tr ++ take k calls) host = None)
    /\ ((ping = Float "999.0" /\ length calls = 3%nat
         /\ ping_figure w (tr ++ removelast calls) "google.com" = None)
        \/ (exists host lit,
              test_hosts !! Nat.pred (length calls) = Some host /\ calls <> []
              /\ ping_figure w (tr ++ removelast calls) host = Some lit
              /\ ping = Float lit)).
Proof.
  destruct (test_ping_loop test_hosts w tr) as (ping & calls & E & Hc & Hnone & Hlast).
  exists ping, calls. split; [exact E |]. split; [exact Hc |]. split; [exact Hnone |].
  destruct Hlast as [(-> & Hl & Hh) | H]; [left | by right].
  split; [done |]. split; [exact Hl |]. apply Hh. by rewrite Hl.
Qed.

(** The ping test at a host that answers 1.1.1.1 only. *)
Example test_ping_second_host :
  _test_ping world_ping_second []
  = (Return (Float "12.5"),
     [{| call_command := "ping -c 3 8.8.8.8"; call_succeeded := false |};
      {| call_command := "ping -c 3 1.1.1.1"; call_succeeded := true |}]).
Proof. vm_compute. reflexivity. Qed.

(** ** IP conflicts and the Linux parsers *)






